(** * VandyVisor: extraction and normalisation logic

    A shallow embedding of the scraping and flattening code of the repository
    (config/mappings, scripts/course_scraping, scripts/user_data_processing)
    and the properties its specification states about it.

    Python strings are modelled by [string], one [ascii] per code point
    (code points below 256); Python dictionaries by insertion-ordered
    association lists; exceptions by the [result] type. *)

From Stdlib Require Import List String Ascii ZArith Arith Bool Lia.
From Stdlib Require Import Floats.SpecFloat Numbers.DecimalString.
From Stdlib Require Import Sorting.Sorted Sorting.Permutation.
Import ListNotations.
Open Scope string_scope.
Open Scope list_scope.
Open Scope nat_scope.
Set Warnings "-register-all".

(* ################################################################# *)
(** * Part I: the program *)

(* ================================================================= *)
(** ** Python strings *)

Module Str.

(** [str.isspace] on a single code point below 256. *)
Definition is_space (c : ascii) : bool :=
  let n := nat_of_ascii c in
  ((9 <=? n) && (n <=? 13)) || ((28 <=? n) && (n <=? 32))
  || (n =? 133) || (n =? 160).

Definition is_upper (c : ascii) : bool :=
  let n := nat_of_ascii c in (65 <=? n) && (n <=? 90).

Definition is_digit (c : ascii) : bool :=
  let n := nat_of_ascii c in (48 <=? n) && (n <=? 57).

Fixpoint all_chars (p : ascii -> bool) (s : string) : bool :=
  match s with
  | EmptyString => true
  | String c s' => p c && all_chars p s'
  end.

Fixpoint mem_char (c : ascii) (s : string) : bool :=
  match s with
  | EmptyString => false
  | String c' s' => Ascii.eqb c c' || mem_char c s'
  end.

Fixpoint take (n : nat) (s : string) : string :=
  match n, s with
  | S n', String c s' => String c (take n' s')
  | _, _ => EmptyString
  end.

Fixpoint drop (n : nat) (s : string) : string :=
  match n, s with
  | S n', String _ s' => drop n' s'
  | _, _ => s
  end.

(** [s.find(sub)]: index of the first occurrence, [None] for Python's -1. *)
Fixpoint find (sub s : string) : option nat :=
  if prefix sub s then Some 0
  else match s with
       | EmptyString => None
       | String _ s' => option_map S (find sub s')
       end.

(** [sub in s] *)
Definition contains (sub s : string) : bool :=
  match find sub s with Some _ => true | None => false end.

(** [s.split(sep, maxsplit)] for a non-empty separator; [maxsplit = None]
    is Python's default of -1.  Every step removes at least one character,
    so [S (length s)] rounds always reach the end of the string. *)
Fixpoint split_rounds (rounds : nat) (sep : string) (maxsplit : option nat)
         (s : string) : list string :=
  match rounds with
  | O => [s]
  | S rounds' =>
      match maxsplit with
      | Some O => [s]
      | _ =>
          match find sep s with
          | None => [s]
          | Some i =>
              take i s ::
              split_rounds rounds' sep (option_map pred maxsplit)
                           (drop (i + length sep) s)
          end
      end
  end.

Definition split (sep : string) (maxsplit : option nat) (s : string)
  : list string :=
  split_rounds (S (length s)) sep maxsplit s.

Fixpoint lstrip_chars (p : ascii -> bool) (s : string) : string :=
  match s with
  | EmptyString => EmptyString
  | String c s' => if p c then lstrip_chars p s' else s
  end.

Fixpoint rstrip_chars (p : ascii -> bool) (s : string) : string :=
  match s with
  | EmptyString => EmptyString
  | String c s' =>
      match rstrip_chars p s' with
      | EmptyString => if p c then EmptyString else String c EmptyString
      | r => String c r
      end
  end.

Definition strip_chars (p : ascii -> bool) (s : string) : string :=
  rstrip_chars p (lstrip_chars p s).

(** [s.strip()] *)
Definition strip (s : string) : string := strip_chars is_space s.

(** [s.strip(chars)] *)
Definition strip_set (chars s : string) : string :=
  strip_chars (fun c => mem_char c chars) s.

(** [s.replace(c, "")] for a one-character [c]. *)
Fixpoint remove_char (c : ascii) (s : string) : string :=
  match s with
  | EmptyString => EmptyString
  | String c' s' =>
      if Ascii.eqb c c' then remove_char c s' else String c' (remove_char c s')
  end.

(** [sep.join(parts)] *)
Definition join (sep : string) (parts : list string) : string :=
  String.concat sep parts.

(** [str(n)] for an integer. *)
Definition of_Z (n : Z) : string := NilZero.string_of_int (Z.to_int n).

End Str.

(* ================================================================= *)
(** ** The fragment of Python's [re] the scrapers use

  Every pattern in the repository is a sequence of literal characters,
  anchors and repeated character classes, each repetition greedy or lazy
  and optionally a capture group.  The matcher backtracks the way [re]
  does: a greedy repetition tries the longest run first, a lazy one the
  shortest. *)

Module Re.

Inductive atom : Type :=
| Lit (c : ascii)
| Rep (capture greedy : bool) (cls : ascii -> bool)
      (lo : nat) (hi : option nat)
| Bos                                   (* ^ *)
| Eos.                                  (* $ *)

Definition regex := list atom.

(** A literal piece of pattern text. *)
Fixpoint lit (s : string) : regex :=
  match s with
  | EmptyString => []
  | String c s' => Lit c :: lit s'
  end.

(** Character classes. *)
Definition space : ascii -> bool := Str.is_space.                (* \s *)
Definition digit : ascii -> bool := Str.is_digit.                (* \d *)
Definition upper : ascii -> bool := Str.is_upper.                (* [A-Z] *)
Definition upper_or_digit (c : ascii) : bool :=                  (* [A-Z\d] *)
  Str.is_upper c || Str.is_digit c.
Definition dot (c : ascii) : bool :=                             (* . *)
  negb (Ascii.eqb c "010"%char).

Definition or_else {A} (a : option A) (b : unit -> option A) : option A :=
  match a with Some r => Some r | None => b tt end.

Definition room (hi : option nat) : bool :=
  match hi with Some O => false | _ => true end.

(** [rep greedy cls lo hi k acc s]: match between [lo] and [hi] characters
    of class [cls] at the head of [s], then continue with [k] on the text
    matched (appended to [acc]) and the remainder. *)
Fixpoint rep {R} (greedy : bool) (cls : ascii -> bool) (lo : nat)
         (hi : option nat) (k : string -> string -> option R)
         (acc : string) (s : string) {struct s} : option R :=
  let stop := fun _ : unit => match lo with O => k acc s | S _ => None end in
  let more := fun _ : unit =>
    match s with
    | EmptyString => None
    | String c s' =>
        if cls c && room hi
        then rep greedy cls (pred lo) (option_map pred hi) k
                 (acc ++ String c EmptyString)%string s'
        else None
    end in
  if greedy then or_else (more tt) stop else or_else (stop tt) more.

Definition at_end (s : string) : bool :=
  match s with
  | EmptyString => true
  | String c EmptyString => Ascii.eqb c "010"%char
  | _ => false
  end.

(** [match_here re bos caps s]: match [re] at the head of [s]; [bos] tells
    whether the head of [s] is the beginning of the subject string.  The
    result is the captured groups in order and the unmatched remainder. *)
Fixpoint match_here (re : regex) (bos : bool) (caps : list string)
         (s : string) {struct re} : option (list string * string) :=
  match re with
  | [] => Some (caps, s)
  | Lit c :: re' =>
      match s with
      | String c' s' =>
          if Ascii.eqb c c' then match_here re' false caps s' else None
      | EmptyString => None
      end
  | Rep capture greedy cls lo hi :: re' =>
      rep greedy cls lo hi
          (fun w rest =>
             match_here re'
                        (bos && match w with EmptyString => true | _ => false end)
                        (if capture then caps ++ [w] else caps) rest)
          EmptyString s
  | Bos :: re' => if bos then match_here re' bos caps s else None
  | Eos :: re' => if at_end s then match_here re' bos caps s else None
  end.

(** [re.match(re, s)]: the groups of a match anchored at the start. *)
Definition re_match (re : regex) (s : string) : option (list string) :=
  option_map fst (match_here re true [] s).

(** [re.search(re, s)]: the text before the leftmost match, its groups and
    the text after it. *)
Fixpoint search_from (re : regex) (bos : bool) (before : string)
         (s : string) : option (string * list string * string) :=
  match match_here re bos [] s with
  | Some (caps, rest) => Some (before, caps, rest)
  | None =>
      match s with
      | EmptyString => None
      | String c s' =>
          search_from re false (before ++ String c EmptyString)%string s'
      end
  end.

Definition search (re : regex) (s : string) := search_from re true "" s.

(** [re.split(re, s, maxsplit=1)] for a pattern without groups. *)
Definition split_once (re : regex) (s : string) : list string :=
  match search re s with
  | Some (before, _, rest) => [before; rest]
  | None => [s]
  end.

(** [re.findall(re, s)]: the groups of the successive non-overlapping
    matches, left to right.  [skip] counts the characters of the previous
    match still to be passed over. *)
Fixpoint findall_from (re : regex) (skip : nat) (bos : bool) (s : string)
  : list (list string) :=
  let here := match skip with
              | O => match_here re bos [] s
              | S _ => None
              end in
  match here with
  | Some (caps, rest) =>
      caps ::
      match s with
      | EmptyString => []
      | String _ s' =>
          findall_from re (pred (length s - length rest)) false s'
      end
  | None =>
      match s with
      | EmptyString => []
      | String _ s' => findall_from re (pred skip) false s'
      end
  end.

Definition findall (re : regex) (s : string) : list (list string) :=
  findall_from re 0 true s.

(** [re.sub(re, "", s)]: [s] without the successive matches of [re]. *)
Fixpoint remove_from (re : regex) (skip : nat) (bos : bool) (s : string)
  : string :=
  match s with
  | EmptyString => EmptyString
  | String c s' =>
      match skip with
      | S skip' => remove_from re skip' false s'
      | O =>
          match match_here re bos [] s with
          | Some (_, rest) =>
              match length s - length rest with
              | O => String c (remove_from re 0 false s')
              | S n => remove_from re n false s'
              end
          | None => String c (remove_from re 0 false s')
          end
      end
  end.

Definition remove_all (re : regex) (s : string) : string :=
  remove_from re 0 true s.

End Re.

(* ================================================================= *)
(** ** Python values, dictionaries and exceptions *)

Module Py.

(** The subclasses of [Exception] the code can meet. *)
Inductive exn : Type :=
| RequestException | ValueError | KeyError | IndexError | TypeError
| AttributeError | OtherException.

Inductive result (A : Type) : Type :=
| Ok (a : A)
| Raise (e : exn).
Arguments Ok {A} a.
Arguments Raise {A} e.

Definition bind {A B} (m : result A) (f : A -> result B) : result B :=
  match m with
  | Ok a => f a
  | Raise e => Raise e
  end.

(** A dictionary keeps its items in insertion order; a key occurs once. *)
Definition dict (V : Type) := list (string * V).

Fixpoint dict_get {V} (k : string) (d : dict V) : option V :=
  match d with
  | [] => None
  | (k', v) :: d' => if String.eqb k k' then Some v else dict_get k d'
  end.

(** [d[k] = v] *)
Fixpoint dict_set {V} (k : string) (v : V) (d : dict V) : dict V :=
  match d with
  | [] => [(k, v)]
  | (k', v') :: d' =>
      if String.eqb k k' then (k, v) :: d' else (k', v') :: dict_set k v d'
  end.

(** [{**d, k1: v1, ...}] and [d.update(items)]. *)
Definition dict_update {V} (d : dict V) (items : list (string * V)) : dict V :=
  fold_left (fun acc kv => dict_set (fst kv) (snd kv) acc) items d.

(** A dictionary display [{k1: v1, ...}]. *)
Definition dict_of {V} (items : list (string * V)) : dict V :=
  dict_update [] items.

Definition keys {V} (d : dict V) : list string := map fst d.

(** [d[k]] *)
Definition getitem {V} (d : dict V) (k : string) : result V :=
  match dict_get k d with
  | Some v => Ok v
  | None => Raise KeyError
  end.

(** [xs[i]] *)
Definition index {A} (xs : list A) (i : nat) : result A :=
  match nth_error xs i with
  | Some x => Ok x
  | None => Raise IndexError
  end.

(** [s.split(sep, maxsplit)]; an empty separator is a [ValueError]. *)
Definition split (s sep : string) (maxsplit : option nat)
  : result (list string) :=
  match sep with
  | EmptyString => Raise ValueError
  | _ => Ok (Str.split sep maxsplit s)
  end.

(** What [json.load] returns and what the rows hold. *)
Inductive value : Type :=
| VNone
| VBool (b : bool)
| VInt (n : Z)
| VFloat (f : spec_float)
| VStr (s : string)
| VList (xs : list value)
| VDict (items : list (string * value)).

(** [bool(v)] *)
Definition truthy (v : value) : bool :=
  match v with
  | VNone => false
  | VBool b => b
  | VInt n => negb (Z.eqb n 0)
  | VFloat (S754_zero _) => false
  | VFloat _ => true
  | VStr EmptyString => false
  | VStr _ => true
  | VList [] => false
  | VList _ => true
  | VDict [] => false
  | VDict _ => true
  end.

(** [v.get(k, default)]: only dictionaries have [get]. *)
Definition get (v : value) (k : string) (default : value) : result value :=
  match v with
  | VDict d => Ok (match dict_get k d with Some x => x | None => default end)
  | _ => Raise AttributeError
  end.

Fixpoint chars (s : string) : list value :=
  match s with
  | EmptyString => []
  | String c s' => VStr (String c EmptyString) :: chars s'
  end.

(** The items a [for] loop over [v] visits. *)
Definition iter (v : value) : result (list value) :=
  match v with
  | VList xs => Ok xs
  | VDict d => Ok (map (fun kv => VStr (fst kv)) d)
  | VStr s => Ok (chars s)
  | _ => Raise TypeError
  end.

(** [for x in xs: body], threading the state the body mutates. *)
Fixpoint for_in {A S} (xs : list A) (body : A -> S -> result S) (st : S)
  : result S :=
  match xs with
  | [] => Ok st
  | x :: xs' =>
      match body x st with
      | Ok st' => for_in xs' body st'
      | Raise e => Raise e
      end
  end.

Definition of_option (o : option string) : value :=
  match o with Some s => VStr s | None => VNone end.

(** [range(lo, hi)] *)
Definition range (lo hi : Z) : list Z :=
  map (fun i => (lo + Z.of_nat i)%Z) (seq 0 (Z.to_nat (hi - lo))).

End Py.

Import Py.

Notation "x <- m ;; k" := (Py.bind m (fun x => k))
(at level 61, m at next level, right associativity).

(** A row of an output table. *)
Definition row := dict value.

(* ================================================================= *)
(** ** config/mappings *)

Module Mappings.

Definition SCHOOL_MAP : dict string := dict_of
  [ ("Allied Health", "AH");
    ("Blair School of Music", "BLAIR");
    ("College of Arts and Science", "A&S");
    ("College of Connected Computing", "CCC");
    ("Divinity School", "DIV");
    ("Division Unclassified Studies", "DUS");
    ("Fisk University", "FISK");
    ("Graduate School", "GS");
    ("Law School", "LAW");
    ("Lipscomb", "LU");
    ("Meharry Medical College", "MEHRY");
    ("Owen Grad School of Management", "OGSM");
    ("Peabody College", "PBDY");
    ("School of Engineering", "ENGIN");
    ("School of Medicine", "MED");
    ("School of Nursing", "NURS");
    ("Sewanee: The Univ of the South", "SEW");
    ("Tennessee State University", "TSU");
    ("Vanderbilt", "VANDY") ].

Definition CAREER_MAP : dict string := dict_of
  [ ("Consortium", "CN");
    ("Distance Learning Programs", "DLP");
    ("Div of Unclassified Studies", "DUS");
    ("Divinity", "DIV");
    ("Divinity Doctorate", "DD");
    ("Engineering-Professional", "ENGP");
    ("Graduate", "GRAD");
    ("Law", "LAW");
    ("Medical Doctor", "MEDD");
    ("Medical Masters/Prof Doctoral", "MEDM");
    ("Nursing", "NURS");
    ("Owen Management", "GSM");
    ("Peabody-Professional", "PBDP");
    ("Undergraduate", "UGRD") ].

Definition COMPONENT_MAP : dict string := dict_of
  [ ("Art Studio", "STD");
    ("Class", "CLS");
    ("Clerkship", "CL");
    ("Clinical", "CLN");
    ("Directed Study", "DIR");
    ("Discussion", "DSC");
    ("Dissertation Research", "DIS");
    ("Drill", "DRI");
    ("Externship", "EXT");
    ("Field Studies", "FLD");
    ("Field Work", "FW");
    ("Freshman Seminars", "FWS");
    ("Independent Study", "IND");
    ("Internship", "INT");
    ("Laboratory", "LAB");
    ("Lecture", "LEC");
    ("Lecture and Discussion", "LDC");
    ("Lecture and Lab", "LLB");
    ("Lecture and Performance", "LPR");
    ("Lecture-Tech Based Instruction", "LTI");
    ("Masters Thesis Research", "THS");
    ("Methods", "MTH");
    ("Online Learning", "ONL");
    ("Performance", "PER");
    ("Practicum", "PRC");
    ("Project", "PRJ");
    ("Publications", "PUB");
    ("Research", "RES");
    ("Selected/Special Topics", "STP");
    ("Seminar", "SEM");
    ("Senior Scholar", "SSC");
    ("Senior Thesis", "SRT");
    ("Studies", "STU");
    ("Subinternship", "SUB");
    ("Supervision", "SUP");
    ("Test 1", "TS1");
    ("Test 2", "TS2");
    ("Thesis Research", "THE") ].

(** [TABLE.get(label)]; the label is a string or [None]. *)
Definition map_get (table : dict string) (label : option string)
  : option string :=
  match label with
  | Some l => dict_get l table
  | None => None
  end.

Inductive category : Type := School | Career | Component | Subject | Attribute.

Section Lookup.
(** The displays of [subject_mappings.py] and [attribute_mappings.py],
    which the package imports: two data files, whose items are kept as
    parameters. *)
Variable SUBJECT_ITEMS ATTRIBUTE_ITEMS : list (string * string).

Definition SUBJECT_MAP : dict string := dict_of SUBJECT_ITEMS.
Definition ATTRIBUTE_MAP : dict string := dict_of ATTRIBUTE_ITEMS.

Definition table (c : category) : dict string :=
  match c with
  | School => SCHOOL_MAP
  | Career => CAREER_MAP
  | Component => COMPONENT_MAP
  | Subject => SUBJECT_MAP
  | Attribute => ATTRIBUTE_MAP
  end.

Definition lookup (c : category) (label : option string) : option string :=
  map_get (table c) label.
End Lookup.

End Mappings.

(* ================================================================= *)
(** ** The parsed page

    What BeautifulSoup hands to the scrapers: a tree of elements and text
    nodes.  Only the tag name and the [class] tokens of an element matter to
    the code. *)

Module Soup.

Inductive node : Type :=
| Text (s : string)
| Elem (name : string) (classes : list string) (children : list node).

(** The nodes below [n], in document order. *)
Fixpoint descendants (n : node) : list node :=
  match n with
  | Text _ => []
  | Elem _ _ cs => flat_map (fun c => c :: descendants c) cs
  end.

Definition is_tag (name : string) (cls : option string) (n : node) : bool :=
  match n with
  | Text _ => false
  | Elem name' classes _ =>
      String.eqb name name' &&
      match cls with
      | None => true
      | Some c => existsb (String.eqb c) classes
      end
  end.

(** [n.find_all(name)] and [n.find(name, {"class": cls})]. *)
Definition find_all (name : string) (cls : option string) (n : node)
  : list node :=
  filter (is_tag name cls) (descendants n).

Definition find (name : string) (cls : option string) (n : node)
  : option node :=
  hd_error (find_all name cls n).

(** The strings below [n], in document order. *)
Fixpoint strings (n : node) : list string :=
  match n with
  | Text s => [s]
  | Elem _ _ cs => flat_map strings cs
  end.

(** [n.get_text(separator=sep)] *)
Definition get_text (sep : string) (n : node) : string :=
  Str.join sep (strings n).

Definition nonempty (s : string) : bool :=
  match s with EmptyString => false | _ => true end.

(** [n.get_text(strip=True)] *)
Definition get_text_strip (n : node) : string :=
  Str.join "" (filter nonempty (map Str.strip (strings n))).

End Soup.

(* ================================================================= *)
(** ** scripts/course_scraping/scrape_class_sections.py *)

Module ClassSections.

Import Mappings.

Definition BASE_URL : string :=
  "https://more.app.vanderbilt.edu/more/GetClassSectionDetail.action".
Definition TERM_CODE : string := "1055".
Definition START_CLASS_NUMBER : Z := 1000.
Definition END_CLASS_NUMBER : Z := 13000.

(** [\s*:\s*] *)
Definition colon_pattern : Re.regex :=
  [Re.Rep false true Re.space 0 None; Re.Lit ":";
   Re.Rep false true Re.space 0 None].

(** [([A-Z]{2,6})-([A-Z\d]{4,6})-(\d{2})] *)
Definition header_pattern : Re.regex :=
  [Re.Rep true true Re.upper 2 (Some 6); Re.Lit "-";
   Re.Rep true true Re.upper_or_digit 4 (Some 6); Re.Lit "-";
   Re.Rep true true Re.digit 2 (Some 2)].

Definition parse_class_header (header_text : string) : option row :=
  let split_parts := Re.split_once colon_pattern header_text in
  let left_part := Str.strip (nth 0 split_parts "") in
  let long_title :=
    if 1 <? List.length split_parts then Str.strip (nth 1 split_parts "") else "" in
  match Re.re_match header_pattern left_part with
  | None => None
  | Some groups =>
      let subject := nth 0 groups "" in
      let catalog_number := nth 1 groups "" in
      let section_number := nth 2 groups "" in
      let display_name := (subject ++ "-" ++ catalog_number)%string in
      Some (dict_of
              [ ("subject", VStr subject);
                ("catalog_number", VStr catalog_number);
                ("section_number", VStr section_number);
                ("display_name", VStr display_name);
                ("long_title", VStr long_title) ])
  end.

Section Scraper.

(** The world outside the module: the HTTP request (the text of the response,
    or the exception [requests.get] raises), the HTML parser and [float]. *)
Variable requests_get : string -> result string.
Variable BeautifulSoup : string -> result Soup.node.
Variable float : string -> result spec_float.

(** The local variables of the loop over the table rows. *)
Record details : Type := {
  school : option string;
  career : option string;
  component : option string;
  hours : option spec_float
}.

Definition details_row (tr : Soup.node) (st : details) : result details :=
  let tds := Soup.find_all "td" None tr in
  if List.length tds <? 2 then Ok st
  else
    match tds with
    | td0 :: td1 :: _ =>
        let label := Str.remove_char ":" (Soup.get_text_strip td0) in
        let value := Soup.get_text_strip td1 in
        if String.eqb label "School" then
          Ok {| school := map_get SCHOOL_MAP (Some value); career := career st;
                component := component st; hours := hours st |}
        else if String.eqb label "Career" then
          Ok {| school := school st; career := map_get CAREER_MAP (Some value);
                component := component st; hours := hours st |}
        else if String.eqb label "Component" then
          Ok {| school := school st; career := career st;
                component := map_get COMPONENT_MAP (Some value);
                hours := hours st |}
        else if String.eqb label "Hours" then
          match float value with
          | Ok f =>
              Ok {| school := school st; career := career st;
                    component := component st; hours := Some f |}
          | Raise ValueError =>
              Ok {| school := school st; career := career st;
                    component := component st; hours := None |}
          | Raise e => Raise e
          end
        else Ok st
    | _ => Ok st
    end.

Definition extract_class_details (soup : Soup.node) : result row :=
  match Soup.find "div" (Some "detailPanel") soup with
  | None => Ok (dict_of [])
  | Some detail_panel =>
      let rows := Soup.find_all "tr" None detail_panel in
      st <- for_in rows details_row
              {| school := None; career := None; component := None;
                 hours := None |} ;;
      Ok (dict_of
            [ ("school_code", of_option (school st));
              ("career_code", of_option (career st));
              ("component_code", of_option (component st));
              ("units_earned",
               match hours st with Some f => VFloat f | None => VNone end) ])
  end.

Definition url (class_number : Z) : string :=
  (BASE_URL ++ "?classNumber=" ++ Str.of_Z class_number
   ++ "&termCode=" ++ TERM_CODE ++ "&hideAddToCartButton=false")%string.

(** The body of the [try] block. *)
Definition scrape_class_section_try (class_number : Z) : result (option row) :=
  response_text <- requests_get (url class_number) ;;
  if negb (Str.contains "classSectionDetailDialog" response_text) then Ok None
  else
    soup <- BeautifulSoup response_text ;;
    match Soup.find "h1" None soup with
    | None => Ok None
    | Some h1 =>
        let header_text := Str.strip (Soup.get_text " " h1) in
        match parse_class_header header_text with
        | None => Ok None
        | Some parsed_header =>
            if negb (truthy (VDict parsed_header)) then Ok None
            else
              class_details <- extract_class_details soup ;;
              display_name <- getitem parsed_header "display_name" ;;
              long_title <- getitem parsed_header "long_title" ;;
              subject <- getitem parsed_header "subject" ;;
              catalog_number <- getitem parsed_header "catalog_number" ;;
              section_number <- getitem parsed_header "section_number" ;;
              Ok (Some (dict_update
                          (dict_of
                             [ ("class_number", VStr (Str.of_Z class_number));
                               ("display_name", display_name);
                               ("long_title", long_title);
                               ("subject", subject);
                               ("catalog_number", catalog_number);
                               ("section_number", section_number) ])
                          class_details))
        end
    end.

(** [except requests.RequestException: return None] and
    [except Exception: return None]. *)
Definition scrape_class_section (class_number : Z) : result (option row) :=
  match scrape_class_section_try class_number with
  | Ok r => Ok r
  | Raise RequestException => Ok None
  | Raise _ => Ok None
  end.

(** The loop of [main]: the accumulated [results]. *)
Definition main_step (class_number : Z) (results : list row)
  : result (list row) :=
  class_data <- scrape_class_section class_number ;;
  match class_data with
  | Some r => if truthy (VDict r) then Ok (results ++ [r]) else Ok results
  | None => Ok results
  end.

Definition main_scan (lo hi : Z) : result (list row) :=
  for_in (range lo hi) main_step [].

Definition main : result (list row) :=
  main_scan START_CLASS_NUMBER END_CLASS_NUMBER.

End Scraper.

End ClassSections.

(* ================================================================= *)
(** ** scripts/course_scraping/scrape_course_catalog.py *)

Module Catalog.

Definition BASE_SEARCH_URL (keywords : string) : string :=
  ("https://more.app.vanderbilt.edu/more/SearchCoursesExecute!search.action?keywords="
   ++ keywords)%string.

Definition BASE_DETAIL_URL (id offer_number : string) : string :=
  ("https://more.app.vanderbilt.edu/more/GetCourseDetail.action?id=" ++ id
   ++ "&offerNumber=" ++ offer_number)%string.

(** [YAHOO\.mis\.student\.CourseDetailPanel\.showCourseDetail\('(?P<course_id>\d+)', '(?P<offer_num>\d+)', notificationString\);] *)
Definition pattern : Re.regex :=
  Re.lit "YAHOO.mis.student.CourseDetailPanel.showCourseDetail('"
  ++ [Re.Rep true true Re.digit 1 None] ++ Re.lit "', '"
  ++ [Re.Rep true true Re.digit 1 None] ++ Re.lit "', notificationString);".

(** [var notificationString = '(.*?)';] *)
Definition notification_pattern : Re.regex :=
  Re.lit "var notificationString = '"
  ++ [Re.Rep true false Re.dot 0 None] ++ Re.lit "';".

(** [^(.*?)-\d+$] *)
Definition code_pattern : Re.regex :=
  [Re.Bos; Re.Rep true false Re.dot 0 None; Re.Lit "-";
   Re.Rep false true Re.digit 1 None; Re.Eos].

(** (course_id, offer_num, notification_string, verification_code) *)
Definition candidate : Type :=
  (string * string * option string * option string)%type.

Definition verification_code_of (notification_string : option string)
  : option string :=
  match notification_string with
  | Some n =>
      match Re.re_match code_pattern n with
      | Some groups => Some (nth 0 groups "")
      | None => None
      end
  | None => None
  end.

(** The loop over [enumerate(ids)], from index [i] on. *)
Fixpoint pair_candidates (i : nat) (ids : list (string * string))
         (notifications : list string) : list candidate :=
  match ids with
  | [] => []
  | (course_id, offer_num) :: ids' =>
      let notification_string :=
        if i <? List.length notifications then nth_error notifications i
        else None in
      (course_id, offer_num, notification_string,
       verification_code_of notification_string)
      :: pair_candidates (S i) ids' notifications
  end.

Definition id_matches (html : string) : list (string * string) :=
  map (fun groups => (nth 0 groups "", nth 1 groups ""))
      (Re.findall pattern html).

Definition notification_matches (html : string) : list string :=
  map (fun groups => nth 0 groups "") (Re.findall notification_pattern html).

Definition extract_course_ids (html : string) : list candidate :=
  let ids := id_matches html in
  let notifications := notification_matches html in
  pair_candidates 0 ids notifications.

Definition other_keywords : list string :=
  ["Corequisite:"; "Prerequisite:";
   "Not open to students who have earned credit for"].

(** One round of the loop over the other keywords. *)
Definition stop_at (keyword : string) (part : result string)
           (other_keyword : string) : result string :=
  part <- part ;;
  if negb (String.eqb other_keyword keyword)
     && Str.contains other_keyword part
  then pieces <- split part other_keyword None ;; index pieces 0
  else Ok part.

Definition extract_requirement_text (text keyword : string)
  : result (option string) :=
  if negb (Str.contains keyword text) then Ok None
  else
    pieces <- split text keyword (Some 1) ;;
    part <- index pieces 1 ;;
    part <- fold_left (stop_at keyword) other_keywords (Ok part) ;;
    Ok (Some (Str.strip (Str.strip_set ":; " part))).

(** The term-offering block of [extract_course_details]: the value stored
    under ["term_offered"] for the text of the "Typically Offered" row. *)
Definition term_offered (term : string) : string :=
  let terms := [] in
  let terms := if Str.contains "Fall" term then terms ++ ["FA"] else terms in
  let terms := if Str.contains "Spring" term then terms ++ ["SP"] else terms in
  let terms := if Str.contains "Summer" term then terms ++ ["SU"] else terms in
  let terms :=
    if Str.contains "Alternate Years" term then terms ++ ["ALT"] else terms in
  Str.join ", " terms.

Definition csv_keys : list string :=
  [ "course_id"; "subject"; "catalog_number"; "display_name"; "long_title";
    "school_code"; "career_code"; "component_code"; "units_earned";
    "term_offered"; "all_requirements"; "corequisites"; "prerequisites";
    "anti_requirements"; "attributes"; "description" ].

Section Scraper.

(** What the module takes from outside: the items of the subject and
    attribute tables, the HTTP request (the text of the response, or the
    exception raised), the HTML parser, BeautifulSoup's CSS selection and
    sibling search, and [html.unescape]. *)
Variable SUBJECT_ITEMS ATTRIBUTE_ITEMS : list (string * string).
Variable requests_get : string -> result string.
Variable BeautifulSoup : string -> result Soup.node.
Variable select : string -> Soup.node -> list Soup.node.
Variable find_next_sibling :
  Soup.node -> string -> string -> option Soup.node.
Variable unescape : string -> string.

(** [n.text] *)
Definition text (n : Soup.node) : string := Soup.get_text "" n.

(** [(\d{4}[A-Z]?)\s+-\s+]; the group is the first two captures together. *)
Definition title_pattern : Re.regex :=
  [Re.Rep true true Re.digit 4 (Some 4); Re.Rep true true Re.upper 0 (Some 1);
   Re.Rep false true Re.space 1 None; Re.Lit "-";
   Re.Rep false true Re.space 1 None].

(** The pattern of the raw string [\\(.*?\\)]: a backslash, anything, a
    backslash. *)
Definition components_pattern : Re.regex :=
  [Re.Lit "\"; Re.Rep false false Re.dot 0 None; Re.Lit "\"].

(** The loop that fills [detail_map] and [enrollment_map] from table rows. *)
Definition name_value_map (rows : list Soup.node) : dict string :=
  fold_left
    (fun m row =>
       match Soup.find "strong" None row with
       | None => m
       | Some strong_tag =>
           let key := Str.strip_set ":" (text strong_tag) in
           let tds := Soup.find_all "td" None row in
           let value_cell :=
             if 1 <? List.length tds then nth_error tds 1 else None in
           match value_cell with
           | Some value_cell =>
               dict_set key (Soup.get_text_strip value_cell) m
           | None => m
           end
       end)
    rows [].

Definition get_default (m : dict string) (k default : string) : string :=
  match dict_get k m with Some v => v | None => default end.

Definition extract_course_details (html subject_code course_id : string)
  : result (option row) :=
  soup <- BeautifulSoup html ;;
  match hd_error (select "#courseDetailDialog h1" soup) with
  | None => Ok None
  | Some title_line =>
      let title_text := Str.strip (text title_line) in
      match Re.search title_pattern title_text with
      | None => Ok None
      | Some (_, groups, _) =>
          let catalog_number := (nth 0 groups "" ++ nth 1 groups "")%string in
          match (pieces <- split title_text (catalog_number ++ " - ") (Some 1) ;;
                 index pieces 1) with
          | Raise IndexError => Ok None
          | Raise e => Raise e
          | Ok piece =>
              let long_title := Str.strip piece in
              let display_name :=
                (subject_code ++ " " ++ catalog_number)%string in
              let result :=
                dict_update []
                  [ ("course_id", VStr course_id);
                    ("subject", VStr subject_code);
                    ("catalog_number", VStr catalog_number);
                    ("display_name", VStr display_name);
                    ("long_title", VStr long_title) ] in
              let detail_map :=
                name_value_map (select ".detailPanel .nameValueTable tr" soup) in
              let result :=
                dict_set "school_code"
                  (of_option (Mappings.map_get Mappings.SCHOOL_MAP
                                (dict_get "School" detail_map))) result in
              let result :=
                dict_set "career_code"
                  (of_option (Mappings.map_get Mappings.CAREER_MAP
                                (dict_get "Career" detail_map))) result in
              let result :=
                dict_set "units_earned"
                  (VStr (Str.strip (get_default detail_map "Units" "0")))
                  result in
              let components := get_default detail_map "Components" "" in
              let components :=
                Str.strip (Re.remove_all components_pattern components) in
              let result :=
                dict_set "component_code"
                  (of_option (Mappings.map_get Mappings.COMPONENT_MAP
                                (Some components))) result in
              let enrollment_map :=
                name_value_map
                  (select "#rightSection .detailPanel .nameValueTable tr" soup) in
              let term := get_default enrollment_map "Typically Offered" "" in
              let result :=
                dict_set "term_offered" (VStr (term_offered term)) result in
              let requirements_text :=
                get_default enrollment_map "Requirement" "" in
              let result :=
                dict_set "all_requirements"
                  (if truthy (VStr requirements_text)
                   then VStr requirements_text else VNone) result in
              corequisites <-
                extract_requirement_text requirements_text "Corequisite:" ;;
              let result :=
                dict_set "corequisites" (of_option corequisites) result in
              prerequisites <-
                extract_requirement_text requirements_text "Prerequisite:" ;;
              let result :=
                dict_set "prerequisites" (of_option prerequisites) result in
              anti_requirements <-
                extract_requirement_text requirements_text
                  "Not open to students who have earned credit for" ;;
              let result :=
                dict_set "anti_requirements" (of_option anti_requirements)
                         result in
              let attr_divs :=
                select "#rightSection .detailPanel td:has(strong:-soup-contains('Attributes')) ~ td div"
                       soup in
              let attributes :=
                fold_left
                  (fun attributes div =>
                     let attr_text := unescape (Str.strip (text div)) in
                     match Mappings.map_get
                             (Mappings.ATTRIBUTE_MAP ATTRIBUTE_ITEMS)
                             (Some attr_text) with
                     | Some attr_val =>
                         if truthy (VStr attr_val)
                         then attributes ++ [attr_val] else attributes
                     | None => attributes
                     end)
                  attr_divs [] in
              let result :=
                dict_set "attributes"
                  (match attributes with
                   | [] => VNone
                   | _ => VStr (Str.join ", " attributes)
                   end) result in
              let clear_div := Soup.find "div" (Some "clear") soup in
              let description_header :=
                match clear_div with
                | Some clear_div =>
                    find_next_sibling clear_div "div" "detailHeader"
                | None => None
                end in
              let description :=
                match description_header with
                | Some description_header =>
                    if Str.contains "Description" (text description_header)
                    then match find_next_sibling description_header
                                 "div" "detailPanel" with
                         | Some description_panel =>
                             Str.strip (text description_panel)
                         | None => ""
                         end
                    else ""
                | None => ""
                end in
              let result := dict_set "description" (VStr description) result in
              Ok (Some result)
          end
      end
  end.

(** What a run leaves behind: the rows written to the CSV file and the
    requests sent, both in order. *)
Record io : Type := {
  written : list row;
  requested : list string
}.

Definition send (u : string) (w : io) : io :=
  {| written := written w; requested := requested w ++ [u] |}.

(** [csv.DictWriter.writerow]: a key outside the field names is a
    [ValueError]. *)
Definition writerow (r : row) (w : io) : result io :=
  if forallb (fun k => existsb (String.eqb k) csv_keys) (keys r)
  then Ok {| written := written w ++ [r]; requested := requested w |}
  else Raise ValueError.

(** [verification_code != subject_code] *)
Definition differs (verification_code : option string) (subject_code : string)
  : bool :=
  match verification_code with
  | Some c => negb (String.eqb c subject_code)
  | None => true
  end.

(** One round of the loop over [course_entries]. *)
Definition process_entry (subject_code : string) (w : io) (entry : candidate)
  : io :=
  let '(course_id, offer_num, notification_string, verification_code) :=
    entry in
  if differs verification_code subject_code then w
  else
    let u := BASE_DETAIL_URL course_id offer_num in
    let w := send u w in
    match requests_get u with
    | Raise _ => w
    | Ok detail_text =>
        match extract_course_details detail_text subject_code course_id with
        | Raise _ => w
        | Ok None => w
        | Ok (Some course_data) =>
            if truthy (VDict course_data)
            then match (_ <- getitem course_data "display_name" ;;
                        writerow course_data w) with
                 | Ok w' => w'
                 | Raise _ => w
                 end
            else w
        end
    end.

Definition process_entries (subject_code : string) (entries : list candidate)
           (w : io) : io :=
  fold_left (process_entry subject_code) entries w.

(** One round of the loop over [SUBJECT_MAP.items()]. *)
Definition process_subject (w : io) (subject : string * string) : io :=
  let '(subject_name, subject_code) := subject in
  let u := BASE_SEARCH_URL subject_name in
  let w := send u w in
  match requests_get u with
  | Raise _ => w
  | Ok response_text =>
      if Str.contains "No courses found." response_text then w
      else process_entries subject_code (extract_course_ids response_text) w
  end.

Definition main : io :=
  fold_left process_subject (Mappings.SUBJECT_MAP SUBJECT_ITEMS)
            {| written := []; requested := [] |}.

End Scraper.

End Catalog.

(* ================================================================= *)
(** ** scripts/user_data_processing *)

Module Requirements.

(** convert_requirements_to_csv.py *)

Definition process_requirement_line (shared_data : row) (line : value)
  : result (list row) :=
  description <- get line "description" VNone ;;
  status <- get line "status" VNone ;;
  units_required <- get line "unitsRequired" VNone ;;
  units_used <- get line "unitsUsed" VNone ;;
  units_needed <- get line "unitsNeeded" VNone ;;
  let base_row_data :=
    dict_update shared_data
      [ ("description", description);
        ("status", status);
        ("units_required", units_required);
        ("units_used", units_used);
        ("units_needed", units_needed) ] in
  courses <- get line "coursesUsedToSatisfy" (VList []) ;;
  if truthy courses then
    courses <- iter courses ;;
    for_in courses
      (fun course rows =>
         term_taken <- get course "termTaken" VNone ;;
         course_id <- get course "courseId" VNone ;;
         units_earned <- get course "unitsEarned" VNone ;;
         units_taken <- get course "unitsTaken" VNone ;;
         long_title <- get course "longTitle" VNone ;;
         grade <- get course "grade" VNone ;;
         sequence <- get course "sequence" VNone ;;
         subject <- get course "subject" VNone ;;
         catalog_number <- get course "catalogNumber" VNone ;;
         display_name <- get course "displayName" VNone ;;
         let course_row :=
           dict_update base_row_data
             [ ("term_taken", term_taken);
               ("course_id", course_id);
               ("units_earned", units_earned);
               ("units_taken", units_taken);
               ("long_title", long_title);
               ("grade", grade);
               ("sequence", sequence);
               ("subject", subject);
               ("catalog_number", catalog_number);
               ("display_name", display_name) ] in
         Ok (rows ++ [course_row]))
      []
  else
    let empty_course_row :=
      dict_update base_row_data
        [ ("term_taken", VNone);
          ("course_id", VNone);
          ("units_earned", VNone);
          ("units_taken", VNone);
          ("long_title", VNone);
          ("grade", VNone);
          ("sequence", VNone);
          ("subject", VNone);
          ("catalog_number", VNone);
          ("display_name", VNone) ] in
    Ok [empty_course_row].

Definition convert_requirements_to_csv (json_data : value)
  : result (list row) :=
  tops <- iter json_data ;;
  for_in tops
    (fun requirement_group rows =>
       requirement_list <-
         get requirement_group "requirementGroups" (VList []) ;;
       requirement_list <- iter requirement_list ;;
       for_in requirement_list
         (fun req_group rows =>
            group_name <- get req_group "name" (VStr "Unnamed Requirement Group") ;;
            plan <- get req_group "plan" VNone ;;
            let is_main_requirement := truthy plan in
            requirements <- get req_group "requirements" (VList []) ;;
            requirements <- iter requirements ;;
            for_in requirements
              (fun requirement rows =>
                 requirement_lines <-
                   get requirement "requirementLines" (VList []) ;;
                 requirement_name <- get requirement "name" VNone ;;
                 let shared_data :=
                   dict_of
                     [ ("group_name", group_name);
                       ("is_main_requirement", VBool is_main_requirement);
                       ("requirement_name", requirement_name) ] in
                 requirement_lines <- iter requirement_lines ;;
                 for_in requirement_lines
                   (fun line rows =>
                      line_rows <- process_requirement_line shared_data line ;;
                      Ok (rows ++ line_rows))
                   rows)
              rows)
         rows)
    [].

(** extract_requirement_structure.py *)

Definition extract_requirement_structure (json_data : value)
  : result (list row) :=
  tops <- iter json_data ;;
  for_in tops
    (fun requirement_group rows =>
       requirement_list <-
         get requirement_group "requirementGroups" (VList []) ;;
       requirement_list <- iter requirement_list ;;
       for_in requirement_list
         (fun req_group rows =>
            group_name <- get req_group "name" (VStr "Unnamed Requirement Group") ;;
            req_group_number <- get req_group "requirementGroupNumber" VNone ;;
            entry_sequence <- get req_group "entrySequence" VNone ;;
            plan <- get req_group "plan" VNone ;;
            let is_main_requirement := truthy plan in
            requirements <- get req_group "requirements" (VList []) ;;
            requirements <- iter requirements ;;
            for_in requirements
              (fun requirement rows =>
                 requirement_lines <-
                   get requirement "requirementLines" (VList []) ;;
                 req_number <- get requirement "requirementNumber" VNone ;;
                 req_entry_sequence <- get requirement "entrySequence" VNone ;;
                 requirement_lines <- iter requirement_lines ;;
                 for_in requirement_lines
                   (fun line rows =>
                      line_name <- get line "name" VNone ;;
                      description <- get line "description" VNone ;;
                      status <- get line "status" VNone ;;
                      units_required <- get line "unitsRequired" VNone ;;
                      units_used <- get line "unitsUsed" VNone ;;
                      units_needed <- get line "unitsNeeded" VNone ;;
                      let row_data :=
                        dict_of
                          [ ("requirement_group_number", req_group_number);
                            ("entry_sequence", entry_sequence);
                            ("requirement_number", req_number);
                            ("requirement_entry_sequence", req_entry_sequence);
                            ("group_name", group_name);
                            ("is_main_requirement", VBool is_main_requirement);
                            ("line_name", line_name);
                            ("description", description);
                            ("status", status);
                            ("units_required", units_required);
                            ("units_used", units_used);
                            ("units_needed", units_needed) ] in
                      Ok (rows ++ [row_data]))
                   rows)
              rows)
         rows)
    [].

(** The column headers [save_to_csv] writes. *)
Definition detail_fieldnames : list string :=
  [ "group_name"; "is_main_requirement"; "requirement_name"; "description";
    "status"; "units_required"; "units_used"; "units_needed";
    "term_taken"; "course_id"; "units_earned"; "units_taken";
    "long_title"; "grade"; "sequence"; "subject";
    "catalog_number"; "display_name" ].

Definition structure_fieldnames : list string :=
  [ "group_name"; "is_main_requirement"; "line_name"; "description"; "status";
    "requirement_group_number"; "requirement_number";
    "entry_sequence"; "requirement_entry_sequence";
    "units_required"; "units_used"; "units_needed" ].

End Requirements.

(* ================================================================= *)
(** ** The CSV writer

    [csv.DictWriter] as the two normaliser scripts use it.  A file is the
    list of the records written to it, the header first; a cell holds the
    value handed to the writer. *)

Module Csv.

Definition record : Type := list value.

(** [DictWriter._dict_to_list]: a key outside the field names is a
    [ValueError]; a missing key gives the rest value, the empty string. *)
Definition dict_to_list (fieldnames : list string) (rowdict : row)
  : result record :=
  if forallb (fun k => existsb (String.eqb k) fieldnames) (keys rowdict)
  then Ok (map (fun key =>
                  match dict_get key rowdict with
                  | Some v => v
                  | None => VStr ""
                  end) fieldnames)
  else Raise ValueError.

(** [writeheader] *)
Definition header (fieldnames : list string) : record := map VStr fieldnames.

(** [writerows]: the rows are written one after the other; an exception
    leaves the earlier ones in the file. *)
Fixpoint writerows (fieldnames : list string) (rowdicts : list row)
         (file : list record) : list record * option exn :=
  match rowdicts with
  | [] => (file, None)
  | rowdict :: rest =>
      match dict_to_list fieldnames rowdict with
      | Ok r => writerows fieldnames rest (file ++ [r])
      | Raise e => (file, Some e)
      end
  end.

End Csv.

(* ================================================================= *)
(** ** convert_requirements_to_csv.py: files and [main] *)

Module ConvertRequirements.

Definition input_file : string := "../../data/raw/user_requirements/reqs.json".
Definition output_file : string :=
  "../../data/processed/user_requirements/degree_requirements.csv".

Section Files.

(** Opening and decoding a JSON file, and opening a file for writing; each
    may raise. *)
Variable read_json : string -> result value.
Variable open_write : string -> result unit.

Definition load_json_data (file_path : string) : value :=
  match read_json file_path with
  | Ok data => data
  | Raise _ => VNone
  end.

(** The value returned, and the records the output file holds afterwards
    ([None]: the file was not opened). *)
Definition save_to_csv (data : list row) (output_file : string)
  : bool * option (list Csv.record) :=
  match data with
  | [] => (false, None)
  | _ =>
      let fieldnames := Requirements.detail_fieldnames in
      match open_write output_file with
      | Raise _ => (false, None)
      | Ok _ =>
          let file := [Csv.header fieldnames] in
          match Csv.writerows fieldnames data file with
          | (file, None) => (true, Some file)
          | (file, Some _) => (false, Some file)
          end
      end
  end.

(** [main]: what the output file holds afterwards; an exception of the
    conversion is not caught. *)
Definition main : result (option (list Csv.record)) :=
  let json_data := load_json_data input_file in
  match json_data with
  | VNone => Ok None
  | _ =>
      csv_rows <- Requirements.convert_requirements_to_csv json_data ;;
      match csv_rows with
      | [] => Ok None
      | _ => Ok (snd (save_to_csv csv_rows output_file))
      end
  end.

End Files.

End ConvertRequirements.

(* ================================================================= *)
(** ** extract_requirement_structure.py: files and [main] *)

Module ExtractStructure.

Definition input_file : string :=
  "../../data/raw/user_requirements/caroline.json".
Definition output_file : string :=
  "../../data/processed/user_requirements/requirement_structure.csv".

Section Files.

Variable read_json : string -> result value.
Variable open_write : string -> result unit.

Definition load_json_data (file_path : string) : value :=
  match read_json file_path with
  | Ok data => data
  | Raise _ => VNone
  end.

Definition save_to_csv (data : list row) (output_file : string)
  : bool * option (list Csv.record) :=
  match data with
  | [] => (false, None)
  | _ =>
      let fieldnames := Requirements.structure_fieldnames in
      match open_write output_file with
      | Raise _ => (false, None)
      | Ok _ =>
          let file := [Csv.header fieldnames] in
          match Csv.writerows fieldnames data file with
          | (file, None) => (true, Some file)
          | (file, Some _) => (false, Some file)
          end
      end
  end.

Definition main : result (option (list Csv.record)) :=
  let json_data := load_json_data input_file in
  match json_data with
  | VNone => Ok None
  | _ =>
      structure_rows <- Requirements.extract_requirement_structure json_data ;;
      match structure_rows with
      | [] => Ok None
      | _ => Ok (snd (save_to_csv structure_rows output_file))
      end
  end.

End Files.

End ExtractStructure.

(* ================================================================= *)
(** ** scripts/mapping_extraction/extract_html_subjects.py *)

Module HtmlSubjects.

Definition newline : string := String "010" "".
Definition triple_quote : string :=
  String "034" (String "034" (String "034" "")).

(** [s.replace(old, new)] for a one-character [old]. *)
Fixpoint replace_char (old : ascii) (new : string) (s : string) : string :=
  match s with
  | EmptyString => EmptyString
  | String c s' =>
      if Ascii.eqb c old then (new ++ replace_char old new s')%string
      else String c (replace_char old new s')
  end.

(** The order of [(title, value)] tuples. *)
Definition item_le (a b : string * string) : bool :=
  match String.compare (fst a) (fst b) with
  | Lt => true
  | Eq => String.leb (snd a) (snd b)
  | Gt => false
  end.

Fixpoint insert_sorted (a : string * string) (l : list (string * string))
  : list (string * string) :=
  match l with
  | [] => [a]
  | b :: l' =>
      if item_le b a then b :: insert_sorted a l' else a :: b :: l'
  end.

(** [sorted(items)]: the items in ascending order. *)
Definition sorted (items : list (string * string)) : list (string * string) :=
  fold_right insert_sorted [] items.

Section Script.

(** Reading and parsing the HTML file, reading an attribute of a tag
    ([tag.get(name)]), [os.path.dirname], [os.makedirs] and opening a file
    for writing. *)
Variable read_html : string -> result Soup.node.
Variable attr : Soup.node -> string -> option string.
Variable dirname : string -> string.
Variable makedirs : string -> result unit.
Variable open_write : string -> result unit.

(** One round of the loop over the containers. *)
Definition add_container (title_value_map : dict string)
           (container : Soup.node) : dict string :=
  match Soup.find "input" (Some "multiSelectOption") container with
  | Some input_tag =>
      let title := attr input_tag "title" in
      let value := attr input_tag "value" in
      match title, value with
      | Some title, Some value =>
          if Soup.nonempty title && Soup.nonempty value
          then dict_set title value title_value_map
          else title_value_map
      | _, _ => title_value_map
      end
  | None => title_value_map
  end.

Definition extract_subject_mappings (html_file_path : string) : dict string :=
  match read_html html_file_path with
  | Raise _ => []
  | Ok soup =>
      let containers :=
        Soup.find_all "div" (Some "multiSelectOptionContainer") soup in
      fold_left add_container containers []
  end.

(** One line of the table. *)
Definition entry_line (title value comma : string) : string :=
  let escaped_title := replace_char "'" "\'" title in
  ("    '" ++ escaped_title ++ "': '" ++ value ++ "'" ++ comma
   ++ newline)%string.

(** The loop over [enumerate(sorted_mappings)], from index [i] on; [n] is
    the number of mappings. *)
Fixpoint entry_lines (i n : nat) (items : list (string * string)) : string :=
  match items with
  | [] => ""
  | (title, value) :: rest =>
      let comma := if i <? n - 1 then "," else "" in
      (entry_line title value comma ++ entry_lines (S i) n rest)%string
  end.

Definition file_text (mappings : dict string) : string :=
  let sorted_mappings := sorted mappings in
  (triple_quote ++ newline
   ++ "Subject code mappings for Vanderbilt University system."
   ++ newline ++ newline
   ++ "This module contains the mapping from full subject/department names to their"
   ++ newline
   ++ "abbreviated codes used throughout the Vanderbilt course system."
   ++ newline
   ++ triple_quote ++ newline ++ newline
   ++ "SUBJECT_MAP = {" ++ newline
   ++ entry_lines 0 (List.length sorted_mappings) sorted_mappings
   ++ "}" ++ newline)%string.

(** The value returned, and the text the output file holds afterwards
    ([None]: the file was not opened). *)
Definition save_mappings_to_file (mappings : dict string)
           (output_path : string) : bool * option string :=
  match makedirs (dirname output_path) with
  | Raise _ => (false, None)
  | Ok _ =>
      match open_write output_path with
      | Raise _ => (false, None)
      | Ok _ => (true, Some (file_text mappings))
      end
  end.

Definition html_path : string := "../../data/raw/course_catalog/subjects.html".
Definition output_path : string := "../../config/mappings/subject_mappings.py".

(** [main]: the text the output file holds afterwards. *)
Definition main : option string :=
  let mappings := extract_subject_mappings html_path in
  match mappings with
  | [] => None
  | _ => snd (save_mappings_to_file mappings output_path)
  end.

End Script.

End HtmlSubjects.

(* ################################################################# *)
(** * Part II: the vocabulary of the specification *)

Module Spec.

(** *** Regular expressions *)

(** An upper bound on a repetition count. *)
Definition within (hi : option nat) (n : nat) : Prop :=
  match hi with Some h => n <= h | None => True end.

(** The text does not go on with a character of the class. *)
Definition stops (cls : ascii -> bool) (s : string) : Prop :=
  match s with EmptyString => True | String c _ => cls c = false end.

(** The pattern has no [^]. *)
Fixpoint no_bos (re : Re.regex) : bool :=
  match re with
  | [] => true
  | Re.Bos :: _ => false
  | _ :: re' => no_bos re'
  end.



(** [sub] occurs in [s]. *)
Definition occurs (sub s : string) : Prop :=
  exists before after, s = (before ++ sub ++ after)%string.

(** *** Class-section headings *)

Definition is_upper_alnum (c : ascii) : bool :=
  Str.is_upper c || Str.is_digit c.

(** Subject = 2-6 uppercase letters, catalog = 4-6 uppercase
    alphanumerics, section = exactly 2 digits. *)
Definition shape_parts (subject catalog section : string) : Prop :=
  Str.all_chars Str.is_upper subject = true
  /\ 2 <= String.length subject <= 6
  /\ Str.all_chars is_upper_alnum catalog = true
  /\ 4 <= String.length catalog <= 6
  /\ Str.all_chars Str.is_digit section = true
  /\ String.length section = 2.

(** The text has the strict SUBJ-CAT-SEC shape. *)
Definition strict_shape (s : string) : Prop :=
  exists subject catalog section,
    s = (subject ++ "-" ++ catalog ++ "-" ++ section)%string
    /\ shape_parts subject catalog section.

(** The part of a heading before its first colon, and the part after it,
    both without surrounding whitespace. *)
Definition left_part (header_text : string) : string :=
  Str.strip
    match Str.find ":" header_text with
    | Some i => Str.take i header_text
    | None => header_text
    end.

Definition title_part (header_text : string) : string :=
  Str.strip
    match Str.find ":" header_text with
    | Some i => Str.drop (S i) header_text
    | None => ""
    end.

(** *** Verification codes *)

(** A non-empty run of digits. *)
Definition is_number (d : string) : Prop :=
  d <> "" /\ Str.all_chars Str.is_digit d = true.

(** The candidate's verification code is the subject's short code. *)
Definition code_matches (subject_code : string) (entry : Catalog.candidate)
  : bool :=
  match snd entry with
  | Some c => String.eqb c subject_code
  | None => false
  end.

(** *** Requirement text *)

(** The three keyword anchors. *)
Inductive anchor : Type := Prerequisite | Corequisite | AntiRequisite.

Definition anchor_text (a : anchor) : string :=
  match a with
  | Prerequisite => "Prerequisite:"
  | Corequisite => "Corequisite:"
  | AntiRequisite => "Not open to students who have earned credit for"
  end.

(** The other two anchors. *)
Definition other_anchors (a : anchor) : list string :=
  match a with
  | Prerequisite => [anchor_text Corequisite; anchor_text AntiRequisite]
  | Corequisite => [anchor_text Prerequisite; anchor_text AntiRequisite]
  | AntiRequisite => [anchor_text Corequisite; anchor_text Prerequisite]
  end.

(** The smaller of two optional positions. *)
Definition first_of (i j : option nat) : option nat :=
  match i, j with
  | Some i, Some j => Some (Nat.min i j)
  | Some i, None => Some i
  | None, j => j
  end.

(** The position in [part] where the earliest of [keywords] starts. *)
Definition earliest (keywords : list string) (part : string) : option nat :=
  fold_right (fun keyword found => first_of (Str.find keyword part) found)
             None keywords.

(** [part] cut where the earliest of [keywords] starts. *)
Definition truncate_at (keywords : list string) (part : string) : string :=
  match earliest keywords part with
  | Some i => Str.take i part
  | None => part
  end.

(** The text after the first occurrence of [keyword]. *)
Definition after_keyword (keyword text : string) : string :=
  match Str.find keyword text with
  | Some i => Str.drop (i + String.length keyword) text
  | None => ""
  end.

(** The first, the last character of [s] satisfies [p]. *)
Definition starts_in (p : ascii -> bool) (s : string) : bool :=
  match s with
  | EmptyString => false
  | String c _ => p c
  end.

Fixpoint ends_in (p : ascii -> bool) (s : string) : bool :=
  match s with
  | EmptyString => false
  | String c EmptyString => p c
  | String _ s' => ends_in p s'
  end.

(** [m] is [s] with the characters of [p] stripped from both ends: what
    is removed on either side consists of such characters, and [m] neither
    starts nor ends with one. *)
Definition trimmed (p : ascii -> bool) (s m : string) : Prop :=
  exists l r,
    s = (l ++ m ++ r)%string
    /\ Str.all_chars p l = true /\ Str.all_chars p r = true
    /\ starts_in p m = false /\ ends_in p m = false.

(** The characters ":", ";" and space. *)
Definition punctuation (c : ascii) : bool := Str.mem_char c ":; ".

(** A character of ":; " or white space. *)
Definition punctuation_or_space (c : ascii) : bool :=
  punctuation c || Str.is_space c.

(** A requirements text whose two clauses stand on two lines. *)
Definition two_line_requirements : string :=
  ("Prerequisite: MATH 1300;" ++ String "010" "Corequisite: MATH 1301")%string.

(** The segment of [text] that belongs to an anchor. *)
Definition segment (text : string) (a : anchor) : option string :=
  if Str.contains (anchor_text a) text
  then Some (Str.strip
               (Str.strip_set ":; "
                  (truncate_at (other_anchors a)
                               (after_keyword (anchor_text a) text))))
  else None.

(** The text before the first occurrence of [a], all of it when there is
    none; the same for the first occurrence of either [a] or [b]. *)
Fixpoint before_first (a s : string) : string :=
  if prefix a s then ""
  else match s with
       | EmptyString => ""
       | String c s' => String c (before_first a s')
       end.

Fixpoint before_either (a b s : string) : string :=
  if prefix a s || prefix b s then ""
  else match s with
       | EmptyString => ""
       | String c s' => String c (before_either a b s')
       end.

(** *** Term tokens *)

Definition term_tokens : list string := ["FA"; "SP"; "SU"; "ALT"].

(** The text each short token stands for. *)
Definition term_text (token : string) : string :=
  if String.eqb token "FA" then "Fall"
  else if String.eqb token "SP" then "Spring"
  else if String.eqb token "SU" then "Summer"
  else "Alternate Years".

(** *** Requirement documents

    A document is a list of top-level objects, each with a list of
    requirement groups, each with a list of requirements, each with a list
    of requirement lines, each optionally with a list of satisfying
    courses. *)

(** The value an object holds under [k], or [default]. *)
Definition obj_field (v : value) (k : string) (default : value) : value :=
  match v with
  | VDict d => match dict_get k d with Some x => x | None => default end
  | _ => default
  end.

(** The list an object holds under [k]; nothing when there is none. *)
Definition children (v : value) (k : string) : list value :=
  match obj_field v k (VList []) with
  | VList xs => xs
  | _ => []
  end.

Definition is_dict (v : value) : bool :=
  match v with VDict _ => true | _ => false end.

Definition list_of (ok : value -> bool) (v : value) : bool :=
  match v with VList xs => forallb ok xs | _ => false end.

Definition wf_line (l : value) : bool :=
  is_dict l &&
  match obj_field l "coursesUsedToSatisfy" (VList []) with
  | VNone => true
  | v => list_of is_dict v
  end.

Definition wf_requirement (r : value) : bool :=
  is_dict r && list_of wf_line (obj_field r "requirementLines" (VList [])).

Definition wf_group (g : value) : bool :=
  is_dict g && list_of wf_requirement (obj_field g "requirements" (VList [])).

Definition wf_top (t : value) : bool :=
  is_dict t && list_of wf_group (obj_field t "requirementGroups" (VList [])).

Definition wf_document (doc : value) : bool := list_of wf_top doc.

Definition elements (doc : value) : list value :=
  match doc with VList xs => xs | _ => [] end.

(** Every requirement line of a document, with the group and the
    requirement it belongs to, in document order. *)
Definition document_lines (doc : value) : list (value * value * value) :=
  flat_map
    (fun top =>
       flat_map
         (fun g =>
            flat_map
              (fun r => map (fun l => (g, r, l)) (children r "requirementLines"))
              (children g "requirements"))
         (children top "requirementGroups"))
    (elements doc).

Definition satisfying_courses (l : value) : list value :=
  children l "coursesUsedToSatisfy".

(** Empty, in the sense of Python's truth value: [None], [False], zero, and
    the empty string, list and dictionary. *)
Definition is_empty (v : value) : bool :=
  match v with
  | VNone | VBool false | VFloat (S754_zero _)
  | VStr EmptyString | VList [] | VDict [] => true
  | VInt n => Z.eqb n 0
  | _ => false
  end.

(** The group carries a non-empty "plan" field. *)
Definition plan_nonempty (g : value) : bool :=
  match g with
  | VDict d =>
      match dict_get "plan" d with
      | Some plan => negb (is_empty plan)
      | None => false
      end
  | _ => false
  end.

(** The group, requirement and line columns of a detail row. *)
Definition metadata (g r l : value) : row :=
  [ ("group_name", obj_field g "name" (VStr "Unnamed Requirement Group"));
    ("is_main_requirement", VBool (plan_nonempty g));
    ("requirement_name", obj_field r "name" VNone);
    ("description", obj_field l "description" VNone);
    ("status", obj_field l "status" VNone);
    ("units_required", obj_field l "unitsRequired" VNone);
    ("units_used", obj_field l "unitsUsed" VNone);
    ("units_needed", obj_field l "unitsNeeded" VNone) ].

(** The ten course columns and the course field each one copies. *)
Definition course_columns : list (string * string) :=
  [ ("term_taken", "termTaken"); ("course_id", "courseId");
    ("units_earned", "unitsEarned"); ("units_taken", "unitsTaken");
    ("long_title", "longTitle"); ("grade", "grade");
    ("sequence", "sequence"); ("subject", "subject");
    ("catalog_number", "catalogNumber"); ("display_name", "displayName") ].

Definition course_fields (c : value) : row :=
  map (fun ck => (fst ck, obj_field c (snd ck) VNone)) course_columns.

Definition null_course_fields : row :=
  map (fun ck => (fst ck, VNone)) course_columns.

(** The rows the detail mode owes to one requirement line. *)
Definition line_rows (glr : value * value * value) : list row :=
  let '(g, r, l) := glr in
  match satisfying_courses l with
  | [] => [metadata g r l ++ null_course_fields]
  | cs => map (fun c => metadata g r l ++ course_fields c) cs
  end.

(** The row the structure mode owes to one requirement line. *)
Definition structure_row (glr : value * value * value) : row :=
  let '(g, r, l) := glr in
  [ ("requirement_group_number", obj_field g "requirementGroupNumber" VNone);
    ("entry_sequence", obj_field g "entrySequence" VNone);
    ("requirement_number", obj_field r "requirementNumber" VNone);
    ("requirement_entry_sequence", obj_field r "entrySequence" VNone);
    ("group_name", obj_field g "name" (VStr "Unnamed Requirement Group"));
    ("is_main_requirement", VBool (plan_nonempty g));
    ("line_name", obj_field l "name" VNone);
    ("description", obj_field l "description" VNone);
    ("status", obj_field l "status" VNone);
    ("units_required", obj_field l "unitsRequired" VNone);
    ("units_used", obj_field l "unitsUsed" VNone);
    ("units_needed", obj_field l "unitsNeeded" VNone) ].

(** The document used to exercise the normaliser: one group with a plan,
    one requirement, a line without courses and a line with two. *)
Definition sample_document : value :=
  VList
    [ VDict
        [ ("requirementGroups",
           VList
             [ VDict
                 [ ("name", VStr "Major");
                   ("plan", VStr "CSBS");
                   ("requirements",
                    VList
                      [ VDict
                          [ ("name", VStr "Core");
                            ("requirementLines",
                             VList
                               [ VDict [ ("description", VStr "Depth") ];
                                 VDict
                                   [ ("coursesUsedToSatisfy",
                                      VList
                                        [ VDict [ ("grade", VStr "A") ];
                                          VDict [ ("grade", VStr "B") ] ])
                                   ] ]) ] ]) ] ]) ] ].


(** *** Class-section records *)

(** The columns parsed from the heading, with the class number. *)
Definition identity_columns : list string :=
  [ "class_number"; "display_name"; "long_title"; "subject";
    "catalog_number"; "section_number" ].

(** The columns read from the detail panel. *)
Definition detail_columns : list string :=
  [ "school_code"; "career_code"; "component_code"; "units_earned" ].

(** The column set of the class-section table. *)
Definition class_section_columns : list string :=
  identity_columns ++ detail_columns.

Definition has_columns (columns : list string) (r : row) : Prop :=
  forall column, In column columns -> dict_get column r <> None.

(** A class-section page whose body has the heading but no detail panel. *)
Definition page_without_panel : Soup.node :=
  Soup.Elem "[document]" []
    [ Soup.Elem "div" ["classSectionDetailDialog"]
        [ Soup.Elem "h1" [] [Soup.Text "CS-1101-01 : Intro to Computing"] ] ].

(** The same page with a detail panel. *)
Definition page_with_panel : Soup.node :=
  Soup.Elem "[document]" []
    [ Soup.Elem "div" ["classSectionDetailDialog"]
        [ Soup.Elem "h1" [] [Soup.Text "CS-1101-01 : Intro to Computing"];
          Soup.Elem "div" ["detailPanel"]
            [ Soup.Elem "table" ["nameValueTable"]
                [ Soup.Elem "tr" []
                    [ Soup.Elem "td" [] [Soup.Text "School:"];
                      Soup.Elem "td" [] [Soup.Text " School of Engineering "] ];
                  Soup.Elem "tr" []
                    [ Soup.Elem "td" [] [Soup.Text "Component:"];
                      Soup.Elem "td" [] [Soup.Text "Lecture"] ];
                  Soup.Elem "tr" []
                    [ Soup.Elem "td" [] [Soup.Text "Hours:"];
                      Soup.Elem "td" [] [Soup.Text "n/a"] ] ] ] ] ].

Definition page_text : string := "<div id='classSectionDetailDialog'>".

(* ----------------------------------------------------------------- *)
(** *** Further vocabulary *)

(** The five columns a row takes from its requirement line, each with
    the field of the line it is read from. *)
Definition line_columns : list (string * string) :=
  [ ("description", "description"); ("status", "status");
    ("units_required", "unitsRequired"); ("units_used", "unitsUsed");
    ("units_needed", "unitsNeeded") ].

(** The value of the last item with key [k]. *)
Definition last_value {V} (k : string) (items : list (string * V))
  : option V :=
  fold_left
    (fun found kv => if String.eqb (fst kv) k then Some (snd kv) else found)
    items None.

(** The shape the structure mode needs: as [wf_document], but a line is
    any object. *)
Definition wf_structure_requirement (r : value) : bool :=
  is_dict r && list_of is_dict (obj_field r "requirementLines" (VList [])).

Definition wf_structure_group (g : value) : bool :=
  is_dict g
  && list_of wf_structure_requirement (obj_field g "requirements" (VList [])).

Definition wf_structure_top (t : value) : bool :=
  is_dict t
  && list_of wf_structure_group (obj_field t "requirementGroups" (VList [])).

Definition wf_structure_document (doc : value) : bool :=
  list_of wf_structure_top doc.

(** The columns the two normaliser tables share. *)
Definition shared_columns : list string :=
  [ "group_name"; "is_main_requirement"; "description"; "status";
    "units_required"; "units_used"; "units_needed" ].


(** A document whose second line has a courses field that is no list. *)
Definition odd_courses_document : value :=
  VList
    [ VDict
        [ ("requirementGroups",
           VList
             [ VDict
                 [ ("name", VStr "Major");
                   ("requirements",
                    VList
                      [ VDict
                          [ ("requirementLines",
                             VList
                               [ VDict [ ("name", VStr "L1") ];
                                 VDict
                                   [ ("name", VStr "L2");
                                     ("coursesUsedToSatisfy", VStr "none") ]
                               ]) ] ]) ] ]) ] ].



(** The cells [DictWriter] writes for a row. *)
Definition cells (fieldnames : list string) (r : row) : Csv.record :=
  map (fun key => match dict_get key r with Some v => v | None => VStr "" end)
      fieldnames.

(** The label and the value of every table row of a detail panel that
    has at least two cells, in document order. *)
Definition row_cells (tr : Soup.node) : list (string * string) :=
  match Soup.find_all "td" None tr with
  | td0 :: td1 :: _ =>
      [(Str.remove_char ":" (Soup.get_text_strip td0),
        Soup.get_text_strip td1)]
  | _ => []
  end.

Definition panel_cells (panel : Soup.node) : list (string * string) :=
  flat_map row_cells (Soup.find_all "tr" None panel).

(** What one such row does to the four values being collected, when
    [float] raises nothing but [ValueError]. *)
Definition apply_cell (float : string -> result spec_float)
           (cell : string * string) (st : ClassSections.details)
  : ClassSections.details :=
  let '(label, value) := cell in
  if String.eqb label "School" then
    {| ClassSections.school := Mappings.map_get Mappings.SCHOOL_MAP (Some value);
       ClassSections.career := ClassSections.career st;
       ClassSections.component := ClassSections.component st;
       ClassSections.hours := ClassSections.hours st |}
  else if String.eqb label "Career" then
    {| ClassSections.school := ClassSections.school st;
       ClassSections.career := Mappings.map_get Mappings.CAREER_MAP (Some value);
       ClassSections.component := ClassSections.component st;
       ClassSections.hours := ClassSections.hours st |}
  else if String.eqb label "Component" then
    {| ClassSections.school := ClassSections.school st;
       ClassSections.career := ClassSections.career st;
       ClassSections.component :=
         Mappings.map_get Mappings.COMPONENT_MAP (Some value);
       ClassSections.hours := ClassSections.hours st |}
  else if String.eqb label "Hours" then
    {| ClassSections.school := ClassSections.school st;
       ClassSections.career := ClassSections.career st;
       ClassSections.component := ClassSections.component st;
       ClassSections.hours :=
         match float value with Ok f => Some f | Raise _ => None end |}
  else st.

(** The code a table gives for the value of the last row labelled
    [label]. *)
Definition last_code (table : dict string) (label : string)
           (cells : list (string * string)) : value :=
  match last_value label cells with
  | Some v => of_option (dict_get v table)
  | None => VNone
  end.

(** Scraping the class number yields a record. *)
Definition succeeded (scrape : Z -> result (option row)) (n : Z) : bool :=
  match scrape n with
  | Ok (Some _) => true
  | _ => false
  end.

(** *** Course catalog *)

(** A catalog number: four digits and at most one uppercase letter. *)
Definition catalog_shape (c : string) : Prop :=
  exists digits letter,
    c = (digits ++ letter)%string
    /\ Str.all_chars Str.is_digit digits = true
    /\ String.length digits = 4
    /\ Str.all_chars Str.is_upper letter = true
    /\ String.length letter <= 1.


(** The label and value of a row of a name-value table: the text of its
    first <strong>, without surrounding colons, and the text of its second
    cell; nothing for a row that lacks either. *)
Definition name_value_cells (rows : list Soup.node) : list (string * string) :=
  flat_map
    (fun row =>
       match Soup.find "strong" None row with
       | None => []
       | Some strong_tag =>
           match Soup.find_all "td" None row with
           | _ :: value_cell :: _ =>
               [(Str.strip_set ":" (Catalog.text strong_tag),
                 Soup.get_text_strip value_cell)]
           | _ => []
           end
       end)
    rows.

(** The codes of the attribute texts that have a non-empty code in the
    table, in page order. *)
Definition attribute_codes (table : dict string) (unescape : string -> string)
           (divs : list Soup.node) : list string :=
  flat_map
    (fun div =>
       match dict_get (unescape (Str.strip (Catalog.text div))) table with
       | Some code => if Soup.nonempty code then [code] else []
       | None => []
       end)
    divs.

(** The requests the scan of one subject sends: the search, then the
    detail pages of the candidates whose code is the subject's. *)
Definition subject_requests (requests_get : string -> result string)
           (subject : string * string) : list string :=
  let '(subject_name, subject_code) := subject in
  Catalog.BASE_SEARCH_URL subject_name
  :: match requests_get (Catalog.BASE_SEARCH_URL subject_name) with
     | Ok text =>
         if Str.contains "No courses found." text then []
         else map (fun e : Catalog.candidate =>
                     Catalog.BASE_DETAIL_URL (fst (fst (fst e)))
                                             (snd (fst (fst e))))
                  (filter (code_matches subject_code)
                          (Catalog.extract_course_ids text))
     | Raise _ => []
     end.

(** The rows the scan of one subject writes: the records of the matching
    candidates whose detail page is received and gives a record. *)
Definition entry_rows (requests_get : string -> result string)
           (details : string -> string -> string -> result (option row))
           (subject_code : string) (e : Catalog.candidate) : list row :=
  match requests_get (Catalog.BASE_DETAIL_URL (fst (fst (fst e)))
                                              (snd (fst (fst e)))) with
  | Ok detail_text =>
      match details detail_text subject_code (fst (fst (fst e))) with
      | Ok (Some course_data) => [course_data]
      | _ => []
      end
  | Raise _ => []
  end.

Definition subject_rows (requests_get : string -> result string)
           (details : string -> string -> string -> result (option row))
           (subject : string * string) : list row :=
  let '(subject_name, subject_code) := subject in
  match requests_get (Catalog.BASE_SEARCH_URL subject_name) with
  | Ok text =>
      if Str.contains "No courses found." text then []
      else flat_map (entry_rows requests_get details subject_code)
                    (filter (code_matches subject_code)
                            (Catalog.extract_course_ids text))
  | Raise _ => []
  end.

(** A sample detail page, given by what the selectors return on it. *)
Definition sample_name_value_row (label value : string) : Soup.node :=
  Soup.Elem "tr" []
    [ Soup.Elem "td" [] [Soup.Elem "strong" [] [Soup.Text label]];
      Soup.Elem "td" [] [Soup.Text value] ].

Definition sample_select (heading : string) (selector : string)
           (soup : Soup.node) : list Soup.node :=
  if String.eqb selector "#courseDetailDialog h1"
  then [Soup.Elem "h1" [] [Soup.Text heading]]
  else if String.eqb selector ".detailPanel .nameValueTable tr"
  then [ sample_name_value_row "School:" "College of Arts and Science";
         sample_name_value_row "Components:" "Lecture (Required)";
         sample_name_value_row "Units:" "3.0";
         sample_name_value_row "Units:" "4.0" ]
  else if String.eqb selector
            "#rightSection .detailPanel .nameValueTable tr"
  then [ sample_name_value_row "Typically Offered:" "Fall, Spring";
         sample_name_value_row "Requirement:"
           "Prerequisite: CS 1101; Corequisite: MATH 1300" ]
  else if String.eqb selector
            "#rightSection .detailPanel td:has(strong:-soup-contains('Attributes')) ~ td div"
  then [ Soup.Elem "div" [] [Soup.Text " AXLE: Math and Natural Sciences "];
         Soup.Elem "div" [] [Soup.Text "Unlisted attribute"];
         Soup.Elem "div" [] [Soup.Text "Immersion"] ]
  else [].

Definition sample_attribute_items : list (string * string) :=
  [ ("AXLE: Math and Natural Sciences", "MNS"); ("Immersion", "IMM") ].

Definition sample_details (heading : string) : result (option row) :=
  Catalog.extract_course_details sample_attribute_items
    (fun _ => Ok (Soup.Text "")) (sample_select heading)
    (fun _ _ _ => None) (fun s => s) "<html>" "CS" "101234".

Definition sample_record (heading : string) : row :=
  match sample_details heading with
  | Ok (Some r) => r
  | _ => []
  end.

(** *** Subject table *)

(** The (title, value) pairs of the containers that hold an input with a
    non-empty title and a non-empty value. *)
Definition container_items (attr : Soup.node -> string -> option string)
           (containers : list Soup.node) : list (string * string) :=
  flat_map
    (fun container =>
       match Soup.find "input" (Some "multiSelectOption") container with
       | Some input_tag =>
           match attr input_tag "title", attr input_tag "value" with
           | Some title, Some value =>
               if Soup.nonempty title && Soup.nonempty value
               then [(title, value)] else []
           | _, _ => []
           end
       | None => []
       end)
    containers.

(** An entry of the written table, without comma and line end. *)
Definition bare_line (item : string * string) : string :=
  ("    '" ++ HtmlSubjects.replace_char "'" "\'" (fst item) ++ "': '"
   ++ snd item ++ "'")%string.

(** What the file holds before the entries. *)
Definition table_head : string :=
  (HtmlSubjects.triple_quote ++ HtmlSubjects.newline
   ++ "Subject code mappings for Vanderbilt University system."
   ++ HtmlSubjects.newline ++ HtmlSubjects.newline
   ++ "This module contains the mapping from full subject/department names to their"
   ++ HtmlSubjects.newline
   ++ "abbreviated codes used throughout the Vanderbilt course system."
   ++ HtmlSubjects.newline
   ++ HtmlSubjects.triple_quote ++ HtmlSubjects.newline
   ++ HtmlSubjects.newline
   ++ "SUBJECT_MAP = {" ++ HtmlSubjects.newline)%string.

(** Titles in strictly ascending order. *)
Definition title_lt (a b : string * string) : Prop :=
  String.compare (fst a) (fst b) = Lt.

(** Every quote follows a backslash. *)
Fixpoint quotes_after (backslash : bool) (s : string) : bool :=
  match s with
  | EmptyString => true
  | String c s' =>
      (if Ascii.eqb c "'" then backslash else true)
      && quotes_after (Ascii.eqb c "\") s'
  end.

Definition quotes_escaped (s : string) : bool := quotes_after false s.

(** Reading an escaped title back: backslash, quote stands for a quote. *)
Fixpoint unescape_quotes (s : string) : string :=
  match s with
  | EmptyString => EmptyString
  | String c s' =>
      match s' with
      | String c' s'' =>
          if Ascii.eqb c "\" && Ascii.eqb c' "'"
          then String "'" (unescape_quotes s'')
          else String c (unescape_quotes s')
      | EmptyString => String c EmptyString
      end
  end.

(** A sample subjects page: a container holds an input whose two texts
    stand for its title and value attributes. *)
Definition sample_option (title value : string) : Soup.node :=
  Soup.Elem "div" ["multiSelectOptionContainer"]
    [ Soup.Elem "input" ["multiSelectOption"]
        [Soup.Text title; Soup.Text value] ].

Definition sample_attr (tag : Soup.node) (name : string) : option string :=
  match tag with
  | Soup.Elem _ _ [Soup.Text title; Soup.Text value] =>
      if String.eqb name "title" then Some title
      else if String.eqb name "value" then Some value
      else None
  | _ => None
  end.

Definition sample_subjects_page : Soup.node :=
  Soup.Elem "[document]" []
    [ sample_option "Physics" "PHYS";
      sample_option "Women's and Gender Studies" "WGS";
      sample_option "Computer Science" "CS";
      sample_option "" "NONE";
      sample_option "Physics" "PHY" ].

Definition sample_subjects_main : option string :=
  HtmlSubjects.main (fun _ => Ok sample_subjects_page) sample_attr
                    (fun s => s) (fun _ => Ok tt) (fun _ => Ok tt).

End Spec.

(* ################################################################# *)
(** * Part III: properties *)

(* ================================================================= *)
(** ** Strings *)

Section StringFacts.

Lemma append_nil_r (s : string) : (s ++ "")%string = s.
Proof. induction s as [|c s IH]; simpl; congruence. Qed.

Lemma append_assoc (a b c : string) :
  ((a ++ b) ++ c)%string = (a ++ (b ++ c))%string.
Proof. induction a as [|x a IH]; simpl; congruence. Qed.

Lemma length_append (a b : string) :
  String.length (a ++ b) = String.length a + String.length b.
Proof. induction a as [|x a IH]; simpl; congruence. Qed.

Lemma prefix_nil_l (s : string) : prefix "" s = true.
Proof. now destruct s. Qed.

Lemma prefix_cons (c : ascii) (a s : string) :
  prefix (String c a) (String c s) = prefix a s.
Proof. simpl. destruct (ascii_dec c c); congruence. Qed.

Lemma prefix_cons_ne (c c' : ascii) (a s : string) :
  c <> c' -> prefix (String c a) (String c' s) = false.
Proof.
  intros N. cbn [prefix]. destruct (ascii_dec c c'); [contradiction|reflexivity].
Qed.

Lemma prefix_append (a t : string) : prefix a (a ++ t) = true.
Proof.
  induction a as [|c a IH]; simpl.
  - now destruct t.
  - destruct (ascii_dec c c); congruence.
Qed.

Lemma prefix_split (a s : string) :
  prefix a s = true -> exists t, s = (a ++ t)%string.
Proof.
  revert s; induction a as [|c a IH]; intros s H.
  - now exists s.
  - destruct s as [|c' s]; simpl in H; [discriminate|].
    destruct (ascii_dec c c') as [->|]; [|discriminate].
    destruct (IH _ H) as [t ->]. now exists t.
Qed.

Lemma prefix_iff (a s : string) :
  prefix a s = true <-> exists t, s = (a ++ t)%string.
Proof.
  split; [apply prefix_split|]. intros [t ->]. apply prefix_append.
Qed.

Lemma prefix_nil_r (a : string) : prefix a "" = true -> a = "".
Proof. destruct a; simpl; [reflexivity|discriminate]. Qed.

Lemma take_drop (n : nat) (s : string) :
  (Str.take n s ++ Str.drop n s)%string = s.
Proof.
  revert s; induction n as [|n IH]; intros [|c s]; simpl; try reflexivity.
  now rewrite IH.
Qed.

Lemma take_append (a t : string) : Str.take (String.length a) (a ++ t) = a.
Proof. induction a as [|c a IH]; simpl; [now destruct t|congruence]. Qed.

Lemma drop_append (a t : string) : Str.drop (String.length a) (a ++ t) = t.
Proof. induction a as [|c a IH]; simpl; [reflexivity|assumption]. Qed.

Lemma drop_succ_append (a : string) (c : ascii) (t : string) :
  Str.drop (S (String.length a)) (a ++ String c t) = t.
Proof. induction a as [|x a IH]; simpl; [reflexivity|assumption]. Qed.

Lemma drop_drop (n m : nat) (s : string) :
  Str.drop n (Str.drop m s) = Str.drop (m + n) s.
Proof.
  revert s; induction m as [|m IH]; intros s; simpl; [reflexivity|].
  destruct s as [|c s]; simpl; [now destruct n|apply IH].
Qed.

(** [find] returns an occurrence, and the first one. *)
Lemma find_some (sub s : string) (i : nat) :
  Str.find sub s = Some i ->
  s = (Str.take i s ++ sub ++ Str.drop (i + String.length sub) s)%string.
Proof.
  revert i; induction s as [|c s IH]; intros i; cbn [Str.find].
  - destruct (prefix sub "") eqn:E; [|discriminate].
    intros [= <-]. apply prefix_nil_r in E. now subst.
  - destruct (prefix sub (String c s)) eqn:E.
    + intros [= <-]. apply prefix_split in E as [t E].
      cbn [Str.take Nat.add String.append].
      rewrite E at 1. f_equal. rewrite E. now rewrite drop_append.
    + destruct (Str.find sub s) as [j|] eqn:F; cbn [option_map];
        [|discriminate].
      intros [= <-]. cbn [Str.take Str.drop Nat.add String.append].
      f_equal. now apply IH.
Qed.

Lemma find_none (sub s before after : string) :
  Str.find sub s = None -> s <> (before ++ sub ++ after)%string.
Proof.
  revert before; induction s as [|c s IH]; intros before; cbn [Str.find].
  - destruct (prefix sub "") eqn:E; [discriminate|]. intros _ H.
    destruct before, sub; simpl in *; discriminate.
  - destruct (prefix sub (String c s)) eqn:E; [discriminate|].
    destruct (Str.find sub s) eqn:F; cbn [option_map]; [discriminate|].
    intros _ H.
    destruct before as [|c' before]; cbn [String.append] in H.
    + rewrite H, prefix_append in E. discriminate.
    + injection H as _ H. now apply (IH before).
Qed.

Lemma length_drop (n : nat) (s : string) :
  String.length (Str.drop n s) = String.length s - n.
Proof.
  revert s; induction n as [|n IH]; intros [|c s]; simpl; trivial.
Qed.

(** A split with a non-empty separator needs no more rounds than the
    string has characters, plus one: further rounds change nothing. *)
Lemma split_rounds_enough (sep : string) :
  sep <> "" ->
  forall (n m : nat) (maxsplit : option nat) (s : string),
    String.length s < n -> String.length s < m ->
    Str.split_rounds n sep maxsplit s = Str.split_rounds m sep maxsplit s.
Proof.
  intros N. induction n as [|n IH]; intros m maxsplit s Hn Hm; [lia|].
  destruct m as [|m]; [lia|]. cbn [Str.split_rounds].
  destruct (Str.find sep s) as [i|] eqn:F;
    [|now destruct maxsplit as [[|k]|]].
  assert (L : String.length (Str.drop (i + String.length sep) s)
              < String.length s).
  { pose proof (find_some _ _ _ F) as E.
    apply (f_equal String.length) in E.
    rewrite !length_append in E.
    destruct sep; [congruence|]. simpl in E. rewrite length_drop. simpl.
    lia. }
  destruct maxsplit as [[|k]|]; trivial; f_equal; apply IH; lia.
Qed.

(** Python's [sub in s] decides occurrence. *)
Lemma contains_occurs (sub s : string) :
  Str.contains sub s = true <-> Spec.occurs sub s.
Proof.
  unfold Str.contains, Spec.occurs.
  destruct (Str.find sub s) as [i|] eqn:F; split; try discriminate; trivial.
  - intros _. eauto using find_some.
  - intros (b & a & H). now apply (find_none _ _ b a) in F.
Qed.

End StringFacts.

(* ================================================================= *)
(** ** Term-offered decomposition *)

(** The short tokens come out in the fixed order FA, SP, SU, ALT, each one
    exactly when its text occurs in the input. *)
Lemma term_offered_filter (term : string) :
  Catalog.term_offered term =
  Str.join ", "
    (filter (fun token => Str.contains (Spec.term_text token) term)
            Spec.term_tokens).
Proof.
  unfold Catalog.term_offered, Spec.term_tokens. cbn [filter].
  change (Spec.term_text "FA") with "Fall".
  change (Spec.term_text "SP") with "Spring".
  change (Spec.term_text "SU") with "Summer".
  change (Spec.term_text "ALT") with "Alternate Years".
  destruct (Str.contains "Fall" term), (Str.contains "Spring" term),
    (Str.contains "Summer" term), (Str.contains "Alternate Years" term);
    reflexivity.
Qed.

(** C4, as stated, fails: an input with "Fall" and "Summer", without
    "Spring" but with "Alternate Years", does not yield "FA, SU". *)
Lemma term_offered_fall_summer_counterexample :
  ~ (forall term,
        Spec.occurs "Fall" term -> Spec.occurs "Summer" term ->
        ~ Spec.occurs "Spring" term ->
        Catalog.term_offered term = "FA, SU").
Proof.
  intros H.
  specialize (H "Fall, Summer, Alternate Years").
  assert (E : Catalog.term_offered "Fall, Summer, Alternate Years"
              = "FA, SU, ALT") by reflexivity.
  rewrite E in H.
  assert (F : "FA, SU, ALT" = "FA, SU") by
    (apply H; [apply contains_occurs; reflexivity
              |apply contains_occurs; reflexivity
              |intros O; apply contains_occurs in O; discriminate]).
  discriminate.
Qed.

(** C4 (amended): the term-offered decomposition joins with ", " the tokens
    FA, SP, SU, ALT in that fixed order, each present exactly when "Fall",
    "Spring", "Summer", "Alternate Years" occurs in the input, so the result
    depends only on which of them occur and not on their order; an input
    with "Fall" and "Summer" but neither "Spring" nor "Alternate Years"
    yields exactly "FA, SU". *)
Theorem term_offered_tokens :
  forall term : string,
    Catalog.term_offered term =
    Str.join ", "
      (filter (fun token => Str.contains (Spec.term_text token) term)
              Spec.term_tokens)
    /\ (forall token, In token Spec.term_tokens ->
          (Str.contains (Spec.term_text token) term = true
           <-> Spec.occurs (Spec.term_text token) term))
    /\ (forall term',
          (forall token, In token Spec.term_tokens ->
             (Spec.occurs (Spec.term_text token) term
              <-> Spec.occurs (Spec.term_text token) term')) ->
          Catalog.term_offered term' = Catalog.term_offered term)
    /\ (Spec.occurs "Fall" term -> Spec.occurs "Summer" term ->
        ~ Spec.occurs "Spring" term ->
        ~ Spec.occurs "Alternate Years" term ->
        Catalog.term_offered term = "FA, SU").
Proof.
  intros term. split; [apply term_offered_filter|]. split; [|split].
  - intros token _. apply contains_occurs.
  - intros term' H. rewrite !term_offered_filter. f_equal.
    apply filter_ext_in. intros token Hin.
    specialize (H token Hin). rewrite <- !contains_occurs in H.
    destruct (Str.contains (Spec.term_text token) term),
      (Str.contains (Spec.term_text token) term'); trivial;
      destruct H as [H1 H2]; [now apply H1|symmetry; now apply H2].
  - intros HF HS HP HA. unfold Catalog.term_offered.
    apply contains_occurs in HF, HS. rewrite HF, HS.
    destruct (Str.contains "Spring" term) eqn:EP;
      [exfalso; apply HP; now apply contains_occurs|].
    destruct (Str.contains "Alternate Years" term) eqn:EA;
      [exfalso; apply HA; now apply contains_occurs|].
    reflexivity.
Qed.

Lemma term_offered_tokens_witness :
  Catalog.term_offered "Summer session and Fall" = "FA, SU".
Proof.
  apply (term_offered_tokens "Summer session and Fall").
  - apply contains_occurs; reflexivity.
  - apply contains_occurs; reflexivity.
  - intros O; apply contains_occurs in O; discriminate.
  - intros O; apply contains_occurs in O; discriminate.
Defined.

(* ================================================================= *)
(** ** Dictionaries *)

Section DictFacts.

Context {V : Type}.
Implicit Types (d : dict V) (k : string) (v : V).

Lemma dict_get_in d k v : dict_get k d = Some v -> In (k, v) d.
Proof.
  induction d as [|[k' v'] d IH]; simpl; [discriminate|].
  destruct (String.eqb_spec k k') as [->|].
  - intros [= ->]. now left.
  - intros H. right. now apply IH.
Qed.

Lemma dict_get_none d k : dict_get k d = None <-> ~ In k (keys d).
Proof.
  induction d as [|[k' v'] d IH]; simpl; [tauto|].
  destruct (String.eqb_spec k k') as [->|N].
  - split; [discriminate|]. intros H. exfalso. apply H. now left.
  - rewrite IH. split; intros H; [intros [E|E]; [congruence|tauto]|tauto].
Qed.

Lemma in_keys d k v : In (k, v) d -> In k (keys d).
Proof. intros H. apply (in_map fst) in H. exact H. Qed.

Lemma dict_get_unique d k v :
  NoDup (keys d) -> In (k, v) d -> dict_get k d = Some v.
Proof.
  induction d as [|[k' v'] d IH]; simpl; [tauto|].
  intros ND [E|E].
  - injection E as -> ->. now rewrite String.eqb_refl.
  - inversion ND as [|? ? Hk ND']; subst.
    destruct (String.eqb_spec k k') as [->|N]; [|now apply IH].
    exfalso. apply Hk. eapply in_keys; eauto.
Qed.

Lemma keys_dict_set d k v :
  keys (dict_set k v d) =
  if existsb (String.eqb k) (keys d) then keys d else keys d ++ [k].
Proof.
  unfold keys.
  induction d as [|[k' v'] d IH]; simpl; [reflexivity|].
  destruct (String.eqb_spec k k') as [->|N]; simpl; [reflexivity|].
  rewrite IH.
  now destruct (existsb (String.eqb k) (map fst d)).
Qed.

Lemma nodup_dict_set d k v : NoDup (keys d) -> NoDup (keys (dict_set k v d)).
Proof.
  intros ND. rewrite keys_dict_set.
  destruct (existsb (String.eqb k) (keys d)) eqn:E; [assumption|].
  apply NoDup_app; [assumption|constructor; [simpl; tauto|constructor]|].
  intros x Hx [Ek|[]]. subst x.
  assert (existsb (String.eqb k) (keys d) = true); [|congruence].
  apply existsb_exists. exists k. split; [assumption|apply String.eqb_refl].
Qed.

Lemma nodup_dict_update (items : list (string * V)) d :
  NoDup (keys d) -> NoDup (keys (dict_update d items)).
Proof.
  revert d; induction items as [|[k v] items IH]; intros d ND; simpl;
    [assumption|]. apply IH. now apply nodup_dict_set.
Qed.

Lemma nodup_dict_of (items : list (string * V)) : NoDup (keys (dict_of items)).
Proof. apply nodup_dict_update. constructor. Qed.

End DictFacts.

(* ================================================================= *)
(** ** Lookup service *)

(** C7: in each of the five tables a label has at most one code; looking a
    label up returns [code] exactly when the table maps that very label
    (compared exactly, case included) to [code], and returns the absent
    marker exactly when the label is no key of the table.  [lookup] is a
    total function: no label, present or absent, makes it raise. *)
Theorem lookup_exact_or_absent :
  forall (SUBJECT_ITEMS ATTRIBUTE_ITEMS : list (string * string))
         (c : Mappings.category) (label : string),
    let table := Mappings.table SUBJECT_ITEMS ATTRIBUTE_ITEMS c in
    let lookup := Mappings.lookup SUBJECT_ITEMS ATTRIBUTE_ITEMS c in
    NoDup (keys table)
    /\ (forall code, In (label, code) table <-> lookup (Some label) = Some code)
    /\ (~ In label (keys table) <-> lookup (Some label) = None)
    /\ lookup None = None
    /\ Mappings.lookup SUBJECT_ITEMS ATTRIBUTE_ITEMS Mappings.Component
         (Some "Lecture") = Some "LEC"
    /\ Mappings.lookup SUBJECT_ITEMS ATTRIBUTE_ITEMS Mappings.Component
         (Some "lecture") = None.
Proof.
  intros SI AI c label table lookup.
  assert (ND : NoDup (keys table))
    by (subst table; destruct c; apply nodup_dict_of).
  split; [exact ND|]. split; [|split; [|repeat split]].
  - intros code. subst lookup. unfold Mappings.lookup, Mappings.map_get.
    split; [now apply dict_get_unique|apply dict_get_in].
  - subst lookup. unfold Mappings.lookup, Mappings.map_get.
    symmetry. apply dict_get_none.
Qed.

(* ================================================================= *)
(** ** Candidate extraction *)

Lemma pair_candidates_nth (ids : list (string * string))
      (notifications : list string) (i0 i : nat) (e : Catalog.candidate) :
  nth_error (Catalog.pair_candidates i0 ids notifications) i = Some e ->
  exists course_id offer_num,
    nth_error ids i = Some (course_id, offer_num)
    /\ e = (course_id, offer_num,
            (if i0 + i <? List.length notifications
             then nth_error notifications (i0 + i) else None),
            Catalog.verification_code_of
              (if i0 + i <? List.length notifications
               then nth_error notifications (i0 + i) else None)).
Proof.
  revert i0 i; induction ids as [|[cid off] ids IH]; intros i0 i; simpl.
  - destruct i; discriminate.
  - destruct i as [|i]; simpl.
    + intros [= <-]. exists cid, off. now rewrite Nat.add_0_r.
    + intros H. apply IH in H. now rewrite Nat.add_succ_r.
Qed.

Lemma pair_candidates_ids (ids : list (string * string))
      (notifications : list string) (i0 : nat) :
  map (fun e : Catalog.candidate => (fst (fst (fst e)), snd (fst (fst e))))
      (Catalog.pair_candidates i0 ids notifications) = ids.
Proof.
  revert i0; induction ids as [|[cid off] ids IH]; intros i0; simpl;
    [reflexivity|]. now rewrite IH.
Qed.

Section CandidateExtraction.

Variable ATTRIBUTE_ITEMS : list (string * string).
Variable requests_get : string -> result string.
Variable BeautifulSoup : string -> result Soup.node.
Variable select : string -> Soup.node -> list Soup.node.
Variable find_next_sibling :
  Soup.node -> string -> string -> option Soup.node.
Variable unescape : string -> string.

Let process_entry :=
  Catalog.process_entry ATTRIBUTE_ITEMS requests_get BeautifulSoup select
                        find_next_sibling unescape.

(** C10: candidate extraction returns one tuple per (course_id,
    offer_number) match, in the order of the matches in the document; a
    candidate whose index is beyond the list of notification strings has no
    notification string and no verification code, and the subject filter
    skips it whatever the subject short code is: processing it changes
    neither the rows written nor the requests sent. *)
Theorem extract_course_ids_pairing :
  forall html : string,
    map (fun e : Catalog.candidate =>
           (fst (fst (fst e)), snd (fst (fst e))))
        (Catalog.extract_course_ids html) = Catalog.id_matches html
    /\ List.length (Catalog.extract_course_ids html)
       = List.length (Re.findall Catalog.pattern html)
    /\ (forall (i : nat) (e : Catalog.candidate),
          nth_error (Catalog.extract_course_ids html) i = Some e ->
          List.length (Catalog.notification_matches html) <= i ->
          snd (fst e) = None /\ snd e = None
          /\ forall subject_code w,
               Catalog.differs (snd e) subject_code = true
               /\ process_entry subject_code w e = w).
Proof.
  intros html. unfold Catalog.extract_course_ids. split; [|split].
  - apply pair_candidates_ids.
  - rewrite <- (length_map
                  (fun e : Catalog.candidate =>
                     (fst (fst (fst e)), snd (fst (fst e))))).
    rewrite pair_candidates_ids. unfold Catalog.id_matches.
    now rewrite length_map.
  - intros i e H Hle. apply pair_candidates_nth in H
      as (cid & off & _ & ->). simpl.
    assert (E : (i <? List.length (Catalog.notification_matches html)) = false)
      by (apply Nat.ltb_ge; exact Hle).
    rewrite E. simpl. repeat split.
Qed.

End CandidateExtraction.

Lemma extract_course_ids_pairing_witness :
  let html :=
    "var notificationString = 'CS-1101'; YAHOO.mis.student.CourseDetailPanel.showCourseDetail('123', '1', notificationString); YAHOO.mis.student.CourseDetailPanel.showCourseDetail('456', '2', notificationString);" in
  Catalog.extract_course_ids html
  = [("123", "1", Some "CS-1101", Some "CS"); ("456", "2", None, None)]
  /\ snd (fst ("456", "2", @None string, @None string)) = None.
Proof.
  intros html. split; [reflexivity|].
  apply (proj2 (proj2 (extract_course_ids_pairing
                         [] (fun _ => Raise RequestException)
                         (fun _ => Raise OtherException) (fun _ _ => [])
                         (fun _ _ _ => None) (fun s => s) html))
           1 ("456", "2", None, None)).
  - reflexivity.
  - vm_compute. lia.
Defined.

(* ================================================================= *)
(** ** Requirement-structure normaliser *)

Section RequirementFacts.

Import Spec.

Lemma for_in_extend {A B} (f : A -> list B)
      (body : A -> list B -> result (list B)) (xs : list A) :
  (forall x, In x xs -> forall acc, body x acc = Ok (acc ++ f x)) ->
  forall acc, for_in xs body acc = Ok (acc ++ flat_map f xs).
Proof.
  induction xs as [|x xs IH]; intros H acc; simpl.
  - now rewrite app_nil_r.
  - rewrite (H x (or_introl eq_refl)). rewrite IH.
    + now rewrite app_assoc.
    + intros y Hy. apply H. now right.
Qed.

Lemma flat_map_singleton {A B} (f : A -> B) (xs : list A) :
  flat_map (fun x => [f x]) xs = map f xs.
Proof. induction xs; simpl; congruence. Qed.

Lemma flat_map_flat_map {A B C} (f : B -> list C) (g : A -> list B)
      (xs : list A) :
  flat_map f (flat_map g xs) = flat_map (fun x => flat_map f (g x)) xs.
Proof.
  induction xs as [|x xs IH]; simpl; [reflexivity|].
  now rewrite flat_map_app, IH.
Qed.

Lemma flat_map_map {A B C} (f : B -> list C) (g : A -> B) (xs : list A) :
  flat_map f (map g xs) = flat_map (fun x => f (g x)) xs.
Proof. induction xs; simpl; congruence. Qed.

Lemma plan_nonempty_truthy (d : dict value) :
  truthy (match dict_get "plan" d with Some x => x | None => VNone end)
  = plan_nonempty (VDict d).
Proof.
  unfold plan_nonempty. destruct (dict_get "plan" d) as [v|]; [|reflexivity].
  destruct v as [|[]|n|[]|[]|[]|[]]; reflexivity.
Qed.

Lemma is_dict_inv (v : value) : is_dict v = true -> exists d, v = VDict d.
Proof. destruct v; try discriminate. eauto. Qed.

Lemma list_of_inv (ok : value -> bool) (v : value) :
  list_of ok v = true -> exists xs, v = VList xs /\ forallb ok xs = true.
Proof. destruct v; try discriminate. eauto. Qed.

Lemma list_of_children (ok : value -> bool) (d : dict value) (k : string) :
  list_of ok (obj_field (VDict d) k (VList [])) = true ->
  obj_field (VDict d) k (VList []) = VList (children (VDict d) k)
  /\ forall x, In x (children (VDict d) k) -> ok x = true.
Proof.
  intros H. apply list_of_inv in H as (xs & E & F). unfold children.
  rewrite E. split; [reflexivity|]. now apply forallb_forall.
Qed.

(** One requirement line. *)
Lemma process_requirement_line_rows (g r l : value) :
  wf_line l = true ->
  Requirements.process_requirement_line
    [ ("group_name", obj_field g "name" (VStr "Unnamed Requirement Group"));
      ("is_main_requirement", VBool (plan_nonempty g));
      ("requirement_name", obj_field r "name" VNone) ] l
  = Ok (line_rows (g, r, l)).
Proof.
  unfold wf_line. intros H. apply andb_prop in H as [D H].
  apply is_dict_inv in D as [d ->].
  unfold line_rows, satisfying_courses, children.
  unfold Requirements.process_requirement_line.
  cbn [get bind obj_field] in *.
  destruct (dict_get "coursesUsedToSatisfy" d) as [v|]; [|reflexivity].
  destruct v as [| | | | |cs|]; try discriminate; [reflexivity|].
  cbn [list_of] in H. destruct cs as [|c cs]; [reflexivity|].
  change (truthy (VList (c :: cs))) with true. cbn [iter bind].
  rewrite (for_in_extend
             (fun c => [metadata g r (VDict d) ++ course_fields c])).
  - now rewrite flat_map_singleton.
  - intros x Hx acc.
    assert (Dx : is_dict x = true)
      by (revert x Hx; now apply forallb_forall).
    apply is_dict_inv in Dx as [dx ->]. reflexivity.
Qed.

Lemma wf_document_lines (doc : value) (g r l : value) :
  wf_document doc = true -> In (g, r, l) (document_lines doc) ->
  wf_group g = true /\ wf_requirement r = true /\ wf_line l = true.
Proof.
  unfold wf_document, document_lines. intros W H.
  apply list_of_inv in W as (tops & -> & W). cbn [elements] in H.
  rewrite forallb_forall in W.
  apply in_flat_map in H as (t & Ht & H). specialize (W t Ht).
  apply andb_prop in W as [D W]. apply is_dict_inv in D as [dt ->].
  apply list_of_children in W as [_ W].
  apply in_flat_map in H as (g' & Hg & H). specialize (W g' Hg).
  pose proof W as Wg. apply andb_prop in W as [D W].
  apply is_dict_inv in D as [dg ->]. apply list_of_children in W as [_ W].
  apply in_flat_map in H as (r' & Hr & H). specialize (W r' Hr).
  pose proof W as Wr. apply andb_prop in W as [D W].
  apply is_dict_inv in D as [dr ->]. apply list_of_children in W as [_ W].
  apply in_map_iff in H as (l' & [= <- <- <-] & Hl). auto.
Qed.

(** Entering one level of the tree: the object [x] met by a loop is a
    dictionary [d] whose list under the next key is well shaped, and the
    loop over that list is again a loop that extends the rows. *)
Ltac enter_level W x d :=
  let D := fresh "D" in
  let E := fresh "E" in
  apply andb_prop in W as [D W]; apply is_dict_inv in D as [d ->];
  apply list_of_children in W as [E W]; cbn [get bind];
  cbn [obj_field] in E; rewrite E; cbn [iter bind]; clear E.

Ltac next_level W x Hx acc :=
  rewrite ?flat_map_flat_map, ?flat_map_map; apply for_in_extend;
  intros x Hx acc; specialize (W x Hx).

(** The detail mode, on a document of the expected shape. *)
Lemma convert_requirements_to_csv_rows (doc : value) :
  wf_document doc = true ->
  Requirements.convert_requirements_to_csv doc
  = Ok (flat_map line_rows (document_lines doc)).
Proof.
  unfold wf_document, document_lines. intros W.
  apply list_of_inv in W as (tops & -> & W). rewrite forallb_forall in W.
  unfold Requirements.convert_requirements_to_csv. cbn [iter bind elements].
  rewrite !flat_map_flat_map.
  apply (for_in_extend
           (fun top =>
              flat_map line_rows
                (flat_map
                   (fun g =>
                      flat_map
                        (fun r => map (fun l => (g, r, l))
                                      (children r "requirementLines"))
                        (children g "requirements"))
                   (children top "requirementGroups")))).
  intros t Ht acc. specialize (W t Ht).
  enter_level W t dt. next_level W g Hg acc1.
  enter_level W g dg. next_level W r Hr acc2.
  enter_level W r dr. next_level W l Hl acc3.
  rewrite plan_nonempty_truthy.
  pose proof (process_requirement_line_rows (VDict dg) (VDict dr) l W) as P.
  cbn [obj_field] in P.
  cbn [dict_of dict_update fold_left dict_set fst snd
       String.eqb Ascii.eqb Bool.eqb].
  rewrite P. reflexivity.
Qed.



(** The structure mode, on a document of the expected shape. *)
Lemma extract_requirement_structure_rows (doc : value) :
  wf_document doc = true ->
  Requirements.extract_requirement_structure doc
  = Ok (map structure_row (document_lines doc)).
Proof.
  unfold wf_document, document_lines. intros W.
  apply list_of_inv in W as (tops & -> & W). rewrite forallb_forall in W.
  unfold Requirements.extract_requirement_structure.
  cbn [iter bind elements].
  rewrite <- flat_map_singleton, !flat_map_flat_map.
  apply (for_in_extend
           (fun top =>
              flat_map (fun glr => [structure_row glr])
                (flat_map
                   (fun g =>
                      flat_map
                        (fun r => map (fun l => (g, r, l))
                                      (children r "requirementLines"))
                        (children g "requirements"))
                   (children top "requirementGroups")))).
  intros t Ht acc. specialize (W t Ht).
  enter_level W t dt. next_level W g Hg acc1.
  enter_level W g dg. next_level W r Hr acc2.
  enter_level W r dr. next_level W l Hl acc3.
  apply andb_prop in W as [D _]. apply is_dict_inv in D as [dl ->].
  rewrite plan_nonempty_truthy. reflexivity.
Qed.

Lemma line_rows_length (glr : value * value * value) :
  List.length (line_rows glr)
  = Nat.max 1 (List.length (satisfying_courses (snd glr))).
Proof.
  destruct glr as [[g r] l]. unfold line_rows. cbn [snd].
  destruct (satisfying_courses l) as [|c cs]; [reflexivity|].
  rewrite length_map. simpl. reflexivity.
Qed.

Lemma flat_map_length_sum {A B} (f : A -> list B) (xs : list A) :
  List.length (flat_map f xs) = list_sum (map (fun x => List.length (f x)) xs).
Proof.
  induction xs as [|x xs IH]; simpl; [reflexivity|].
  now rewrite length_app, IH.
Qed.

(** C1: on every requirement document the detail mode returns, for each
    requirement line in document order, one row per satisfying course when
    there is at least one (the line's group, requirement and line columns
    followed by that course's ten fields) and a single row whose ten course
    fields are all null when there is none; so the number of rows is the sum
    over the lines of max(1, number of satisfying courses). *)
Theorem detail_rows_per_line :
  forall doc : value,
    wf_document doc = true ->
    exists rows : list row,
      Requirements.convert_requirements_to_csv doc = Ok rows
      /\ rows = flat_map line_rows (document_lines doc)
      /\ List.length rows
         = list_sum
             (map (fun glr : value * value * value =>
                     Nat.max 1 (List.length (satisfying_courses (snd glr))))
                  (document_lines doc))
      /\ (forall g r l : value,
            In (g, r, l) (document_lines doc) ->
            (satisfying_courses l = [] ->
             line_rows (g, r, l) = [metadata g r l ++ null_course_fields]
             /\ forall column source,
                  In (column, source) course_columns ->
                  dict_get column (metadata g r l ++ null_course_fields)
                  = Some VNone)
            /\ (satisfying_courses l <> [] ->
                line_rows (g, r, l)
                = map (fun c => metadata g r l ++ course_fields c)
                      (satisfying_courses l)
                /\ forall c column source,
                     In (column, source) course_columns ->
                     dict_get column (metadata g r l ++ course_fields c)
                     = Some (obj_field c source VNone))).
Proof.
  intros doc W. exists (flat_map line_rows (document_lines doc)).
  split; [now apply convert_requirements_to_csv_rows|].
  split; [reflexivity|]. split.
  - rewrite flat_map_length_sum. f_equal. apply map_ext.
    apply line_rows_length.
  - intros g r l _. unfold line_rows. split.
    + intros E. rewrite E. split; [reflexivity|].
      intros column source Hin. simpl in Hin.
      repeat (destruct Hin as [[= <- <-]|Hin]; [reflexivity|]).
      destruct Hin.
    + intros N. destruct (satisfying_courses l) as [|c0 cs]; [congruence|].
      split; [reflexivity|].
      intros c column source Hin. simpl in Hin.
      repeat (destruct Hin as [[= <- <-]|Hin]; [reflexivity|]).
      destruct Hin.
Qed.

Lemma detail_rows_per_line_witness :
  exists rows : list row,
    Requirements.convert_requirements_to_csv Spec.sample_document = Ok rows
    /\ List.length rows = 3.
Proof.
  destruct (detail_rows_per_line Spec.sample_document eq_refl)
    as (rows & E & _ & L & _).
  exists rows. split; [exact E|exact L].
Defined.

(** C9: in the detail mode and in the structure mode alike, every row of a
    requirement line carries is_main_requirement = true exactly when the
    line's requirement group has a non-empty "plan" field, and false when
    the field is absent or empty. *)
Theorem is_main_requirement_iff_plan :
  forall doc : value,
    wf_document doc = true ->
    Requirements.convert_requirements_to_csv doc
    = Ok (flat_map line_rows (document_lines doc))
    /\ Requirements.extract_requirement_structure doc
       = Ok (map structure_row (document_lines doc))
    /\ (forall g r l : value,
          In (g, r, l) (document_lines doc) ->
          (forall detail_row,
             In detail_row (line_rows (g, r, l)) ->
             dict_get "is_main_requirement" detail_row
             = Some (VBool (plan_nonempty g)))
          /\ dict_get "is_main_requirement" (structure_row (g, r, l))
             = Some (VBool (plan_nonempty g)))
    /\ (forall g : value,
          plan_nonempty g = true <->
          exists d plan,
            g = VDict d /\ dict_get "plan" d = Some plan
            /\ is_empty plan = false).
Proof.
  intros doc W.
  split; [now apply convert_requirements_to_csv_rows|].
  split; [now apply extract_requirement_structure_rows|]. split.
  - intros g r l _. split; [|reflexivity].
    intros detail_row. unfold line_rows.
    destruct (satisfying_courses l) as [|c cs].
    + intros [<-|[]]. reflexivity.
    + intros Hin. apply in_map_iff in Hin as (c' & <- & _). reflexivity.
  - intros g. unfold plan_nonempty. split.
    + destruct g as [| | | | | |d]; try discriminate.
      destruct (dict_get "plan" d) as [plan|] eqn:P; [|discriminate].
      intros H. exists d, plan. split; [reflexivity|]. split; [exact P|].
      now apply negb_true_iff.
    + intros (d & plan & -> & P & E). now rewrite P, E.
Qed.

Lemma is_main_requirement_iff_plan_witness :
  Requirements.extract_requirement_structure Spec.sample_document
  = Ok (map structure_row (document_lines Spec.sample_document))
  /\ map (dict_get "is_main_requirement")
         (flat_map line_rows (document_lines Spec.sample_document))
     = [Some (VBool true); Some (VBool true); Some (VBool true)].
Proof.
  split.
  - exact (proj1 (proj2 (is_main_requirement_iff_plan Spec.sample_document eq_refl))).
  - reflexivity.
Defined.

(* ----------------------------------------------------------------- *)
(** Further properties of the two normaliser modes. *)

Lemma extract_requirement_structure_any_lines (doc : value) :
  wf_structure_document doc = true ->
  Requirements.extract_requirement_structure doc
  = Ok (map structure_row (document_lines doc)).
Proof.
  unfold wf_structure_document, document_lines. intros W.
  apply list_of_inv in W as (tops & -> & W). rewrite forallb_forall in W.
  unfold Requirements.extract_requirement_structure.
  cbn [iter bind elements].
  rewrite <- flat_map_singleton, !flat_map_flat_map.
  apply (for_in_extend
           (fun top =>
              flat_map (fun glr => [structure_row glr])
                (flat_map
                   (fun g =>
                      flat_map
                        (fun r => map (fun l => (g, r, l))
                                      (children r "requirementLines"))
                        (children g "requirements"))
                   (children top "requirementGroups")))).
  intros t Ht acc. specialize (W t Ht).
  enter_level W t dt. next_level W g Hg acc1.
  enter_level W g dg. next_level W r Hr acc2.
  enter_level W r dr. next_level W l Hl acc3.
  apply is_dict_inv in W as [dl ->].
  rewrite plan_nonempty_truthy. reflexivity.
Qed.

(** X1: the structure mode emits exactly one row per requirement line, in
    document order, whatever the line holds under "coursesUsedToSatisfy":
    it needs the lines to be objects and nothing more. *)
Theorem structure_mode_one_row_per_line :
  forall doc : value,
    wf_structure_document doc = true ->
    exists rows : list row,
      Requirements.extract_requirement_structure doc = Ok rows
      /\ rows = map structure_row (document_lines doc)
      /\ List.length rows = List.length (document_lines doc).
Proof.
  intros doc W. exists (map structure_row (document_lines doc)).
  split; [now apply extract_requirement_structure_any_lines|].
  split; [reflexivity|apply length_map].
Qed.

Lemma structure_mode_one_row_per_line_witness :
  exists rows : list row,
    Requirements.extract_requirement_structure odd_courses_document = Ok rows
    /\ List.length rows = 2
    /\ Requirements.convert_requirements_to_csv odd_courses_document
       = Raise AttributeError.
Proof.
  destruct (structure_mode_one_row_per_line odd_courses_document eq_refl)
    as (rows & E & _ & L).
  exists rows. split; [exact E|]. split; [exact L|reflexivity].
Defined.

(** X2: on a document of the specified shape the two modes agree: every
    detail row of a line carries, in the seven columns the two tables
    share, the values of the line's structure row. *)
Theorem modes_agree_on_shared_columns :
  forall doc : value,
    wf_document doc = true ->
    Requirements.convert_requirements_to_csv doc
    = Ok (flat_map line_rows (document_lines doc))
    /\ Requirements.extract_requirement_structure doc
       = Ok (map structure_row (document_lines doc))
    /\ forall glr detail_row column,
         In glr (document_lines doc) ->
         In detail_row (line_rows glr) ->
         In column shared_columns ->
         dict_get column detail_row = dict_get column (structure_row glr).
Proof.
  intros doc W.
  split; [now apply convert_requirements_to_csv_rows|].
  split; [now apply extract_requirement_structure_rows|].
  intros [[g r] l] detail_row column _ Hrow Hcol.
  assert (E : exists fields,
             detail_row = metadata g r l ++ fields).
  { unfold line_rows in Hrow. destruct (satisfying_courses l) as [|c cs].
    - destruct Hrow as [<-|[]]. eauto.
    - apply in_map_iff in Hrow as (c' & <- & _). eauto. }
  destruct E as [fields ->]. simpl in Hcol.
  repeat (destruct Hcol as [<-|Hcol]; [reflexivity|]). destruct Hcol.
Qed.

Lemma modes_agree_on_shared_columns_witness :
  Requirements.convert_requirements_to_csv sample_document
  = Ok (flat_map line_rows (document_lines sample_document)).
Proof.
  exact (proj1 (modes_agree_on_shared_columns sample_document eq_refl)).
Defined.

End RequirementFacts.

(* ================================================================= *)
(** ** Class-section extractor *)

Section ClassSectionFacts.

Import Spec.

Variable requests_get : string -> result string.
Variable BeautifulSoup : string -> result Soup.node.
Variable float : string -> result spec_float.

Let scrape := ClassSections.scrape_class_section requests_get BeautifulSoup float.
Let scrape_try :=
  ClassSections.scrape_class_section_try requests_get BeautifulSoup float.
Let details := ClassSections.extract_class_details float.

Lemma scrape_catches (n : Z) :
  scrape n = Ok (match scrape_try n with Ok r => r | Raise _ => None end).
Proof.
  unfold scrape, scrape_try, ClassSections.scrape_class_section.
  destruct (ClassSections.scrape_class_section_try _ _ _ n) as [r|[]];
    reflexivity.
Qed.

Lemma parse_class_header_fields (header_text : string) (header : row) :
  ClassSections.parse_class_header header_text = Some header ->
  exists subject catalog_number section_number long_title,
    header = [ ("subject", VStr subject);
               ("catalog_number", VStr catalog_number);
               ("section_number", VStr section_number);
               ("display_name",
                VStr (subject ++ "-" ++ catalog_number)%string);
               ("long_title", VStr long_title) ].
Proof.
  unfold ClassSections.parse_class_header.
  destruct (Re.re_match _ _) as [groups|]; [|discriminate].
  intros [= <-]. repeat eexists.
Qed.

Lemma dict_get_set_other {V} (d : dict V) (k k' : string) (v : V) :
  dict_get k d <> None -> dict_get k (dict_set k' v d) <> None.
Proof.
  induction d as [|[k0 v0] d IH]; simpl; [congruence|].
  destruct (String.eqb_spec k' k0) as [->|N]; simpl.
  - destruct (String.eqb k k0); [discriminate|trivial].
  - destruct (String.eqb k k0); [discriminate|exact IH].
Qed.

Lemma dict_get_update_keeps {V} (items : list (string * V)) (d : dict V)
      (k : string) :
  dict_get k d <> None -> dict_get k (dict_update d items) <> None.
Proof.
  revert d; induction items as [|[k' v'] items IH]; intros d H; simpl;
    [exact H|]. apply IH. now apply dict_get_set_other.
Qed.

(** The outcome of the [try] block, case by case. *)
Lemma scrape_try_some (n : Z) (r : row) :
  scrape_try n = Ok (Some r) ->
  exists text soup h1 header class_details,
    requests_get (ClassSections.url n) = Ok text
    /\ Str.contains "classSectionDetailDialog" text = true
    /\ BeautifulSoup text = Ok soup
    /\ Soup.find "h1" None soup = Some h1
    /\ ClassSections.parse_class_header (Str.strip (Soup.get_text " " h1))
       = Some header
    /\ details soup = Ok class_details
    /\ r = dict_update
             [ ("class_number", VStr (Str.of_Z n));
               ("display_name",
                obj_field (VDict header) "display_name" VNone);
               ("long_title", obj_field (VDict header) "long_title" VNone);
               ("subject", obj_field (VDict header) "subject" VNone);
               ("catalog_number",
                obj_field (VDict header) "catalog_number" VNone);
               ("section_number",
                obj_field (VDict header) "section_number" VNone) ]
             class_details.
Proof.
  unfold scrape_try, details, ClassSections.scrape_class_section_try.
  destruct (requests_get _) as [text|] eqn:E1; cbn [bind]; [|discriminate].
  destruct (Str.contains _ text) eqn:E2; cbn [negb]; [|discriminate].
  destruct (BeautifulSoup text) as [soup|] eqn:E3; cbn [bind];
    [|discriminate].
  destruct (Soup.find "h1" None soup) as [h1|] eqn:E4; [|discriminate].
  destruct (ClassSections.parse_class_header _) as [header|] eqn:P;
    [|discriminate].
  destruct (parse_class_header_fields _ _ P) as (s & c & sec & lt & ->).
  cbn [truthy negb].
  destruct (ClassSections.extract_class_details float soup) as [cd|] eqn:E5;
    cbn [bind]; [|discriminate].
  intros [= <-]. exists text, soup, h1. eexists. exists cd.
  repeat split; try eassumption; reflexivity.
Qed.

Lemma scrape_some_identity (n : Z) (r : row) :
  scrape n = Ok (Some r) -> has_columns identity_columns r.
Proof.
  rewrite scrape_catches. intros [= H].
  destruct (scrape_try n) as [[r'|]|] eqn:E; try discriminate.
  injection H as ->.
  apply scrape_try_some in E
    as (text & soup & h1 & header & cd & _ & _ & _ & _ & P & _ & ->).
  destruct (parse_class_header_fields _ _ P) as (s & c & sec & lt & ->).
  intros column Hin. apply dict_get_update_keeps.
  simpl in Hin.
  repeat (destruct Hin as [<-|Hin]; [discriminate|]). destruct Hin.
Qed.

Lemma main_scan_collects (ids : list Z) (acc : list row) :
  for_in ids
    (ClassSections.main_step requests_get BeautifulSoup float) acc
  = Ok (acc ++ flat_map
                 (fun i => match scrape i with
                           | Ok (Some r) => [r]
                           | _ => []
                           end) ids).
Proof.
  apply for_in_extend. intros n _ rows.
  unfold ClassSections.main_step. fold scrape.
  destruct (scrape n) as [[r|]|e] eqn:E; cbn [bind].
  - apply scrape_some_identity in E.
    destruct r as [|kv r]; [|reflexivity].
    exfalso. apply (E "class_number"); [now left|reflexivity].
  - now rewrite app_nil_r.
  - rewrite scrape_catches in E. discriminate.
Qed.

(** Without a detail panel the details are the empty dictionary. *)
Lemma extract_class_details_without_panel (soup : Soup.node) :
  Soup.find "div" (Some "detailPanel") soup = None -> details soup = Ok [].
Proof.
  unfold details, ClassSections.extract_class_details. now intros ->.
Qed.

(** With a detail panel the four detail columns are all there. *)
Lemma extract_class_details_with_panel (soup panel : Soup.node) (r : row) :
  Soup.find "div" (Some "detailPanel") soup = Some panel ->
  details soup = Ok r -> keys r = detail_columns.
Proof.
  unfold details, ClassSections.extract_class_details. intros ->.
  destruct (for_in _ _ _) as [st|]; cbn [bind]; [|discriminate].
  now intros [= <-].
Qed.

End ClassSectionFacts.

Section ClassSectionTheorems.

Import Spec.

(** C8: scraping one class section never raises: it returns a record or
    nothing.  A transport error or timeout of the request, a response
    without the marker substring, a page without heading, a heading that
    does not parse and any exception raised while the page is parsed or its
    details are extracted all yield nothing, and the scan over an id range
    always runs to its end and collects the records of the ids that have
    one, in order.  A returned record is built from the response to the
    request for that class number: it holds the class number, the five
    columns of the parsed heading and every entry of the extracted details.
    It is complete, with all ten columns of the table, when the page has a
    detail panel; when the page has none it has the six heading columns
    alone.  So the claim fails at such a page: the scrape of class number
    1000 on the page with heading "CS-1101-01 : Intro to Computing" and no
    detail panel returns a record that is not complete. *)
Theorem scrape_class_section_absorbs_failures :
  forall (requests_get : string -> result string)
         (BeautifulSoup : string -> result Soup.node)
         (float : string -> result spec_float) (n : Z),
    let scrape :=
      ClassSections.scrape_class_section requests_get BeautifulSoup float in
    (scrape n = Ok None
     \/ exists (r : row) (text : string) (soup h1 : Soup.node)
               (header class_details : row),
          scrape n = Ok (Some r)
          /\ requests_get (ClassSections.url n) = Ok text
          /\ Str.contains "classSectionDetailDialog" text = true
          /\ BeautifulSoup text = Ok soup
          /\ Soup.find "h1" None soup = Some h1
          /\ ClassSections.parse_class_header
               (Str.strip (Soup.get_text " " h1)) = Some header
          /\ ClassSections.extract_class_details float soup = Ok class_details
          /\ r = dict_update
                   [ ("class_number", VStr (Str.of_Z n));
                     ("display_name",
                      obj_field (VDict header) "display_name" VNone);
                     ("long_title",
                      obj_field (VDict header) "long_title" VNone);
                     ("subject", obj_field (VDict header) "subject" VNone);
                     ("catalog_number",
                      obj_field (VDict header) "catalog_number" VNone);
                     ("section_number",
                      obj_field (VDict header) "section_number" VNone) ]
                   class_details
          /\ has_columns identity_columns r
          /\ (forall panel,
                Soup.find "div" (Some "detailPanel") soup = Some panel ->
                keys r = class_section_columns
                /\ has_columns class_section_columns r)
          /\ (Soup.find "div" (Some "detailPanel") soup = None ->
              keys r = identity_columns
              /\ ~ has_columns class_section_columns r))
    /\ (forall e, requests_get (ClassSections.url n) = Raise e ->
                  scrape n = Ok None)
    /\ (forall text,
          requests_get (ClassSections.url n) = Ok text ->
          (Str.contains "classSectionDetailDialog" text = false ->
           scrape n = Ok None)
          /\ (forall e, BeautifulSoup text = Raise e -> scrape n = Ok None)
          /\ (forall soup,
                BeautifulSoup text = Ok soup ->
                (Soup.find "h1" None soup = None -> scrape n = Ok None)
                /\ (forall h1,
                      Soup.find "h1" None soup = Some h1 ->
                      ClassSections.parse_class_header
                        (Str.strip (Soup.get_text " " h1)) = None ->
                      scrape n = Ok None)
                /\ (forall e,
                      ClassSections.extract_class_details float soup
                      = Raise e ->
                      scrape n = Ok None)))
    /\ (forall lo hi : Z,
          ClassSections.main_scan requests_get BeautifulSoup float lo hi
          = Ok (flat_map
                  (fun i => match scrape i with
                            | Ok (Some r) => [r]
                            | _ => []
                            end)
                  (range lo hi)))
    /\ (exists r : row,
          ClassSections.scrape_class_section
            (fun _ => Ok page_text) (fun _ => Ok page_without_panel)
            (fun _ => Raise ValueError) 1000%Z
          = Ok (Some r)
          /\ keys r = identity_columns
          /\ dict_get "school_code" r = None
          /\ dict_get "career_code" r = None
          /\ dict_get "component_code" r = None
          /\ dict_get "units_earned" r = None
          /\ ~ has_columns class_section_columns r).
Proof.
  intros requests_get BeautifulSoup float n scrape. subst scrape.
  split; [|split; [|split; [|split]]].
  - rewrite scrape_catches.
    destruct (ClassSections.scrape_class_section_try _ _ _ n)
      as [[r|]|e] eqn:E; [right|now left|now left].
    pose proof (scrape_some_identity requests_get BeautifulSoup float n r) as I.
    rewrite scrape_catches, E in I. specialize (I eq_refl).
    apply scrape_try_some in E
      as (text & soup & h1 & header & cd & E1 & E2 & E3 & E4 & P & D & R).
    exists r, text, soup, h1, header, cd.
    do 9 (split; [first [reflexivity|assumption]|]).
    split.
    + intros panel F.
      pose proof (extract_class_details_with_panel float soup panel cd F D)
        as K.
      destruct cd as [|[k1 v1] [|[k2 v2] [|[k3 v3] [|[k4 v4] [|]]]]];
        try discriminate.
      injection K as -> -> -> ->. subst r. split; [reflexivity|].
      intros column Hin. simpl in Hin.
      repeat (destruct Hin as [<-|Hin]; [discriminate|]). destruct Hin.
    + intros F.
      rewrite (extract_class_details_without_panel float soup F) in D.
      injection D as <-. subst r. split; [reflexivity|].
      intros H. now apply (H "school_code"); [simpl; tauto|].
  - intros e E. rewrite scrape_catches.
    unfold ClassSections.scrape_class_section_try. now rewrite E.
  - intros text E. rewrite scrape_catches.
    unfold ClassSections.scrape_class_section_try. rewrite E. cbn [bind].
    split; [now intros ->|].
    destruct (Str.contains _ text); cbn [negb];
      [|split; [reflexivity|intros soup _; repeat split; reflexivity]].
    split; [now intros e ->|]. intros soup ->. cbn [bind].
    split; [now intros ->|]. split.
    + intros h1 -> P. now rewrite P.
    + intros e D. destruct (Soup.find "h1" None soup) as [h1|]; [|reflexivity].
      destruct (ClassSections.parse_class_header _) as [header|];
        [|reflexivity].
      destruct (negb _); [reflexivity|]. now rewrite D.
  - intros lo hi. unfold ClassSections.main_scan.
    now rewrite main_scan_collects.
  - eexists. split; [reflexivity|].
    do 5 (split; [reflexivity|]).
    intros H. now apply (H "school_code"); [simpl; tauto|].
Qed.

(** A course record has the sixteen columns of the catalog table. *)
Lemma extract_course_details_columns
      (ATTRIBUTE_ITEMS : list (string * string))
      (BeautifulSoup : string -> result Soup.node)
      (select : string -> Soup.node -> list Soup.node)
      (find_next_sibling : Soup.node -> string -> string -> option Soup.node)
      (unescape : string -> string)
      (html subject_code course_id : string) (r : row) :
  Catalog.extract_course_details ATTRIBUTE_ITEMS BeautifulSoup select
    find_next_sibling unescape html subject_code course_id = Ok (Some r) ->
  forall column, In column (keys r) <-> In column Catalog.csv_keys.
Proof.
  unfold Catalog.extract_course_details.
  destruct (BeautifulSoup html) as [soup|]; cbn [bind]; [|discriminate].
  destruct (hd_error _) as [title_line|]; [|discriminate].
  destruct (Re.search _ _) as [[[before groups] rest]|]; [|discriminate].
  destruct (bind _ _) as [piece|[]]; try discriminate.
  destruct (Catalog.extract_requirement_text _ "Corequisite:") as [co|];
    cbn [bind]; [|discriminate].
  destruct (Catalog.extract_requirement_text _ "Prerequisite:") as [pr|];
    cbn [bind]; [|discriminate].
  destruct (Catalog.extract_requirement_text _ _) as [an|];
    cbn [bind]; [|discriminate].
  intros [= <-] column. cbn [keys map fst Catalog.csv_keys In]. tauto.
Qed.

(** C6, at a page without detail panel: the record scraped from it has the
    six heading columns only; school_code, career_code, component_code and
    units_earned are not keys of it.  A page with the panel yields all ten
    columns, with explicit nulls for the values it does not give; the
    records of the course catalog and the rows of the two normaliser modes
    have all the columns of their tables. *)
Theorem record_without_panel_lacks_detail_columns :
  let scrape page :=
    ClassSections.scrape_class_section
      (fun _ => Ok page_text) (fun _ => Ok page) (fun _ => Raise ValueError) in
  scrape page_without_panel 1000%Z
  = Ok (Some [ ("class_number", VStr "1000");
               ("display_name", VStr "CS-1101");
               ("long_title", VStr "Intro to Computing");
               ("subject", VStr "CS");
               ("catalog_number", VStr "1101");
               ("section_number", VStr "01") ])
  /\ scrape page_with_panel 1000%Z
     = Ok (Some [ ("class_number", VStr "1000");
                  ("display_name", VStr "CS-1101");
                  ("long_title", VStr "Intro to Computing");
                  ("subject", VStr "CS");
                  ("catalog_number", VStr "1101");
                  ("section_number", VStr "01");
                  ("school_code", VStr "ENGIN");
                  ("career_code", VNone);
                  ("component_code", VStr "LEC");
                  ("units_earned", VNone) ])
  /\ (forall float soup,
        Soup.find "div" (Some "detailPanel") soup = None ->
        ClassSections.extract_class_details float soup = Ok [])
  /\ (forall float soup panel r,
        Soup.find "div" (Some "detailPanel") soup = Some panel ->
        ClassSections.extract_class_details float soup = Ok r ->
        keys r = detail_columns)
  /\ (forall ATTRIBUTE_ITEMS BeautifulSoup select find_next_sibling unescape
             html subject_code course_id r,
        Catalog.extract_course_details ATTRIBUTE_ITEMS BeautifulSoup select
          find_next_sibling unescape html subject_code course_id
        = Ok (Some r) ->
        forall column, In column (keys r) <-> In column Catalog.csv_keys)
  /\ (forall glr row,
        In row (line_rows glr) -> keys row = Requirements.detail_fieldnames)
  /\ (forall glr column,
        In column Requirements.structure_fieldnames ->
        dict_get column (structure_row glr) <> None).
Proof.
  split; [reflexivity|]. split; [reflexivity|].
  split; [|split; [|split; [|split]]].
  - apply extract_class_details_without_panel.
  - apply extract_class_details_with_panel.
  - apply extract_course_details_columns.
  - intros [[g r] l] row. unfold line_rows.
    destruct (satisfying_courses l) as [|c cs].
    + intros [<-|[]]. reflexivity.
    + intros Hin. apply in_map_iff in Hin as (c' & <- & _). reflexivity.
  - intros [[g r] l] column Hin. simpl in Hin.
    repeat (destruct Hin as [<-|Hin]; [discriminate|]). destruct Hin.
Qed.

End ClassSectionTheorems.

(* ================================================================= *)
(** ** The regular-expression matcher *)

Section ReFacts.

Import Spec.

Lemma rep_unfold {R} (greedy : bool) (cls : ascii -> bool) (lo : nat)
      (hi : option nat) (k : string -> string -> option R)
      (acc s : string) :
  Re.rep greedy cls lo hi k acc s =
  let stop := fun _ : unit => match lo with O => k acc s | S _ => None end in
  let more := fun _ : unit =>
    match s with
    | EmptyString => None
    | String c s' =>
        if cls c && Re.room hi
        then Re.rep greedy cls (pred lo) (option_map pred hi) k
                    (acc ++ String c EmptyString)%string s'
        else None
    end in
  if greedy then Re.or_else (more tt) stop else Re.or_else (stop tt) more.
Proof. destruct s; reflexivity. Qed.

Lemma append_snoc (acc : string) (c : ascii) (w : string) :
  ((acc ++ String c "") ++ w)%string = (acc ++ String c w)%string.
Proof. now rewrite append_assoc. Qed.

(** Whatever [rep] returns comes from a run of the class, of a length
    within the bounds, followed by a success of the continuation. *)
Lemma rep_sound {R} (greedy : bool) (cls : ascii -> bool)
      (k : string -> string -> option R) (s : string) :
  forall (lo : nat) (hi : option nat) (acc : string) (r : R),
    Re.rep greedy cls lo hi k acc s = Some r ->
    exists w s',
      s = (w ++ s')%string /\ Str.all_chars cls w = true
      /\ lo <= String.length w /\ within hi (String.length w)
      /\ k (acc ++ w)%string s' = Some r.
Proof.
  induction s as [|c s IH]; intros lo hi acc r; rewrite rep_unfold; cbv zeta.
  - assert (G : match lo with O => k acc "" | S _ => None end = Some r ->
                exists w s', "" = (w ++ s')%string
                  /\ Str.all_chars cls w = true
                  /\ lo <= String.length w /\ within hi (String.length w)
                  /\ k (acc ++ w)%string s' = Some r).
    { destruct lo; [|discriminate]. intros H. exists "", "".
      rewrite (append_nil_r acc). repeat split; trivial.
      destruct hi; simpl; [lia|exact I]. }
    destruct greedy; unfold Re.or_else; [exact G|].
    destruct (match lo with O => k acc "" | S _ => None end);
      [exact G|discriminate].
  - assert (Gs : match lo with O => k acc (String c s) | S _ => None end
                 = Some r ->
                 exists w s', String c s = (w ++ s')%string
                   /\ Str.all_chars cls w = true
                   /\ lo <= String.length w /\ within hi (String.length w)
                   /\ k (acc ++ w)%string s' = Some r).
    { destruct lo; [|discriminate]. intros H. exists "", (String c s).
      rewrite (append_nil_r acc). repeat split; trivial.
      destruct hi; simpl; [lia|exact I]. }
    assert (Gm : (if cls c && Re.room hi
                  then Re.rep greedy cls (pred lo) (option_map pred hi) k
                              (acc ++ String c "")%string s
                  else None) = Some r ->
                 exists w s', String c s = (w ++ s')%string
                   /\ Str.all_chars cls w = true
                   /\ lo <= String.length w /\ within hi (String.length w)
                   /\ k (acc ++ w)%string s' = Some r).
    { destruct (cls c) eqn:C; [|discriminate].
      destruct (Re.room hi) eqn:Rm; [|discriminate]. cbn [andb].
      intros H. apply IH in H as (w & s' & -> & A & L & U & K).
      exists (String c w), s'. rewrite append_snoc in K.
      repeat split; trivial.
      - simpl. now rewrite C.
      - simpl. lia.
      - destruct hi as [[|h]|]; simpl in *; try discriminate; trivial; lia. }
    destruct greedy; unfold Re.or_else.
    + destruct (if cls c && Re.room hi then _ else None) eqn:M;
        [intros [= <-]; now apply Gm|exact Gs].
    + destruct (match lo with O => _ | S _ => None end) eqn:St;
        [intros [= <-]; now apply Gs|exact Gm].
Qed.

(** A greedy repetition settles on the longest run when the continuation
    accepts it. *)
Lemma rep_greedy_longest {R} (cls : ascii -> bool)
      (k : string -> string -> option R) (w : string) :
  forall (s' : string) (lo : nat) (hi : option nat) (acc : string) (r : R),
    Str.all_chars cls w = true ->
    lo <= String.length w -> within hi (String.length w) ->
    hi = Some (String.length w) \/ stops cls s' ->
    k (acc ++ w)%string s' = Some r ->
    Re.rep true cls lo hi k acc (w ++ s') = Some r.
Proof.
  induction w as [|c w IH]; intros s' lo hi acc r A L U E K;
    rewrite rep_unfold; cbv zeta.
  - rewrite append_nil_r in K. simpl in L.
    assert (lo = 0) by lia. subst lo. cbn [String.append].
    assert (M : match s' with
                | "" => None
                | String c s0 =>
                    if cls c && Re.room hi
                    then Re.rep true cls (pred 0) (option_map pred hi) k
                                (acc ++ String c "")%string s0
                    else None
                end = None).
    { destruct s' as [|c s0]; [reflexivity|].
      destruct E as [->|E]; [now rewrite andb_false_r|].
      simpl in E. now rewrite E. }
    rewrite M. exact K.
  - simpl in A. apply andb_prop in A as [C A]. cbn [String.append].
    rewrite C.
    assert (Rm : Re.room hi = true)
      by (destruct hi as [[|h]|]; simpl in *; trivial; lia).
    rewrite Rm. cbn [andb].
    rewrite (IH s' (pred lo) (option_map pred hi) _ r); trivial.
    + simpl in L. lia.
    + destruct hi as [h|]; simpl in *; trivial; lia.
    + destruct E as [->|E]; [left; reflexivity|now right].
    + now rewrite append_snoc.
Qed.

(** A lazy repetition settles on the shortest run the continuation
    accepts. *)
Lemma rep_lazy_shortest {R} (cls : ascii -> bool)
      (k : string -> string -> option R) (w : string) :
  forall (s' : string) (lo : nat) (hi : option nat) (acc : string) (r : R),
    Str.all_chars cls w = true ->
    lo <= String.length w -> within hi (String.length w) ->
    k (acc ++ w)%string s' = Some r ->
    (forall w1 w2, w = (w1 ++ w2)%string -> w2 <> "" ->
                   k (acc ++ w1)%string (w2 ++ s')%string = None) ->
    Re.rep false cls lo hi k acc (w ++ s') = Some r.
Proof.
  induction w as [|c w IH]; intros s' lo hi acc r A L U K Min;
    rewrite rep_unfold; cbv zeta.
  - rewrite append_nil_r in K. simpl in L.
    assert (lo = 0) by lia. subst lo. cbn [String.append].
    now rewrite K.
  - assert (St : match lo with
                 | O => k acc (String c w ++ s')%string
                 | S _ => None
                 end = None).
    { destruct lo; [|reflexivity].
      specialize (Min "" (String c w) eq_refl).
      rewrite append_nil_r in Min. apply Min. discriminate. }
    rewrite St. unfold Re.or_else.
    simpl in A. apply andb_prop in A as [C A]. cbn [String.append].
    rewrite C.
    assert (Rm : Re.room hi = true)
      by (destruct hi as [[|h]|]; simpl in *; trivial; lia).
    rewrite Rm. cbn [andb].
    apply IH; trivial.
    + simpl in L. lia.
    + destruct hi as [h|]; simpl in *; trivial; lia.
    + now rewrite append_snoc.
    + intros w1 w2 -> N. rewrite append_snoc.
      now apply (Min (String c w1) w2).
Qed.

(** With no lower bound and a continuation that always succeeds, a
    repetition succeeds. *)
Lemma rep_total {R} (greedy : bool) (cls : ascii -> bool)
      (hi : option nat) (k : string -> string -> option R) (s : string) :
  (forall w rest, k w rest <> None) ->
  forall acc, Re.rep greedy cls 0 hi k acc s <> None.
Proof.
  intros T. revert hi.
  induction s as [|c s IH]; intros hi acc; rewrite rep_unfold; cbv zeta;
    unfold Re.or_else.
  - destruct greedy; specialize (T acc ""); now destruct (k acc "").
  - specialize (T acc (String c s)).
    destruct greedy.
    + destruct (cls c && Re.room hi).
      * specialize (IH (option_map pred hi) (acc ++ String c "")%string).
        cbn [pred]. now destruct (Re.rep _ _ _ _ _ _ _).
      * now destruct (k acc (String c s)).
    + now destruct (k acc (String c s)).
Qed.

Lemma rep_ext {R} (greedy : bool) (cls : ascii -> bool)
      (k k' : string -> string -> option R) (s : string) :
  (forall w rest, k w rest = k' w rest) ->
  forall lo hi acc,
    Re.rep greedy cls lo hi k acc s = Re.rep greedy cls lo hi k' acc s.
Proof.
  intros E. induction s as [|c s IH]; intros lo hi acc;
    rewrite (rep_unfold greedy cls lo hi k),
      (rep_unfold greedy cls lo hi k'); cbv zeta.
  - now rewrite E.
  - now rewrite E, IH.
Qed.

Lemma match_here_no_bos (re : Re.regex) :
  no_bos re = true ->
  forall b b' caps s, Re.match_here re b caps s = Re.match_here re b' caps s.
Proof.
  induction re as [|a re IH]; intros N b b' caps s; [reflexivity|].
  destruct a as [c|cap g cls lo hi| |]; cbn [no_bos] in N;
    cbn [Re.match_here].
  - destruct s as [|c' s]; [reflexivity|]. now destruct (Ascii.eqb c c').
  - apply rep_ext. intros w rest. now apply IH.
  - discriminate.
  - destruct (Re.at_end s); [now apply IH|reflexivity].
Qed.

(** Literal pattern text matches that text and captures nothing. *)
Lemma match_here_lit (p : string) (re : Re.regex) (b : bool)
      (caps : list string) (s : string) (x : list string * string) :
  Re.match_here (Re.lit p ++ re) b caps s = Some x ->
  exists s' b', s = (p ++ s')%string /\ Re.match_here re b' caps s' = Some x.
Proof.
  revert b s; induction p as [|c p IH]; intros b s; cbn [Re.lit app].
  - intros H. now exists s, b.
  - cbn [Re.match_here]. destruct s as [|c' s]; [discriminate|].
    destruct (Ascii.eqb_spec c c') as [<-|]; [|discriminate].
    intros H. apply IH in H as (s' & b' & -> & H). now exists s', b'.
Qed.

Lemma match_here_lit_only (p : string) (b : bool) (caps : list string)
      (s : string) (x : list string * string) :
  Re.match_here (Re.lit p) b caps s = Some x -> fst x = caps.
Proof.
  intros H. rewrite <- (app_nil_r (Re.lit p)) in H.
  apply match_here_lit in H as (s' & b' & _ & H). cbn in H.
  now injection H as <-.
Qed.

(** Every element [findall] returns is the capture list of a match. *)
Lemma findall_from_sound (re : Re.regex) (s : string) :
  forall skip b caps,
    In caps (Re.findall_from re skip b s) ->
    exists b' s1 rest, Re.match_here re b' [] s1 = Some (caps, rest).
Proof.
  induction s as [|c s IH]; intros skip b caps; cbn [Re.findall_from].
  - destruct skip; [|intros []].
    destruct (Re.match_here re b [] "") as [[caps' rest]|] eqn:M;
      [|intros []].
    intros [<-|[]]. eauto.
  - destruct skip as [|skip].
    + destruct (Re.match_here re b [] (String c s)) as [[caps' rest]|] eqn:M.
      * intros [<-|H]; [eauto|]. now apply IH in H.
      * apply IH.
    + apply IH.
Qed.

End ReFacts.

(* ================================================================= *)
(** ** Class-section headings *)

Section HeaderFacts.

Import Spec.

Lemma shape_append (subject catalog section rest : string) :
  ((subject ++ "-" ++ catalog ++ "-" ++ section) ++ rest)%string
  = (subject ++ "-" ++ catalog ++ "-" ++ section ++ rest)%string.
Proof.
  rewrite append_assoc. cbn [String.append]. rewrite append_assoc.
  cbn [String.append]. reflexivity.
Qed.

(** [([A-Z]{2,6})-([A-Z\d]{4,6})-(\d{2})] matches exactly the texts that
    begin with the strict shape. *)
Lemma header_match_complete (subject catalog section rest : string) (b : bool) :
  shape_parts subject catalog section ->
  Re.match_here ClassSections.header_pattern b []
    (subject ++ "-" ++ catalog ++ "-" ++ section ++ rest)
  = Some ([subject; catalog; section], rest).
Proof.
  intros (A1 & [L1 U1] & A2 & [L2 U2] & A3 & L3).
  unfold ClassSections.header_pattern. cbn [Re.match_here].
  apply rep_greedy_longest; trivial; [now right|].
  cbn [String.append Re.match_here app]. rewrite Ascii.eqb_refl.
  apply rep_greedy_longest; trivial; [now right|].
  cbn [String.append Re.match_here app]. rewrite Ascii.eqb_refl.
  apply rep_greedy_longest; trivial.
  - lia.
  - simpl. lia.
  - left. now rewrite L3.
Qed.

Lemma header_match_sound (s : string) (b : bool) (caps : list string)
      (rest : string) :
  Re.match_here ClassSections.header_pattern b [] s = Some (caps, rest) ->
  exists subject catalog section,
    s = (subject ++ "-" ++ catalog ++ "-" ++ section ++ rest)%string
    /\ shape_parts subject catalog section
    /\ caps = [subject; catalog; section].
Proof.
  unfold ClassSections.header_pattern. cbn [Re.match_here]. intros H.
  apply rep_sound in H as (subject & s1 & -> & A1 & L1 & U1 & H).
  destruct s1 as [|c1 s1]; [discriminate|].
  destruct (Ascii.eqb_spec "-" c1) as [<-|]; [|discriminate].
  apply rep_sound in H as (catalog & s2 & -> & A2 & L2 & U2 & H).
  destruct s2 as [|c2 s2]; [discriminate|].
  destruct (Ascii.eqb_spec "-" c2) as [<-|]; [|discriminate].
  apply rep_sound in H as (section & s3 & -> & A3 & L3 & U3 & H).
  injection H as <- <-. exists subject, catalog, section.
  cbn [String.append app] in *. simpl in U1, U2, U3.
  repeat split; trivial; lia.
Qed.

(** [\s*:\s*] matches white space, a colon and white space. *)
Lemma colon_match_sound (s : string) (b : bool) (caps : list string)
      (rest : string) :
  Re.match_here ClassSections.colon_pattern b [] s = Some (caps, rest) ->
  exists ws ws',
    s = (ws ++ ":" ++ ws' ++ rest)%string
    /\ Str.all_chars Str.is_space ws = true
    /\ Str.all_chars Str.is_space ws' = true.
Proof.
  unfold ClassSections.colon_pattern. cbn [Re.match_here]. intros H.
  apply rep_sound in H as (ws & s1 & -> & A1 & _ & _ & H).
  destruct s1 as [|c1 s1]; [discriminate|].
  destruct (Ascii.eqb_spec ":" c1) as [<-|]; [|discriminate].
  apply rep_sound in H as (ws' & s2 & -> & A2 & _ & _ & H).
  injection H as _ <-. now exists ws, ws'.
Qed.

Lemma colon_match_at_colon (t : string) (b : bool) :
  Re.match_here ClassSections.colon_pattern b [] (String ":" t) <> None.
Proof.
  unfold ClassSections.colon_pattern. cbn [Re.match_here].
  rewrite rep_unfold. cbv zeta. cbn [Re.or_else Re.space Str.is_space].
  change (Str.is_space ":") with false. cbn [andb Re.or_else].
  rewrite Ascii.eqb_refl. apply rep_total. discriminate.
Qed.

Lemma find_colon_spaces (ws t : string) :
  Str.all_chars Str.is_space ws = true ->
  Str.find ":" (ws ++ String ":" t) = Some (String.length ws).
Proof.
  induction ws as [|c ws IH]; intros A; cbn [String.append Str.find].
  - now rewrite prefix_cons, prefix_nil_l.
  - simpl in A. apply andb_prop in A as [C A].
    assert (P : prefix ":" (String c (ws ++ String ":" t)) = false)
      by (apply prefix_cons_ne; intros <-; discriminate).
    rewrite P, (IH A). reflexivity.
Qed.

(** The leftmost match of [\s*:\s*] ends the left part in the white space
    before the first colon and starts the right part in the white space
    after it. *)
Lemma search_colon (h : string) :
  forall (b : bool) (before : string),
    match Str.find ":" h with
    | None =>
        Re.search_from ClassSections.colon_pattern b before h = None
    | Some i =>
        exists x ws ws' caps rest,
          Re.search_from ClassSections.colon_pattern b before h
          = Some ((before ++ x)%string, caps, rest)
          /\ Str.take i h = (x ++ ws)%string
          /\ Str.all_chars Str.is_space ws = true
          /\ Str.drop (S i) h = (ws' ++ rest)%string
          /\ Str.all_chars Str.is_space ws' = true
    end.
Proof.
  induction h as [|c h IH]; intros b before.
  - reflexivity.
  - cbn [Re.search_from].
    destruct (Re.match_here _ b [] (String c h)) as [[caps rest]|] eqn:M.
    + apply colon_match_sound in M as (ws & ws' & E & A & A').
      rewrite E. cbn [String.append]. rewrite (find_colon_spaces ws _ A).
      exists "", ws, ws', caps, rest. rewrite append_nil_r.
      split; [reflexivity|]. split; [|split; [assumption|split]].
      * cbn [String.append]. apply take_append.
      * apply drop_succ_append.
      * assumption.
    + assert (N : prefix ":" (String c h) = false).
      { apply prefix_cons_ne. intros <-.
        now apply colon_match_at_colon in M. }
      cbn [Str.find]. rewrite N. specialize (IH false (before ++ String c "")%string).
      destruct (Str.find ":" h) as [i|]; cbn [option_map]; [|exact IH].
      destruct IH as (x & ws & ws' & caps & rest & S1 & T & A & D & A').
      exists (String c x), ws, ws', caps, rest.
      rewrite append_snoc in S1. repeat split; trivial.
      cbn [Str.take String.append]. now rewrite T.
Qed.

Lemma all_chars_lstrip (p : ascii -> bool) (ws : string) :
  Str.all_chars p ws = true -> Str.lstrip_chars p ws = "".
Proof.
  induction ws as [|c ws IH]; simpl; [reflexivity|].
  intros A. apply andb_prop in A as [-> A]. now apply IH.
Qed.

Lemma lstrip_append_spaces (p : ascii -> bool) (ws y : string) :
  Str.all_chars p ws = true ->
  Str.lstrip_chars p (ws ++ y) = Str.lstrip_chars p y.
Proof.
  induction ws as [|c ws IH]; simpl; [reflexivity|].
  intros A. apply andb_prop in A as [-> A]. now apply IH.
Qed.

Lemma rstrip_spaces (p : ascii -> bool) (ws : string) :
  Str.all_chars p ws = true -> Str.rstrip_chars p ws = "".
Proof.
  induction ws as [|c ws IH]; simpl; [reflexivity|].
  intros A. apply andb_prop in A as [-> A]. now rewrite IH.
Qed.

Lemma rstrip_append_spaces (p : ascii -> bool) (y ws : string) :
  Str.all_chars p ws = true ->
  Str.rstrip_chars p (y ++ ws) = Str.rstrip_chars p y.
Proof.
  intros A. induction y as [|c y IH]; cbn [String.append Str.rstrip_chars].
  - now apply rstrip_spaces.
  - now rewrite IH.
Qed.

Lemma lstrip_append (p : ascii -> bool) (x y : string) :
  Str.lstrip_chars p (x ++ y) =
  if Str.all_chars p x then Str.lstrip_chars p y
  else (Str.lstrip_chars p x ++ y)%string.
Proof.
  induction x as [|c x IH]; simpl; [reflexivity|].
  destruct (p c); [exact IH|reflexivity].
Qed.

Lemma strip_append_spaces (x ws : string) :
  Str.all_chars Str.is_space ws = true -> Str.strip (x ++ ws) = Str.strip x.
Proof.
  intros A. unfold Str.strip, Str.strip_chars. rewrite lstrip_append.
  destruct (Str.all_chars Str.is_space x) eqn:X.
  - rewrite (all_chars_lstrip _ ws A), (all_chars_lstrip _ x X). reflexivity.
  - now apply rstrip_append_spaces.
Qed.

Lemma strip_spaces_append (ws y : string) :
  Str.all_chars Str.is_space ws = true -> Str.strip (ws ++ y) = Str.strip y.
Proof.
  intros A. unfold Str.strip, Str.strip_chars.
  now rewrite lstrip_append_spaces.
Qed.

(** The two parts [parse_class_header] works on are the text before the
    first colon and the text after it. *)
Lemma parse_class_header_parts (header_text : string) :
  ClassSections.parse_class_header header_text =
  match Re.re_match ClassSections.header_pattern (left_part header_text) with
  | None => None
  | Some groups =>
      Some [ ("subject", VStr (nth 0 groups ""));
             ("catalog_number", VStr (nth 1 groups ""));
             ("section_number", VStr (nth 2 groups ""));
             ("display_name",
              VStr (nth 0 groups "" ++ "-" ++ nth 1 groups "")%string);
             ("long_title", VStr (title_part header_text)) ]
  end.
Proof.
  unfold ClassSections.parse_class_header, left_part, title_part,
    Re.split_once, Re.search.
  pose proof (search_colon header_text true "") as S.
  destruct (Str.find ":" header_text) as [i|].
  - destruct S as (x & ws & ws' & caps & rest & -> & T & A & D & A').
    cbn [nth List.length Nat.ltb Nat.leb String.append].
    rewrite T, D, (strip_append_spaces x ws A),
      (strip_spaces_append ws' rest A').
    destruct (Re.re_match _ _); reflexivity.
  - rewrite S. cbn [nth List.length Nat.ltb Nat.leb].
    destruct (Re.re_match _ _); reflexivity.
Qed.

End HeaderFacts.

(** C2, as stated, fails: the left part "CS-1101-012" has a three-digit
    section, not the strict shape, and is parsed all the same. *)
Lemma parse_class_header_counterexample :
  ~ (forall header_text,
        ~ Spec.strict_shape (Spec.left_part header_text) ->
        ClassSections.parse_class_header header_text = None).
Proof.
  intros H.
  specialize (H "CS-1101-012 : Intro to Computing").
  assert (E : ClassSections.parse_class_header
                "CS-1101-012 : Intro to Computing" <> None)
    by (vm_compute; discriminate).
  apply E, H.
  change (Spec.left_part "CS-1101-012 : Intro to Computing")
    with "CS-1101-012".
  intros (subject & catalog & section & S & P).
  pose proof (header_match_complete subject catalog section "" true P) as M.
  rewrite <- shape_append, append_nil_r, <- S in M.
  vm_compute in M. discriminate.
Qed.

(** C2 (amended): the header parser maps "CS-1101-01 : Intro to Computing"
    to subject "CS", catalog_number "1101", section_number "01",
    display_name "CS-1101", long_title "Intro to Computing".  It returns no
    parsed result exactly when the part before the first colon does not
    begin with the strict SUBJ-CAT-SEC shape (so "Intro Seminar" gives
    nothing); text that follows the two section digits is ignored.  A
    parsed result holds the three components of that beginning, their
    display name and the part after the first colon. *)
Theorem parse_class_header_shape_prefix :
  ClassSections.parse_class_header "CS-1101-01 : Intro to Computing"
  = Some [ ("subject", VStr "CS");
           ("catalog_number", VStr "1101");
           ("section_number", VStr "01");
           ("display_name", VStr "CS-1101");
           ("long_title", VStr "Intro to Computing") ]
  /\ ClassSections.parse_class_header "Intro Seminar" = None
  /\ (forall header_text,
        ClassSections.parse_class_header header_text = None <->
        ~ exists beginning rest,
            Spec.left_part header_text = (beginning ++ rest)%string
            /\ Spec.strict_shape beginning)
  /\ (forall header_text header,
        ClassSections.parse_class_header header_text = Some header ->
        exists subject catalog section rest,
          Spec.left_part header_text
          = (subject ++ "-" ++ catalog ++ "-" ++ section ++ rest)%string
          /\ Spec.shape_parts subject catalog section
          /\ header = [ ("subject", VStr subject);
                        ("catalog_number", VStr catalog);
                        ("section_number", VStr section);
                        ("display_name",
                         VStr (subject ++ "-" ++ catalog)%string);
                        ("long_title",
                         VStr (Spec.title_part header_text)) ]).
Proof.
  split; [reflexivity|]. split; [reflexivity|]. split.
  - intros header_text. rewrite parse_class_header_parts.
    unfold Re.re_match.
    destruct (Re.match_here _ _ _ _) as [[caps rest]|] eqn:M; cbn [option_map].
    + split; [discriminate|]. intros N. exfalso. apply N.
      apply header_match_sound in M as (subject & catalog & section & E & P & _).
      exists (subject ++ "-" ++ catalog ++ "-" ++ section)%string, rest.
      split; [|now exists subject, catalog, section].
      rewrite E. symmetry. apply shape_append.
    + split; [|reflexivity]. intros _ (beginning & rest & E & S).
      destruct S as (subject & catalog & section & -> & P).
      pose proof (header_match_complete subject catalog section rest true P)
        as C.
      rewrite E, shape_append in M. congruence.
  - intros header_text header. rewrite parse_class_header_parts.
    unfold Re.re_match.
    destruct (Re.match_here _ _ _ _) as [[caps rest]|] eqn:M; cbn [option_map];
      [|discriminate].
    apply header_match_sound in M as (subject & catalog & section & E & P & ->).
    intros [= <-]. now exists subject, catalog, section, rest.
Qed.

(* ================================================================= *)
(** ** Verification codes and the subject filter *)

Section CodeFacts.

Import Spec.

Lemma mem_char_append (c : ascii) (a b : string) :
  Str.mem_char c (a ++ b) = Str.mem_char c a || Str.mem_char c b.
Proof.
  induction a as [|x a IH]; simpl; [reflexivity|].
  now rewrite IH, orb_assoc.
Qed.

Lemma all_chars_append (p : ascii -> bool) (a b : string) :
  Str.all_chars p (a ++ b) = Str.all_chars p a && Str.all_chars p b.
Proof.
  induction a as [|x a IH]; simpl; [reflexivity|].
  now rewrite IH, andb_assoc.
Qed.

Lemma all_chars_not_mem (p : ascii -> bool) (c : ascii) (s : string) :
  p c = false -> Str.all_chars p s = true -> Str.mem_char c s = false.
Proof.
  intros N. induction s as [|x s IH]; simpl; [reflexivity|].
  intros A. apply andb_prop in A as [X A]. rewrite (IH A), orb_false_r.
  destruct (Ascii.eqb_spec c x) as [->|]; [congruence|reflexivity].
Qed.

Lemma at_end_cases (s : string) :
  Re.at_end s = true -> s = "" \/ s = String "010" "".
Proof.
  destruct s as [|c [|c' s]]; simpl; try discriminate; [now left|].
  intros E. apply Ascii.eqb_eq in E. subst. now right.
Qed.

(** [^(.*?)-\d+$] *)
Lemma code_match_sound (n : string) (caps : list string) (rest : string) :
  Re.match_here Catalog.code_pattern true [] n = Some (caps, rest) ->
  exists c d,
    n = (c ++ "-" ++ d ++ rest)%string
    /\ Str.all_chars Re.dot c = true /\ is_number d
    /\ Re.at_end rest = true /\ caps = [c].
Proof.
  unfold Catalog.code_pattern. cbn [Re.match_here]. intros H.
  apply rep_sound in H as (c & s1 & -> & A1 & _ & _ & H).
  destruct s1 as [|c1 s1]; [discriminate|].
  destruct (Ascii.eqb_spec "-" c1) as [<-|]; [|discriminate].
  apply rep_sound in H as (d & s2 & -> & A2 & L2 & _ & H).
  destruct (Re.at_end s2) eqn:E; [|discriminate].
  injection H as <- <-. exists c, d. repeat split; trivial.
  intros ->. simpl in L2. lia.
Qed.

Lemma digits_then_end {R} (k : string -> string -> option R)
      (lo : nat) (acc t d : string) :
  (forall w rest r, k w rest = Some r -> Re.at_end rest = true) ->
  Re.rep true Re.digit lo None k acc (t ++ String "-" d) = None.
Proof.
  intros K.
  destruct (Re.rep _ _ _ _ _ _ _) as [r|] eqn:H; [|reflexivity].
  apply rep_sound in H as (dd & s2 & E & A & _ & _ & H).
  apply K in H.
  assert (M : Str.mem_char "-" (t ++ String "-" d) = true).
  { rewrite mem_char_append. simpl. now rewrite orb_true_r. }
  rewrite E, mem_char_append in M.
  rewrite (all_chars_not_mem Re.digit "-" dd eq_refl A) in M.
  apply at_end_cases in H as [->| ->]; discriminate.
Qed.

Lemma code_match_complete (c d : string) :
  Str.all_chars Re.dot c = true -> is_number d ->
  Re.match_here Catalog.code_pattern true [] (c ++ "-" ++ d)
  = Some ([c], "").
Proof.
  intros A [N D]. unfold Catalog.code_pattern. cbn [Re.match_here].
  apply rep_lazy_shortest; trivial; [lia|exact I| |].
  - cbn [String.append app]. rewrite Ascii.eqb_refl.
    rewrite <- (append_nil_r d) at 1.
    apply rep_greedy_longest; trivial.
    + destruct d; [congruence|simpl; lia].
    + exact I.
    + now right.
  - intros w1 w2 _ N2. cbn [String.append].
    destruct w2 as [|x w2]; [congruence|]. cbn [String.append].
    destruct (Ascii.eqb_spec "-" x) as [<-|]; [|reflexivity].
    apply digits_then_end. intros w rest r.
    destruct (Re.at_end rest); [reflexivity|discriminate].
Qed.

(** The verification code of a one-line notification string is its part
    before a trailing "-<number>". *)
Lemma verification_code_suffix (n c : string) :
  Str.all_chars Re.dot n = true ->
  (Catalog.verification_code_of (Some n) = Some c
   <-> exists number, n = (c ++ "-" ++ number)%string /\ is_number number).
Proof.
  intros A. unfold Catalog.verification_code_of, Re.re_match. split.
  - destruct (Re.match_here _ _ _ _) as [[caps rest]|] eqn:M;
      cbn [option_map fst]; [|discriminate].
    apply code_match_sound in M as (c' & d & E & _ & Nd & AE & ->).
    intros [= <-]. exists d. split; [|assumption].
    apply at_end_cases in AE as [->| ->].
    + now rewrite append_nil_r in E.
    + rewrite E in A. rewrite !all_chars_append in A.
      simpl in A. rewrite !andb_false_r in A. discriminate.
  - intros (d & -> & Nd). rewrite all_chars_append in A.
    apply andb_prop in A as [A _].
    now rewrite (code_match_complete c d A Nd).
Qed.

(** [var notificationString = '(.*?)';] captures one-line strings. *)
Lemma notification_matches_one_line (html n : string) :
  In n (Catalog.notification_matches html) -> Str.all_chars Re.dot n = true.
Proof.
  unfold Catalog.notification_matches, Re.findall. intros H.
  apply in_map_iff in H as (caps & <- & H).
  apply findall_from_sound in H as (b & s1 & rest & M).
  unfold Catalog.notification_pattern in M.
  apply match_here_lit in M as (s2 & b' & _ & M).
  cbn [app Re.match_here] in M.
  apply rep_sound in M as (w & s3 & _ & A & _ & _ & M).
  apply match_here_lit_only in M. cbn [fst app] in M. now subst caps.
Qed.

Lemma extract_course_ids_entry (html : string) (entry : Catalog.candidate) :
  In entry (Catalog.extract_course_ids html) ->
  snd entry = Catalog.verification_code_of (snd (fst entry))
  /\ forall n, snd (fst entry) = Some n ->
               In n (Catalog.notification_matches html).
Proof.
  intros H. apply In_nth_error in H as [i H].
  apply pair_candidates_nth in H as (cid & off & _ & ->). cbn [fst snd].
  split; [reflexivity|].
  destruct (_ <? _); [|discriminate]. intros n H.
  now apply nth_error_In in H.
Qed.

Variable ATTRIBUTE_ITEMS : list (string * string).
Variable requests_get : string -> result string.
Variable BeautifulSoup : string -> result Soup.node.
Variable select : string -> Soup.node -> list Soup.node.
Variable find_next_sibling :
  Soup.node -> string -> string -> option Soup.node.
Variable unescape : string -> string.

Let process_entry :=
  Catalog.process_entry ATTRIBUTE_ITEMS requests_get BeautifulSoup select
                        find_next_sibling unescape.
Let process_entries :=
  Catalog.process_entries ATTRIBUTE_ITEMS requests_get BeautifulSoup select
                          find_next_sibling unescape.

Lemma differs_code_matches (subject_code : string) (entry : Catalog.candidate) :
  Catalog.differs (snd entry) subject_code = negb (code_matches subject_code entry).
Proof.
  unfold Catalog.differs, code_matches. now destruct (snd entry).
Qed.

Lemma code_matches_iff (subject_code : string) (entry : Catalog.candidate) :
  code_matches subject_code entry = true <-> snd entry = Some subject_code.
Proof.
  unfold code_matches. destruct (snd entry) as [c|]; [|split; discriminate].
  rewrite String.eqb_eq. split; congruence.
Qed.

Lemma process_entry_skips (subject_code : string) (w : Catalog.io)
      (entry : Catalog.candidate) :
  code_matches subject_code entry = false ->
  process_entry subject_code w entry = w.
Proof.
  intros H. unfold process_entry, Catalog.process_entry.
  destruct entry as [[[cid off] notif] code].
  change code with (snd (cid, off, notif, code)) at 1.
  now rewrite differs_code_matches, H.
Qed.

Lemma process_entries_filter (subject_code : string)
      (entries : list Catalog.candidate) :
  forall w,
    process_entries subject_code entries w
    = process_entries subject_code
        (filter (code_matches subject_code) entries) w.
Proof.
  unfold process_entries, Catalog.process_entries.
  induction entries as [|e entries IH]; intros w; [reflexivity|].
  cbn [fold_left filter].
  destruct (code_matches subject_code e) eqn:E.
  - cbn [fold_left]. apply IH.
  - fold process_entry. rewrite (process_entry_skips _ _ _ E). apply IH.
Qed.

Lemma process_entry_requests (subject_code : string) (w : Catalog.io)
      (entry : Catalog.candidate) :
  code_matches subject_code entry = true ->
  Catalog.requested (process_entry subject_code w entry)
  = Catalog.requested w
    ++ [Catalog.BASE_DETAIL_URL (fst (fst (fst entry))) (snd (fst (fst entry)))].
Proof.
  intros H. unfold process_entry, Catalog.process_entry.
  destruct entry as [[[cid off] notif] code].
  change code with (snd (cid, off, notif, code)) at 1.
  rewrite differs_code_matches, H. cbn [negb fst snd].
  destruct (requests_get _) as [text|]; [|reflexivity].
  destruct (Catalog.extract_course_details _ _ _ _ _ _ _ _)
    as [[r|]|]; try reflexivity.
  destruct (truthy _); [|reflexivity].
  destruct (getitem _ _); cbn [bind]; [|reflexivity].
  unfold Catalog.writerow. now destruct (forallb _ _).
Qed.

(** C5: while a subject is scanned, a candidate of the search results is
    processed further (its detail page requested, a row possibly written)
    only if its verification code equals the subject's short code; a
    candidate whose code differs or is absent leaves the output untouched,
    so the rows of the subject are those of the matching candidates alone.
    The verification code of a candidate is derived from the notification
    string paired with it: it is the part of that string before a trailing
    "-<number>". *)
Theorem subject_filter_by_verification_code :
  forall subject_code : string,
    (forall w entry,
        snd entry <> Some subject_code ->
        process_entry subject_code w entry = w)
    /\ (forall w entry,
          snd entry = Some subject_code ->
          Catalog.requested (process_entry subject_code w entry)
          = Catalog.requested w
            ++ [Catalog.BASE_DETAIL_URL (fst (fst (fst entry)))
                                        (snd (fst (fst entry)))])
    /\ (forall entries w,
          process_entries subject_code entries w
          = process_entries subject_code
              (filter (code_matches subject_code) entries) w)
    /\ (forall html entry,
          In entry (Catalog.extract_course_ids html) ->
          snd entry = Catalog.verification_code_of (snd (fst entry))
          /\ (snd (fst entry) = None -> snd entry = None)
          /\ forall n, snd (fst entry) = Some n ->
               forall c, snd entry = Some c
                         <-> exists number,
                               n = (c ++ "-" ++ number)%string
                               /\ is_number number).
Proof.
  intros subject_code. split; [|split; [|split]].
  - intros w entry N. apply process_entry_skips.
    destruct (code_matches subject_code entry) eqn:E; [|reflexivity].
    apply code_matches_iff in E. contradiction.
  - intros w entry E. apply process_entry_requests.
    now apply code_matches_iff.
  - intros entries w. apply process_entries_filter.
  - intros html entry H.
    apply extract_course_ids_entry in H as [E N].
    split; [exact E|]. split; [intros Z; now rewrite E, Z|].
    intros n Hn c. rewrite E, Hn. apply verification_code_suffix.
    apply (notification_matches_one_line html). now apply N.
Qed.

End CodeFacts.

(* ================================================================= *)
(** ** Requirement text splitting *)

Section RequirementTextFacts.

Import Spec.

Lemma before_first_find (a s : string) :
  match Str.find a s with Some i => Str.take i s | None => s end
  = before_first a s.
Proof.
  induction s as [|c s IH]; cbn [Str.find before_first].
  - now destruct (prefix a "").
  - destruct (prefix a (String c s)); [reflexivity|].
    destruct (Str.find a s) as [i|]; cbn [option_map Str.take]; now rewrite <- IH.
Qed.

Lemma first_of_succ (i j : option nat) :
  first_of (option_map S i) (option_map S j) = option_map S (first_of i j).
Proof. destruct i, j; reflexivity. Qed.

Lemma before_either_earliest (a b s : string) :
  truncate_at [a; b] s = before_either a b s.
Proof.
  unfold truncate_at, earliest. cbn [fold_right].
  induction s as [|c s IH]; cbn [Str.find before_either].
  - destruct (prefix a ""), (prefix b ""); reflexivity.
  - destruct (prefix a (String c s)) eqn:A.
    + cbn [orb]. now destruct (if prefix b _ then _ else _).
    + destruct (prefix b (String c s)) eqn:B; cbn [orb].
      * destruct (Str.find a s); reflexivity.
      * change (first_of (option_map S (Str.find b s)) None)
          with (first_of (option_map S (Str.find b s)) (option_map S None)).
        rewrite !first_of_succ. rewrite <- IH.
        destruct (first_of (Str.find a s) (first_of (Str.find b s) None));
          reflexivity.
Qed.

Lemma before_first_prefix (a s : string) :
  exists t, s = (before_first a s ++ t)%string.
Proof.
  induction s as [|c s [t IH]]; cbn [before_first].
  - exists "". now destruct (prefix a "").
  - destruct (prefix a (String c s)); [now exists (String c s)|].
    exists t. cbn [String.append]. now rewrite <- IH.
Qed.

Lemma prefix_before_first (a b s : string) :
  prefix b (before_first a s) = true -> prefix b s = true.
Proof.
  intros H. apply prefix_split in H as [u H].
  destruct (before_first_prefix a s) as [t E]. rewrite E, H.
  rewrite append_assoc. apply prefix_append.
Qed.

(** Cutting at [a] and then at [b] is cutting at the earlier of the two,
    provided an occurrence of [b] that starts before one of [a] also ends
    before it. *)
Lemma before_first_twice (a b s : string) :
  (forall t, prefix a t = false -> prefix b t = true ->
             prefix b (before_first a t) = true) ->
  before_first b (before_first a s) = before_either a b s.
Proof.
  intros P. induction s as [|c s IH]; cbn [before_first before_either].
  - destruct (prefix a ""), (prefix b ""); cbn [before_first orb];
      try reflexivity; now destruct (prefix b "").
  - destruct (prefix a (String c s)) eqn:A; cbn [orb].
    + cbn [before_first]. now destruct (prefix b "").
    + destruct (prefix b (String c s)) eqn:B.
      * specialize (P _ A B). cbn [before_first] in P. rewrite A in P.
        cbn [before_first]. now rewrite P.
      * cbn [before_first].
        destruct (prefix b (String c (before_first a s))) eqn:B'.
        -- pose proof (prefix_before_first a b (String c s)) as M.
           cbn [before_first] in M. rewrite A in M.
           rewrite (M B') in B. discriminate.
        -- now rewrite IH.
Qed.

Lemma split_rounds_done (rounds : nat) (sep s : string) :
  Str.split_rounds rounds sep (Some 0) s = [s].
Proof. now destruct rounds. Qed.

(** One round of the loop cuts the part at the other keyword. *)
Lemma stop_at_other (keyword other part : string) :
  other <> "" -> String.eqb other keyword = false ->
  Catalog.stop_at keyword (Ok part) other = Ok (before_first other part).
Proof.
  intros N E. unfold Catalog.stop_at. cbn [bind]. rewrite E. cbn [negb andb].
  rewrite <- before_first_find. unfold Str.contains.
  destruct (Str.find other part) as [i|] eqn:F; [|reflexivity].
  unfold split. destruct other as [|c other]; [congruence|]. cbn [bind].
  unfold Str.split. cbn [Str.split_rounds]. rewrite F. reflexivity.
Qed.

Lemma stop_at_same (keyword part : string) :
  Catalog.stop_at keyword (Ok part) keyword = Ok part.
Proof.
  unfold Catalog.stop_at. cbn [bind]. now rewrite String.eqb_refl.
Qed.

(** No anchor can start inside an occurrence of another one. *)
Lemma anchors_apart (a b : anchor) (t : string) :
  In (anchor_text a, anchor_text b)
     [ (anchor_text Prerequisite, anchor_text AntiRequisite);
       (anchor_text Corequisite, anchor_text AntiRequisite);
       (anchor_text Corequisite, anchor_text Prerequisite) ] ->
  prefix (anchor_text a) t = false -> prefix (anchor_text b) t = true ->
  prefix (anchor_text b) (before_first (anchor_text a) t) = true.
Proof.
  intros H _ B. apply prefix_split in B as [u ->].
  destruct a, b; simpl in H;
    repeat (destruct H as [H|H]; [try discriminate|]); try destruct H;
    match goal with
    | |- prefix ?b (before_first ?a (?b ++ u)) = true =>
        replace (before_first a (b ++ u))
          with (b ++ before_first a u)%string by reflexivity
    end; apply prefix_append.
Qed.

Lemma extract_requirement_text_segment (text : string) (a : anchor) :
  Catalog.extract_requirement_text text (anchor_text a) = Ok (segment text a).
Proof.
  unfold Catalog.extract_requirement_text, segment, after_keyword,
    Str.contains.
  destruct (Str.find (anchor_text a) text) as [i|] eqn:F;
    cbn [negb]; [|reflexivity].
  assert (S1 : split text (anchor_text a) (Some 1)
               = Ok [Str.take i text;
                     Str.drop (i + String.length (anchor_text a)) text]).
  { unfold split, Str.split. cbn [Str.split_rounds]. rewrite F.
    cbn [option_map pred]. rewrite split_rounds_done. now destruct a. }
  rewrite S1. cbn [bind index nth_error].
  set (part := Str.drop (i + String.length (anchor_text a)) text).
  assert (L : fold_left (Catalog.stop_at (anchor_text a))
                        Catalog.other_keywords (Ok part)
              = Ok (truncate_at (other_anchors a) part)).
  { unfold Catalog.other_keywords. cbn [fold_left].
    destruct a; cbn [other_anchors]; rewrite before_either_earliest;
      rewrite <- before_first_twice.
    - change "Prerequisite:" with (anchor_text Prerequisite).
      rewrite (stop_at_other _ "Corequisite:"); [|discriminate|reflexivity].
      rewrite stop_at_same.
      rewrite stop_at_other; [reflexivity|discriminate|reflexivity].
    - intros t. apply (anchors_apart Corequisite AntiRequisite). simpl. tauto.
    - change "Corequisite:" with (anchor_text Corequisite).
      rewrite stop_at_same.
      rewrite (stop_at_other _ "Prerequisite:"); [|discriminate|reflexivity].
      rewrite stop_at_other; [reflexivity|discriminate|reflexivity].
    - intros t. apply (anchors_apart Prerequisite AntiRequisite). simpl. tauto.
    - rewrite (stop_at_other _ "Corequisite:"); [|discriminate|reflexivity].
      rewrite (stop_at_other _ "Prerequisite:"); [|discriminate|reflexivity].
      change "Not open to students who have earned credit for"
        with (anchor_text AntiRequisite).
      now rewrite stop_at_same.
    - intros t. apply (anchors_apart Corequisite Prerequisite). simpl. tauto. }
  rewrite L. reflexivity.
Qed.

(** Stripping removes a run of the characters from each end and leaves
    none at either end; there is one such result. *)
Lemma lstrip_split (p : ascii -> bool) (s : string) :
  exists l, s = (l ++ Str.lstrip_chars p s)%string /\ Str.all_chars p l = true.
Proof.
  induction s as [|c s (l & E & A)]; cbn [Str.lstrip_chars].
  - now exists "".
  - destruct (p c) eqn:P.
    + exists (String c l). cbn [String.append Str.all_chars].
      rewrite P, A. now rewrite <- E.
    + now exists "".
Qed.

Lemma rstrip_split (p : ascii -> bool) (s : string) :
  exists r, s = (Str.rstrip_chars p s ++ r)%string /\ Str.all_chars p r = true.
Proof.
  induction s as [|c s (r & E & A)]; cbn [Str.rstrip_chars].
  - now exists "".
  - destruct (Str.rstrip_chars p s) as [|c' m] eqn:R.
    + cbn [String.append] in E. subst r. destruct (p c) eqn:P.
      * exists (String c s). cbn [String.append Str.all_chars].
        now rewrite P, A.
      * now exists s.
    + exists r. cbn [String.append] in *. now rewrite <- E.
Qed.

Lemma lstrip_starts (p : ascii -> bool) (s : string) :
  starts_in p (Str.lstrip_chars p s) = false.
Proof.
  induction s as [|c s IH]; cbn [Str.lstrip_chars]; [reflexivity|].
  destruct (p c) eqn:P; [exact IH|exact P].
Qed.

Lemma rstrip_starts (p : ascii -> bool) (s : string) :
  starts_in p s = false -> starts_in p (Str.rstrip_chars p s) = false.
Proof.
  destruct s as [|c s]; cbn [Str.rstrip_chars starts_in]; [reflexivity|].
  intros P. destruct (Str.rstrip_chars p s); [now rewrite P|exact P].
Qed.

Lemma rstrip_ends (p : ascii -> bool) (s : string) :
  ends_in p (Str.rstrip_chars p s) = false.
Proof.
  induction s as [|c s IH]; cbn [Str.rstrip_chars]; [reflexivity|].
  destruct (Str.rstrip_chars p s) as [|c' m].
  - destruct (p c) eqn:P; [reflexivity|exact P].
  - exact IH.
Qed.

Lemma rstrip_fixed (p : ascii -> bool) (m : string) :
  ends_in p m = false -> Str.rstrip_chars p m = m.
Proof.
  induction m as [|c m IH]; [reflexivity|].
  cbn [ends_in Str.rstrip_chars]. destruct m as [|c' m].
  - cbn [Str.rstrip_chars]. now intros ->.
  - intros E. now rewrite (IH E).
Qed.

Lemma strip_chars_trimmed (p : ascii -> bool) (s : string) :
  trimmed p s (Str.strip_chars p s).
Proof.
  unfold Str.strip_chars.
  destruct (lstrip_split p s) as (l & El & Al).
  destruct (rstrip_split p (Str.lstrip_chars p s)) as (r & Er & Ar).
  exists l, r. split; [now rewrite <- Er|]. repeat split; trivial.
  - apply rstrip_starts, lstrip_starts.
  - apply rstrip_ends.
Qed.

Lemma trimmed_strip_chars (p : ascii -> bool) (s m : string) :
  trimmed p s m -> Str.strip_chars p s = m.
Proof.
  intros (l & r & -> & Al & Ar & S & E). unfold Str.strip_chars.
  rewrite (lstrip_append_spaces p l _ Al).
  destruct m as [|c m].
  - cbn [String.append]. now rewrite (all_chars_lstrip p r Ar).
  - cbn [starts_in] in S. cbn [String.append Str.lstrip_chars]. rewrite S.
    change (String c (m ++ r)) with (String c m ++ r)%string.
    rewrite (rstrip_append_spaces p _ r Ar). now apply rstrip_fixed.
Qed.

End RequirementTextFacts.

(** C3, as stated, fails: in the text of two lines
    "Prerequisite: MATH 1300;" / "Corequisite: MATH 1301" the prerequisite
    segment is "MATH 1300;": the ";" before the line end is not stripped,
    so the result is not the truncated text with its surrounding ":; "
    characters and white space stripped. *)
Lemma extract_requirement_text_counterexample :
  ~ (forall (text : string) (a : Spec.anchor) (r : string),
        Catalog.extract_requirement_text text (Spec.anchor_text a)
        = Ok (Some r) ->
        Spec.trimmed Spec.punctuation_or_space
          (Spec.truncate_at (Spec.other_anchors a)
             (Spec.after_keyword (Spec.anchor_text a) text))
          r).
Proof.
  intros H.
  destruct (H Spec.two_line_requirements Spec.Prerequisite "MATH 1300;"
              eq_refl) as (l & r & _ & _ & _ & _ & E).
  discriminate E.
Qed.

(** C3 (amended): for each of the three keyword anchors, extracting its
    segment from a requirements text gives None when the keyword does not
    occur in the text, and otherwise the text after the first occurrence of
    the keyword, cut where the earliest of the other two keywords starts in
    it, and stripped in two passes: first the characters ":", ";" and space
    are stripped from both ends, then white space is stripped from both
    ends of what is left.  A ":" or ";" that white space other than a
    space separates from the end therefore stays, as the ";" before the
    line end in "Prerequisite: MATH 1300;" / "Corequisite: MATH 1301".
    "Prerequisite: MATH 1300; Corequisite: MATH 1301" gives
    prerequisites "MATH 1300" and corequisites "MATH 1301", and so does the
    text with the two keywords in the other order. *)
Theorem extract_requirement_text_segments :
  forall (text : string) (a : Spec.anchor),
    Catalog.extract_requirement_text text (Spec.anchor_text a)
    = Ok (if Str.contains (Spec.anchor_text a) text
          then Some (Str.strip
                       (Str.strip_set ":; "
                          (Spec.truncate_at (Spec.other_anchors a)
                             (Spec.after_keyword (Spec.anchor_text a) text))))
          else None)
    /\ (Str.contains (Spec.anchor_text a) text = true
        <-> Spec.occurs (Spec.anchor_text a) text)
    /\ Catalog.extract_requirement_text
         "Prerequisite: MATH 1300; Corequisite: MATH 1301" "Prerequisite:"
       = Ok (Some "MATH 1300")
    /\ Catalog.extract_requirement_text
         "Prerequisite: MATH 1300; Corequisite: MATH 1301" "Corequisite:"
       = Ok (Some "MATH 1301")
    /\ Catalog.extract_requirement_text
         "Corequisite: MATH 1301; Prerequisite: MATH 1300" "Prerequisite:"
       = Ok (Some "MATH 1300")
    /\ Catalog.extract_requirement_text
         "Corequisite: MATH 1301; Prerequisite: MATH 1300" "Corequisite:"
       = Ok (Some "MATH 1301")
    /\ (Str.contains (Spec.anchor_text a) text = false ->
        Catalog.extract_requirement_text text (Spec.anchor_text a) = Ok None)
    /\ (forall r : string,
          Catalog.extract_requirement_text text (Spec.anchor_text a)
          = Ok (Some r)
          <-> Str.contains (Spec.anchor_text a) text = true
              /\ exists m : string,
                   Spec.trimmed Spec.punctuation
                     (Spec.truncate_at (Spec.other_anchors a)
                        (Spec.after_keyword (Spec.anchor_text a) text))
                     m
                   /\ Spec.trimmed Str.is_space m r)
    /\ Catalog.extract_requirement_text Spec.two_line_requirements
         "Prerequisite:"
       = Ok (Some "MATH 1300;")
    /\ Catalog.extract_requirement_text Spec.two_line_requirements
         "Corequisite:"
       = Ok (Some "MATH 1301").
Proof.
  intros text a.
  pose proof (extract_requirement_text_segment text a) as E.
  unfold Spec.segment in E.
  split; [exact E|].
  split; [apply contains_occurs|].
  do 4 (split; [reflexivity|]).
  split; [intros C; now rewrite E, C|].
  split; [|split; reflexivity].
  intros r. rewrite E.
  destruct (Str.contains (Spec.anchor_text a) text).
  - split.
    + intros [= <-]. split; [reflexivity|].
      exists (Str.strip_set ":; "
                (Spec.truncate_at (Spec.other_anchors a)
                   (Spec.after_keyword (Spec.anchor_text a) text))).
      split; apply strip_chars_trimmed.
    + intros (_ & m & T1 & T2).
      apply trimmed_strip_chars in T1. apply trimmed_strip_chars in T2.
      unfold Str.strip, Str.strip_set. fold Spec.punctuation.
      change (fun c : ascii => Str.mem_char c ":; ") with Spec.punctuation.
      now rewrite T1, T2.
  - split; [discriminate|]. now intros [? _].
Qed.

(* ################################################################# *)
(** * Part IV: further properties of the code *)

(* ================================================================= *)
(** ** Lookup after insertion *)

Section LookupFacts.

Import Spec.

Context {V : Type}.
Implicit Types (d : dict V) (k : string) (v : V).

Lemma dict_get_set_same d k v : dict_get k (dict_set k v d) = Some v.
Proof.
  induction d as [|[k' v'] d IH]; simpl.
  - now rewrite String.eqb_refl.
  - destruct (String.eqb_spec k k') as [->|N]; simpl.
    + now rewrite String.eqb_refl.
    + destruct (String.eqb_spec k k'); [contradiction|exact IH].
Qed.

Lemma dict_get_set_diff d k k' v :
  k <> k' -> dict_get k (dict_set k' v d) = dict_get k d.
Proof.
  intros N. induction d as [|[k0 v0] d IH]; simpl.
  - destruct (String.eqb_spec k k'); [contradiction|reflexivity].
  - destruct (String.eqb_spec k' k0) as [->|N0]; simpl.
    + destruct (String.eqb_spec k k0); [contradiction|reflexivity].
    + destruct (String.eqb k k0); [reflexivity|exact IH].
Qed.

Lemma last_value_from (k : string) (items : list (string * V))
      (init : option V) :
  fold_left
    (fun found kv => if String.eqb (fst kv) k then Some (snd kv) else found)
    items init
  = match last_value k items with Some v => Some v | None => init end.
Proof.
  unfold last_value. revert init.
  induction items as [|[k' v'] items IH]; intros init; simpl; [reflexivity|].
  rewrite IH. rewrite (IH (if String.eqb k' k then Some v' else None)).
  destruct (fold_left _ items None); [reflexivity|].
  now destruct (String.eqb k' k).
Qed.

Lemma last_value_cons (k k' : string) (v' : V) (items : list (string * V)) :
  last_value k ((k', v') :: items)
  = match last_value k items with
    | Some v => Some v
    | None => if String.eqb k' k then Some v' else None
    end.
Proof. unfold last_value at 1. cbn [fold_left fst snd]. apply last_value_from. Qed.

Lemma last_value_app (k : string) (xs ys : list (string * V)) :
  last_value k (xs ++ ys)
  = match last_value k ys with
    | Some v => Some v
    | None => last_value k xs
    end.
Proof.
  unfold last_value at 1. rewrite fold_left_app. apply last_value_from.
Qed.

(** Looking a key up after a sequence of assignments gives the value of
    the last assignment to it, or what the dictionary held before. *)
Lemma dict_get_update d k (items : list (string * V)) :
  dict_get k (dict_update d items)
  = match last_value k items with
    | Some v => Some v
    | None => dict_get k d
    end.
Proof.
  revert d. induction items as [|[k' v'] items IH]; intros d.
  - reflexivity.
  - unfold dict_update. cbn [fold_left fst snd]. fold (dict_update (dict_set k' v' d) items).
    rewrite IH, last_value_cons.
    destruct (last_value k items); [reflexivity|].
    destruct (String.eqb_spec k' k) as [->|N].
    + apply dict_get_set_same.
    + apply dict_get_set_diff. congruence.
Qed.

Lemma last_value_none (k : string) (items : list (string * V)) :
  ~ In k (map fst items) -> last_value k items = None.
Proof.
  induction items as [|[k' v'] items IH]; intros N; [reflexivity|].
  rewrite last_value_cons, IH.
  - destruct (String.eqb_spec k' k) as [->|]; [|reflexivity].
    exfalso. apply N. now left.
  - intros H. apply N. now right.
Qed.


End LookupFacts.

(* ================================================================= *)
(** ** Requirement lines and the CSV files *)

Section RequirementFiles.

Import Spec.

(** X3: a requirement line whose "coursesUsedToSatisfy" is absent or any
    value Python counts as false (null, false, 0, "", [], {}) yields
    exactly one row: the ten course columns are null, the five line columns
    hold the line's fields, and every other column (group_name,
    is_main_requirement and requirement_name among them) is as in the
    shared data: present with the same value, or absent alike. *)
Theorem falsy_courses_one_null_row :
  forall (shared_data : row) (d : dict value),
    truthy (obj_field (VDict d) "coursesUsedToSatisfy" (VList [])) = false ->
    exists r : row,
      Requirements.process_requirement_line shared_data (VDict d) = Ok [r]
      /\ (forall column source,
            In (column, source) course_columns ->
            dict_get column r = Some VNone)
      /\ (forall column source,
            In (column, source) line_columns ->
            dict_get column r = Some (obj_field (VDict d) source VNone))
      /\ (forall column,
            ~ In column (map fst (line_columns ++ course_columns)) ->
            dict_get column r = dict_get column shared_data).
Proof.
  intros shared_data d F. unfold Requirements.process_requirement_line.
  cbn [get bind obj_field] in *. rewrite F. eexists. split; [reflexivity|].
  split; [|split].
  - intros column source Hin. rewrite dict_get_update. simpl in Hin.
    repeat (destruct Hin as [[= <- <-]|Hin]; [reflexivity|]). destruct Hin.
  - intros column source Hin. rewrite !dict_get_update. simpl in Hin.
    repeat (destruct Hin as [[= <- <-]|Hin]; [reflexivity|]). destruct Hin.
  - intros column N. rewrite !dict_get_update.
    rewrite !last_value_none; [reflexivity| |];
      intros Hin; apply N; simpl in *; tauto.
Qed.

Lemma falsy_courses_one_null_row_witness :
  exists r : row,
    Requirements.process_requirement_line
      [("group_name", VStr "Major"); ("is_main_requirement", VBool true);
       ("requirement_name", VStr "Core")]
      (VDict [("status", VStr "OK"); ("coursesUsedToSatisfy", VInt 0)])
    = Ok [r]
    /\ dict_get "grade" r = Some VNone
    /\ dict_get "status" r = Some (VStr "OK")
    /\ dict_get "group_name" r = Some (VStr "Major")
    /\ dict_get "is_main_requirement" r = Some (VBool true)
    /\ dict_get "requirement_name" r = Some (VStr "Core").
Proof.
  destruct (falsy_courses_one_null_row
              [("group_name", VStr "Major"); ("is_main_requirement", VBool true);
               ("requirement_name", VStr "Core")]
              [("status", VStr "OK"); ("coursesUsedToSatisfy", VInt 0)]
              eq_refl) as (r & E & C & L & S).
  exists r. split; [exact E|].
  split; [apply (C "grade" "grade"); simpl; tauto|].
  split; [apply (L "status" "status"); simpl; tauto|].
  repeat split; rewrite S;
    try reflexivity; simpl; intuition discriminate.
Defined.











End RequirementFiles.

(* ================================================================= *)
(** ** Class sections: the detail table and the records *)

Section ClassSectionRecords.

Import Spec.

Variable requests_get : string -> result string.
Variable BeautifulSoup : string -> result Soup.node.
Variable float : string -> result spec_float.

Let scrape :=
  ClassSections.scrape_class_section requests_get BeautifulSoup float.

Hypothesis float_raises_value_error :
  forall s e, float s = Raise e -> e = ValueError.

Lemma details_row_cells (tr : Soup.node) (st : ClassSections.details) :
  ClassSections.details_row float tr st
  = Ok (fold_left (fun st cell => apply_cell float cell st) (row_cells tr) st).
Proof.
  unfold ClassSections.details_row, row_cells.
  destruct (Soup.find_all "td" None tr) as [|td0 [|td1 tds]];
    [reflexivity|reflexivity|].
  cbn [List.length Nat.ltb Nat.leb fold_left apply_cell].
  destruct (String.eqb _ "School"); [reflexivity|].
  destruct (String.eqb _ "Career"); [reflexivity|].
  destruct (String.eqb _ "Component"); [reflexivity|].
  destruct (String.eqb _ "Hours"); [|reflexivity].
  destruct (float _) as [f|e] eqn:F; [reflexivity|].
  now rewrite (float_raises_value_error _ _ F).
Qed.

Lemma details_rows_cells (rows : list Soup.node) (st : ClassSections.details) :
  for_in rows (ClassSections.details_row float) st
  = Ok (fold_left (fun st cell => apply_cell float cell st)
                  (flat_map row_cells rows) st).
Proof.
  revert st. induction rows as [|tr rows IH]; intros st; cbn [for_in flat_map].
  - reflexivity.
  - rewrite details_row_cells, fold_left_app. apply IH.
Qed.

Lemma apply_cells_last (cells : list (string * string)) :
  forall st : ClassSections.details,
    let st' := fold_left (fun st cell => apply_cell float cell st) cells st in
    ClassSections.school st'
    = match last_value "School" cells with
      | Some v => Mappings.map_get Mappings.SCHOOL_MAP (Some v)
      | None => ClassSections.school st
      end
    /\ ClassSections.career st'
       = match last_value "Career" cells with
         | Some v => Mappings.map_get Mappings.CAREER_MAP (Some v)
         | None => ClassSections.career st
         end
    /\ ClassSections.component st'
       = match last_value "Component" cells with
         | Some v => Mappings.map_get Mappings.COMPONENT_MAP (Some v)
         | None => ClassSections.component st
         end
    /\ ClassSections.hours st'
       = match last_value "Hours" cells with
         | Some v => match float v with Ok f => Some f | Raise _ => None end
         | None => ClassSections.hours st
         end.
Proof.
  induction cells as [|[label v] cells IH]; intros st; cbn zeta.
  - repeat split.
  - cbn [fold_left]. destruct (IH (apply_cell float (label, v) st))
      as (S1 & S2 & S3 & S4). cbv zeta in S1, S2, S3, S4.
    rewrite S1, S2, S3, S4, !last_value_cons. clear.
    unfold apply_cell.
    destruct (last_value "School" cells), (last_value "Career" cells),
      (last_value "Component" cells), (last_value "Hours" cells);
      destruct (String.eqb_spec label "School") as [->|];
      try (repeat split; reflexivity);
      destruct (String.eqb_spec label "Career") as [->|];
      try (repeat split; reflexivity);
      destruct (String.eqb_spec label "Component") as [->|];
      try (repeat split; reflexivity);
      destruct (String.eqb_spec label "Hours") as [->|];
      repeat split; reflexivity.
Qed.

(** X7: when the page has a detail panel, each of the four detail columns
    is decided by the last table row that carries its label (rows with
    fewer than two cells and rows with other labels count for nothing):
    school, career and component are the code the table gives for that
    row's value, null when the value is no key; units_earned is the number
    [float] reads from the value, null when it is not numeric; a column
    whose label is on no row is null. *)
Theorem detail_columns_from_last_rows :
  forall soup panel : Soup.node,
    Soup.find "div" (Some "detailPanel") soup = Some panel ->
    ClassSections.extract_class_details float soup
    = Ok [ ("school_code",
            last_code Mappings.SCHOOL_MAP "School" (panel_cells panel));
           ("career_code",
            last_code Mappings.CAREER_MAP "Career" (panel_cells panel));
           ("component_code",
            last_code Mappings.COMPONENT_MAP "Component" (panel_cells panel));
           ("units_earned",
            match last_value "Hours" (panel_cells panel) with
            | Some v =>
                match float v with Ok f => VFloat f | Raise _ => VNone end
            | None => VNone
            end) ].
Proof.
  intros soup panel F. unfold ClassSections.extract_class_details.
  rewrite F, details_rows_cells. cbn [bind].
  fold (panel_cells panel).
  destruct (apply_cells_last (panel_cells panel)
              {| ClassSections.school := None; ClassSections.career := None;
                 ClassSections.component := None;
                 ClassSections.hours := None |}) as (S1 & S2 & S3 & S4).
  cbv zeta in S1, S2, S3, S4. cbn [ClassSections.school ClassSections.career
    ClassSections.component ClassSections.hours] in S1, S2, S3, S4.
  rewrite S1, S2, S3, S4. unfold last_code.
  destruct (last_value "School" _), (last_value "Career" _),
    (last_value "Component" _), (last_value "Hours" (panel_cells panel));
    try reflexivity; destruct (float _); reflexivity.
Qed.

End ClassSectionRecords.

Lemma detail_columns_from_last_rows_witness :
  ClassSections.extract_class_details (fun _ => Raise ValueError)
    Spec.page_with_panel
  = Ok [ ("school_code", VStr "ENGIN"); ("career_code", VNone);
         ("component_code", VStr "LEC"); ("units_earned", VNone) ].
Proof.
  assert (R : forall (s : string) (e : exn),
             (fun _ : string => @Raise spec_float ValueError) s = Raise e ->
             e = ValueError)
    by (intros s e H; injection H as <-; reflexivity).
  destruct (Soup.find "div" (Some "detailPanel") Spec.page_with_panel)
    as [panel|] eqn:F; [|discriminate].
  rewrite (detail_columns_from_last_rows _ R _ panel F).
  injection F as <-. reflexivity.
Defined.

Section ClassSectionScan.

Import Spec.

Variable requests_get : string -> result string.
Variable BeautifulSoup : string -> result Soup.node.
Variable float : string -> result spec_float.

Let scrape :=
  ClassSections.scrape_class_section requests_get BeautifulSoup float.

Lemma scraped_class_number (n : Z) (r : row) :
  scrape n = Ok (Some r) ->
  dict_get "class_number" r = Some (VStr (Str.of_Z n)).
Proof.
  intros H. unfold scrape in H. rewrite scrape_catches in H.
  destruct (ClassSections.scrape_class_section_try _ _ _ n)
    as [[r'|]|] eqn:E; try discriminate.
  injection H as ->.
  apply scrape_try_some in E
    as (text & soup & h1 & header & cd & _ & _ & _ & _ & _ & D & ->).
  destruct (Soup.find "div" (Some "detailPanel") soup) as [panel|] eqn:F.
  - pose proof (extract_class_details_with_panel float soup panel cd F D) as K.
    destruct cd as [|[k1 v1] [|[k2 v2] [|[k3 v3] [|[k4 v4] [|]]]]];
      try discriminate.
    injection K as -> -> -> ->. reflexivity.
  - rewrite (extract_class_details_without_panel float soup F) in D.
    injection D as <-. reflexivity.
Qed.

(** X8: every record the scraper returns for a class number carries that
    number, in decimal, as class_number; its subject, catalog_number and
    section_number have the strict shape (2-6 uppercase letters, 4-6
    uppercase alphanumerics, 2 digits) and its display_name is the subject
    and the catalog number joined by a hyphen; its columns are the six
    heading columns alone or all ten. *)
Theorem class_record_fields :
  forall (n : Z) (r : row),
    scrape n = Ok (Some r) ->
    dict_get "class_number" r = Some (VStr (Str.of_Z n))
    /\ (exists subject catalog section,
          shape_parts subject catalog section
          /\ dict_get "subject" r = Some (VStr subject)
          /\ dict_get "catalog_number" r = Some (VStr catalog)
          /\ dict_get "section_number" r = Some (VStr section)
          /\ dict_get "display_name" r
             = Some (VStr (subject ++ "-" ++ catalog)%string))
    /\ (keys r = identity_columns \/ keys r = class_section_columns).
Proof.
  intros n r H. unfold scrape in H. rewrite scrape_catches in H.
  destruct (ClassSections.scrape_class_section_try _ _ _ n)
    as [[r'|]|] eqn:E; try discriminate.
  injection H as ->.
  apply scrape_try_some in E
    as (text & soup & h1 & header & cd & _ & _ & _ & _ & P & D & ->).
  rewrite parse_class_header_parts in P. unfold Re.re_match in P.
  destruct (Re.match_here _ _ _ _) as [[caps rest]|] eqn:M;
    cbn [option_map fst] in P; [|discriminate].
  apply header_match_sound in M as (subject & catalog & section & _ & Sh & ->).
  injection P as <-. cbn [nth obj_field dict_get String.eqb Ascii.eqb Bool.eqb].
  destruct (Soup.find "div" (Some "detailPanel") soup) as [panel|] eqn:F.
  - pose proof (extract_class_details_with_panel float soup panel cd F D) as K.
    destruct cd as [|[k1 v1] [|[k2 v2] [|[k3 v3] [|[k4 v4] [|]]]]];
      try discriminate.
    injection K as -> -> -> ->.
    split; [reflexivity|]. split; [|right; reflexivity].
    exists subject, catalog, section. repeat split; trivial; apply Sh.
  - rewrite (extract_class_details_without_panel float soup F) in D.
    injection D as <-.
    split; [reflexivity|]. split; [|left; reflexivity].
    exists subject, catalog, section. repeat split; trivial; apply Sh.
Qed.


(** X9: the scan over an id range always completes; the class_number
    column of its result is the list, in ascending order, of the ids of the
    range for which the scraper returned a record, so no id is recorded
    twice, none outside the range, and there are at most as many records
    as ids. *)
Theorem scan_records_ids_in_order :
  forall lo hi : Z,
    exists results : list row,
      ClassSections.main_scan requests_get BeautifulSoup float lo hi
      = Ok results
      /\ map (dict_get "class_number") results
         = map (fun n => Some (VStr (Str.of_Z n)))
               (filter (succeeded scrape) (range lo hi))
      /\ List.length results <= Z.to_nat (hi - lo).
Proof.
  intros lo hi. unfold ClassSections.main_scan.
  rewrite main_scan_collects. cbn [app]. eexists. split; [reflexivity|].
  fold scrape.
  assert (L : List.length (range lo hi) = Z.to_nat (hi - lo))
    by (unfold range; now rewrite length_map, length_seq).
  rewrite <- L. clear L.
  induction (range lo hi) as [|n ids [IH1 IH2]]; [split; [reflexivity|simpl; lia]|].
  cbn [flat_map filter]. unfold succeeded at 1.
  destruct (scrape n) as [[r|]|e] eqn:E; cbn [app map List.length].
  - apply scraped_class_number in E as C. rewrite C, IH1.
    split; [reflexivity|lia].
  - split; [exact IH1|lia].
  - split; [exact IH1|lia].
Qed.

End ClassSectionScan.

Lemma class_record_fields_witness :
  dict_get "class_number"
    [ ("class_number", VStr "1000");
      ("display_name", VStr "CS-1101");
      ("long_title", VStr "Intro to Computing");
      ("subject", VStr "CS");
      ("catalog_number", VStr "1101");
      ("section_number", VStr "01") ]
  = Some (VStr (Str.of_Z 1000)).
Proof.
  apply (class_record_fields
           (fun _ => Ok Spec.page_text) (fun _ => Ok Spec.page_without_panel)
           (fun _ => Raise ValueError) 1000%Z).
  reflexivity.
Defined.

(* ================================================================= *)
(** ** Course catalog: the detail page *)

Section SearchFacts.

Lemma search_from_sound (re : Re.regex) (s : string) :
  forall (b : bool) (before x : string) (caps : list string) (rest : string),
    Re.search_from re b before s = Some (x, caps, rest) ->
    exists skipped s1 b',
      s = (skipped ++ s1)%string /\ x = (before ++ skipped)%string
      /\ Re.match_here re b' [] s1 = Some (caps, rest).
Proof.
  induction s as [|c s IH]; intros b before x caps rest;
    cbn [Re.search_from].
  - destruct (Re.match_here re b [] "") as [[caps' rest']|] eqn:M;
      [|discriminate].
    intros [= <- <- <-]. exists "", "", b.
    rewrite (append_nil_r before). auto.
  - destruct (Re.match_here re b [] (String c s)) as [[caps' rest']|] eqn:M.
    + intros [= <- <- <-]. exists "", (String c s), b.
      rewrite (append_nil_r before). auto.
    + intros H. apply IH in H as (skipped & s1 & b' & -> & -> & H).
      exists (String c skipped), s1, b'. rewrite append_snoc. auto.
Qed.

(** [(\d{4}[A-Z]?)\s+-\s+] *)
Lemma title_match_sound (s : string) (b : bool) (caps : list string)
      (rest : string) :
  Re.match_here Catalog.title_pattern b [] s = Some (caps, rest) ->
  exists digits letter tail,
    s = (digits ++ letter ++ tail)%string
    /\ Str.all_chars Str.is_digit digits = true
    /\ String.length digits = 4
    /\ Str.all_chars Str.is_upper letter = true
    /\ String.length letter <= 1
    /\ caps = [digits; letter].
Proof.
  unfold Catalog.title_pattern. cbn [Re.match_here]. intros H.
  apply rep_sound in H as (digits & s1 & -> & A1 & L1 & U1 & H).
  apply rep_sound in H as (letter & s2 & -> & A2 & _ & U2 & H).
  apply rep_sound in H as (ws1 & s3 & -> & _ & _ & _ & H).
  destruct s3 as [|c3 s3]; [discriminate|].
  destruct (Ascii.eqb "-" c3); [|discriminate].
  apply rep_sound in H as (ws2 & s4 & -> & _ & _ & _ & H).
  injection H as <- <-. exists digits, letter. eexists.
  simpl in U1, U2. repeat split; trivial. lia.
Qed.

End SearchFacts.

Section DetailPage.

Import Spec.

Variable ATTRIBUTE_ITEMS : list (string * string).
Variable BeautifulSoup : string -> result Soup.node.
Variable select : string -> Soup.node -> list Soup.node.
Variable find_next_sibling :
  Soup.node -> string -> string -> option Soup.node.
Variable unescape : string -> string.

Let extract_course_details :=
  Catalog.extract_course_details ATTRIBUTE_ITEMS BeautifulSoup select
                                 find_next_sibling unescape.

Lemma fold_codes (table : dict string) (divs : list Soup.node) :
  forall acc : list string,
    fold_left
      (fun attributes div =>
         let attr_text := unescape (Str.strip (Catalog.text div)) in
         match Mappings.map_get table (Some attr_text) with
         | Some attr_val =>
             if truthy (VStr attr_val)
             then attributes ++ [attr_val] else attributes
         | None => attributes
         end)
      divs acc
    = acc ++ attribute_codes table unescape divs.
Proof.
  induction divs as [|div divs IH]; intros acc; cbn [fold_left].
  - unfold attribute_codes. cbn [flat_map]. now rewrite app_nil_r.
  - rewrite IH. unfold attribute_codes at 2. cbn [flat_map Mappings.map_get].
    fold (attribute_codes table unescape divs).
    destruct (dict_get _ table) as [code|]; [|reflexivity].
    destruct code; cbn [truthy Soup.nonempty]; [reflexivity|].
    now rewrite <- app_assoc.
Qed.

Lemma name_value_map_cells (rows : list Soup.node) :
  Catalog.name_value_map rows = dict_update [] (name_value_cells rows).
Proof.
  unfold Catalog.name_value_map. generalize (@nil (string * string)) as m.
  induction rows as [|row rows IH]; intros m; cbn [fold_left].
  - reflexivity.
  - rewrite IH. unfold name_value_cells at 2. cbn [flat_map].
    fold (name_value_cells rows).
    unfold dict_update at 2. rewrite fold_left_app.
    fold (dict_update m). f_equal.
    destruct (Soup.find "strong" None row) as [strong_tag|]; [|reflexivity].
    destruct (Soup.find_all "td" None row) as [|td0 [|td1 tds]];
      reflexivity.
Qed.

(** The record, field by field. *)
Lemma extract_course_details_record (html subject_code course_id : string)
      (r : row) :
  extract_course_details html subject_code course_id = Ok (Some r) ->
  exists soup title_line before groups rest i,
    BeautifulSoup html = Ok soup
    /\ hd_error (select "#courseDetailDialog h1" soup) = Some title_line
    /\ Re.search Catalog.title_pattern (Str.strip (Catalog.text title_line))
       = Some (before, groups, rest)
    /\ let title_text := Str.strip (Catalog.text title_line) in
       let catalog_number := (nth 0 groups "" ++ nth 1 groups "")%string in
       let detail_map :=
         Catalog.name_value_map
           (select ".detailPanel .nameValueTable tr" soup) in
       Str.find (catalog_number ++ " - ") title_text = Some i
       /\ dict_get "course_id" r = Some (VStr course_id)
       /\ dict_get "subject" r = Some (VStr subject_code)
       /\ dict_get "catalog_number" r = Some (VStr catalog_number)
       /\ dict_get "display_name" r
          = Some (VStr (subject_code ++ " " ++ catalog_number)%string)
       /\ dict_get "long_title" r
          = Some (VStr (Str.strip
                          (Str.drop (i + String.length (catalog_number ++ " - "))
                                    title_text)))
       /\ dict_get "component_code" r
          = Some (of_option
                    (dict_get
                       (Str.strip
                          (Re.remove_all Catalog.components_pattern
                             (Catalog.get_default detail_map "Components" "")))
                       Mappings.COMPONENT_MAP))
       /\ dict_get "attributes" r
          = Some (let codes :=
                    attribute_codes (Mappings.ATTRIBUTE_MAP ATTRIBUTE_ITEMS)
                      unescape
                      (select "#rightSection .detailPanel td:has(strong:-soup-contains('Attributes')) ~ td div" soup) in
                  match codes with
                  | [] => VNone
                  | _ => VStr (Str.join ", " codes)
                  end)
       /\ let enrollment_map :=
            Catalog.name_value_map
              (select "#rightSection .detailPanel .nameValueTable tr" soup) in
          let requirements_text :=
            Catalog.get_default enrollment_map "Requirement" "" in
          dict_get "school_code" r
          = Some (of_option (Mappings.map_get Mappings.SCHOOL_MAP
                               (dict_get "School" detail_map)))
          /\ dict_get "career_code" r
             = Some (of_option (Mappings.map_get Mappings.CAREER_MAP
                                  (dict_get "Career" detail_map)))
          /\ dict_get "units_earned" r
             = Some (VStr (Str.strip
                             (Catalog.get_default detail_map "Units" "0")))
          /\ dict_get "term_offered" r
             = Some (VStr (Catalog.term_offered
                             (Catalog.get_default enrollment_map
                                                  "Typically Offered" "")))
          /\ dict_get "all_requirements" r
             = Some (if Soup.nonempty requirements_text
                     then VStr requirements_text else VNone)
          /\ dict_get "corequisites" r
             = Some (of_option (segment requirements_text Corequisite))
          /\ dict_get "prerequisites" r
             = Some (of_option (segment requirements_text Prerequisite))
          /\ dict_get "anti_requirements" r
             = Some (of_option (segment requirements_text AntiRequisite)).
Proof.
  unfold extract_course_details, Catalog.extract_course_details.
  destruct (BeautifulSoup html) as [soup|] eqn:B; cbn [bind]; [|discriminate].
  destruct (hd_error _) as [title_line|] eqn:T; [|discriminate].
  destruct (Re.search _ _) as [[[before groups] rest]|] eqn:S; [|discriminate].
  unfold split.
  destruct ((nth 0 groups "" ++ nth 1 groups "") ++ " - ")%string
    as [|c0 sep] eqn:Sep; cbn [bind]; [discriminate|].
  rewrite <- Sep. unfold Str.split. cbn [Str.split_rounds].
  destruct (Str.find _ (Str.strip (Catalog.text title_line))) as [i|] eqn:F;
    cbn [option_map pred index nth_error]; [|discriminate].
  rewrite split_rounds_done. cbn [nth_error].
  set (requirements_text :=
         Catalog.get_default
           (Catalog.name_value_map
              (select "#rightSection .detailPanel .nameValueTable tr" soup))
           "Requirement" "").
  pose proof (extract_requirement_text_segment requirements_text Corequisite)
    as E1.
  pose proof (extract_requirement_text_segment requirements_text Prerequisite)
    as E2.
  pose proof (extract_requirement_text_segment requirements_text AntiRequisite)
    as E3.
  cbn [anchor_text] in E1, E2, E3. rewrite E1, E2, E3. cbn [bind].
  rewrite fold_codes. cbn [app].
  intros [= <-]. exists soup, title_line, before, groups, rest, i.
  split; [reflexivity|]. split; [exact T|]. split; [exact S|].
  cbv zeta. split; [exact F|].
  repeat split; reflexivity.
Qed.

Lemma remove_from_no_backslash (s : string) :
  forall b : bool,
    Str.mem_char "\" s = false ->
    Re.remove_from Catalog.components_pattern 0 b s = s.
Proof.
  induction s as [|c s IH]; intros b; cbn [Str.mem_char Re.remove_from].
  - reflexivity.
  - intros H. apply orb_false_iff in H as [E H].
    unfold Catalog.components_pattern at 1. cbn [Re.match_here].
    rewrite E. f_equal. now apply IH.
Qed.

(** X10: a record comes from a heading that holds a catalog number (four
    digits and at most one uppercase letter) followed by space, hyphen,
    space; the number, the display name and the title of the record are
    read at the first such occurrence. *)
Theorem course_heading_fields (html subject_code course_id : string)
        (r : row) :
  extract_course_details html subject_code course_id = Ok (Some r) ->
  exists soup title_line before catalog after,
    BeautifulSoup html = Ok soup
    /\ hd_error (select "#courseDetailDialog h1" soup) = Some title_line
    /\ catalog_shape catalog
    /\ Str.strip (Catalog.text title_line)
       = (before ++ (catalog ++ " - ") ++ after)%string
    /\ Str.find (catalog ++ " - ") (Str.strip (Catalog.text title_line))
       = Some (String.length before)
    /\ dict_get "course_id" r = Some (VStr course_id)
    /\ dict_get "subject" r = Some (VStr subject_code)
    /\ dict_get "catalog_number" r = Some (VStr catalog)
    /\ dict_get "display_name" r
       = Some (VStr (subject_code ++ " " ++ catalog)%string)
    /\ dict_get "long_title" r = Some (VStr (Str.strip after)).
Proof.
  intros H.
  apply extract_course_details_record
    in H as (soup & title_line & x & groups & rest & i & B & T & S & H).
  cbv zeta in H.
  destruct H as (F & Hid & Hsub & Hcat & Hname & Htitle & _).
  unfold Re.search in S.
  apply search_from_sound in S as (skipped & s1 & b' & _ & _ & M).
  apply title_match_sound
    in M as (digits & letter & tail & _ & D1 & D2 & L1 & L2 & ->).
  cbn [nth] in *.
  set (title_text := Str.strip (Catalog.text title_line)) in *.
  set (catalog := (digits ++ letter)%string) in *.
  exists soup, title_line, (Str.take i title_text), catalog,
    (Str.drop (i + String.length (catalog ++ " - ")) title_text).
  assert (L : String.length (Str.take i title_text) = i).
  { pose proof (find_some _ _ _ F) as E.
    apply (f_equal String.length) in E. rewrite !length_append in E.
    change (String.length " - ") with 3 in E.
    pose proof (take_drop i title_text) as TD.
    apply (f_equal String.length) in TD. rewrite length_append in TD.
    rewrite length_drop in TD.
    assert (i <= String.length title_text) by lia. lia. }
  repeat split; trivial.
  - now exists digits, letter.
  - now apply find_some.
  - now rewrite L.
Qed.


(** X12: the attributes column holds the codes of the attribute texts of
    the page that have a non-empty code in the attribute table, in page
    order and joined by comma and space; it is null when there is none. *)
Theorem attributes_column (html subject_code course_id : string) (r : row) :
  extract_course_details html subject_code course_id = Ok (Some r) ->
  exists soup,
    BeautifulSoup html = Ok soup
    /\ dict_get "attributes" r
       = Some (let codes :=
                 attribute_codes (Mappings.ATTRIBUTE_MAP ATTRIBUTE_ITEMS)
                   unescape
                   (select "#rightSection .detailPanel td:has(strong:-soup-contains('Attributes')) ~ td div" soup) in
               match codes with
               | [] => VNone
               | _ => VStr (Str.join ", " codes)
               end).
Proof.
  intros H.
  apply extract_course_details_record
    in H as (soup & title_line & x & groups & rest & i & B & T & S & H).
  cbv zeta in H. exists soup. split; [exact B|]. apply H.
Qed.

(** X13: a components text without a backslash is looked up as it is,
    stripped: the substitution removes only what lies between two
    backslashes, so a parenthesised part stays in the text. *)
Theorem component_code_of_unchanged_text
        (html subject_code course_id : string) (r : row) :
  extract_course_details html subject_code course_id = Ok (Some r) ->
  exists soup,
    BeautifulSoup html = Ok soup
    /\ let components :=
         Catalog.get_default
           (Catalog.name_value_map
              (select ".detailPanel .nameValueTable tr" soup))
           "Components" "" in
       Str.mem_char "\" components = false ->
       dict_get "component_code" r
       = Some (of_option (dict_get (Str.strip components)
                                   Mappings.COMPONENT_MAP)).
Proof.
  intros H.
  apply extract_course_details_record
    in H as (soup & title_line & x & groups & rest & i & B & T & S & H).
  cbv zeta in H. exists soup. split; [exact B|]. cbv zeta. intros NB.
  destruct H as (_ & _ & _ & _ & _ & _ & H & _). rewrite H.
  unfold Re.remove_all. now rewrite remove_from_no_backslash.
Qed.

(** X14: the map of a name-value table gives, for a label, the value of
    the last row with that label (the text of its first <strong> without
    surrounding colons) among the rows with at least two cells; rows
    without a <strong> or with a single cell count for nothing. *)
Theorem name_value_map_last_row (rows : list Soup.node) (label : string) :
  dict_get label (Catalog.name_value_map rows)
  = last_value label (name_value_cells rows)
  /\ NoDup (keys (Catalog.name_value_map rows)).
Proof.
  rewrite name_value_map_cells. split.
  - rewrite dict_get_update. cbn [dict_get].
    now destruct (last_value label (name_value_cells rows)).
  - apply nodup_dict_update. constructor.
Qed.

(** X15: on a page that parses, reading the details never raises.  The
    three requirement columns of a record are the segments of the text of
    the Requirement row that belong to their keywords, null when the
    keyword is not in the text; all_requirements is that text, null when
    it is empty (also when the page has no Requirement row). *)
Theorem requirement_columns (html subject_code course_id : string)
        (soup : Soup.node) :
  BeautifulSoup html = Ok soup ->
  (exists outcome,
      extract_course_details html subject_code course_id = Ok outcome)
  /\ forall r,
       extract_course_details html subject_code course_id = Ok (Some r) ->
       let requirements_text :=
         Catalog.get_default
           (Catalog.name_value_map
              (select "#rightSection .detailPanel .nameValueTable tr" soup))
           "Requirement" "" in
       dict_get "all_requirements" r
       = Some (if Soup.nonempty requirements_text
               then VStr requirements_text else VNone)
       /\ dict_get "corequisites" r
          = Some (of_option (segment requirements_text Corequisite))
       /\ dict_get "prerequisites" r
          = Some (of_option (segment requirements_text Prerequisite))
       /\ dict_get "anti_requirements" r
          = Some (of_option (segment requirements_text AntiRequisite)).
Proof.
  intros B. split.
  - unfold extract_course_details, Catalog.extract_course_details.
    rewrite B. cbn [bind].
    destruct (hd_error _) as [title_line|]; [|now eexists].
    destruct (Re.search _ _) as [[[before groups] rest]|]; [|now eexists].
    cbv zeta. unfold split.
    destruct ((nth 0 groups "" ++ nth 1 groups "") ++ " - ")%string
      as [|c0 sep] eqn:Sep; cbn [bind].
    { destruct (nth 0 groups "" ++ nth 1 groups "")%string; discriminate. }
    unfold Str.split. cbn [Str.split_rounds].
    destruct (Str.find _ _) as [i|];
      cbn [option_map pred index nth_error]; [|now eexists].
    rewrite split_rounds_done. cbn [nth_error].
    set (requirements_text :=
           Catalog.get_default
             (Catalog.name_value_map
                (select "#rightSection .detailPanel .nameValueTable tr" soup))
             "Requirement" "").
    pose proof (extract_requirement_text_segment requirements_text Corequisite)
      as E1.
    pose proof (extract_requirement_text_segment requirements_text Prerequisite)
      as E2.
    pose proof (extract_requirement_text_segment requirements_text
                                                 AntiRequisite) as E3.
    cbn [anchor_text] in E1, E2, E3. rewrite E1, E2, E3. cbn [bind].
    now eexists.
  - intros r H.
    apply extract_course_details_record
      in H as (soup' & title_line & x & groups & rest & i & B' & T & S & H).
    rewrite B in B'. injection B' as <-. cbv zeta in H. cbv zeta.
    destruct H as (_ & _ & _ & _ & _ & _ & _ & _ & _ & _ & _ & _ & H).
    exact H.
Qed.

(** X16: the school and career codes of a record are the codes the
    tables give for the value of the last School and Career row of the
    detail table, null when there is no such row or the value is no key;
    units_earned is the stripped value of the last Units row, "0" when
    there is none; term_offered is the decomposition of the value of the
    last Typically Offered row of the enrollment table, of the empty text
    when there is none. *)
Theorem detail_table_columns (html subject_code course_id : string)
        (r : row) :
  extract_course_details html subject_code course_id = Ok (Some r) ->
  exists soup,
    BeautifulSoup html = Ok soup
    /\ let detail_cells :=
         name_value_cells (select ".detailPanel .nameValueTable tr" soup) in
       let enrollment_cells :=
         name_value_cells
           (select "#rightSection .detailPanel .nameValueTable tr" soup) in
       dict_get "school_code" r
       = Some (last_code Mappings.SCHOOL_MAP "School" detail_cells)
       /\ dict_get "career_code" r
          = Some (last_code Mappings.CAREER_MAP "Career" detail_cells)
       /\ dict_get "units_earned" r
          = Some (VStr (Str.strip
                          match last_value "Units" detail_cells with
                          | Some v => v
                          | None => "0"
                          end))
       /\ dict_get "term_offered" r
          = Some (VStr (Catalog.term_offered
                          match last_value "Typically Offered"
                                           enrollment_cells with
                          | Some v => v
                          | None => ""
                          end)).
Proof.
  intros H.
  apply extract_course_details_record
    in H as (soup & title_line & x & groups & rest & i & B & T & S & H).
  cbv zeta in H. exists soup. split; [exact B|]. cbv zeta.
  destruct H as (_ & _ & _ & _ & _ & _ & _ & _ & H1 & H2 & H3 & H4 & _).
  rewrite H1, H2, H3, H4. unfold Catalog.get_default, last_code.
  rewrite !name_value_map_cells, !dict_get_update. cbn [dict_get].
  destruct (last_value "School" _), (last_value "Career" _),
    (last_value "Units" _), (last_value "Typically Offered" _);
    repeat split; reflexivity.
Qed.

End DetailPage.

Lemma course_heading_fields_witness :
  exists soup title_line before catalog after,
    Ok (Soup.Text "") = Ok soup
    /\ hd_error (Spec.sample_select "CS 1101 - Programming"
                   "#courseDetailDialog h1" soup) = Some title_line
    /\ Spec.catalog_shape catalog
    /\ Str.strip (Catalog.text title_line)
       = (before ++ (catalog ++ " - ") ++ after)%string
    /\ Str.find (catalog ++ " - ") (Str.strip (Catalog.text title_line))
       = Some (String.length before)
    /\ dict_get "course_id" (Spec.sample_record "CS 1101 - Programming")
       = Some (VStr "101234")
    /\ dict_get "subject" (Spec.sample_record "CS 1101 - Programming")
       = Some (VStr "CS")
    /\ dict_get "catalog_number" (Spec.sample_record "CS 1101 - Programming")
       = Some (VStr catalog)
    /\ dict_get "display_name" (Spec.sample_record "CS 1101 - Programming")
       = Some (VStr ("CS" ++ " " ++ catalog)%string)
    /\ dict_get "long_title" (Spec.sample_record "CS 1101 - Programming")
       = Some (VStr (Str.strip after)).
Proof.
  apply (course_heading_fields
           Spec.sample_attribute_items (fun _ => Ok (Soup.Text ""))
           (Spec.sample_select "CS 1101 - Programming")
           (fun _ _ _ => None) (fun s => s) "<html>" "CS" "101234").
  reflexivity.
Defined.


Lemma attributes_column_witness :
  exists soup,
    Ok (Soup.Text "") = Ok soup
    /\ dict_get "attributes" (Spec.sample_record "CS 1101 - Programming")
       = Some (let codes :=
                 Spec.attribute_codes
                   (Mappings.ATTRIBUTE_MAP Spec.sample_attribute_items)
                   (fun s => s)
                   (Spec.sample_select "CS 1101 - Programming"
                      "#rightSection .detailPanel td:has(strong:-soup-contains('Attributes')) ~ td div" soup) in
               match codes with
               | [] => VNone
               | _ => VStr (Str.join ", " codes)
               end).
Proof.
  apply (attributes_column
           Spec.sample_attribute_items (fun _ => Ok (Soup.Text ""))
           (Spec.sample_select "CS 1101 - Programming")
           (fun _ _ _ => None) (fun s => s) "<html>" "CS" "101234").
  reflexivity.
Defined.

Lemma component_code_of_unchanged_text_witness :
  exists soup,
    Ok (Soup.Text "") = Ok soup
    /\ let components :=
         Catalog.get_default
           (Catalog.name_value_map
              (Spec.sample_select "CS 1101 - Programming"
                                  ".detailPanel .nameValueTable tr" soup))
           "Components" "" in
       Str.mem_char "\" components = false ->
       dict_get "component_code" (Spec.sample_record "CS 1101 - Programming")
       = Some (of_option (dict_get (Str.strip components)
                                   Mappings.COMPONENT_MAP)).
Proof.
  apply (component_code_of_unchanged_text
           Spec.sample_attribute_items (fun _ => Ok (Soup.Text ""))
           (Spec.sample_select "CS 1101 - Programming")
           (fun _ _ _ => None) (fun s => s) "<html>" "CS" "101234").
  reflexivity.
Defined.

Lemma requirement_columns_witness :
  exists outcome, Spec.sample_details "CS 1101 - Programming" = Ok outcome.
Proof.
  apply (requirement_columns
           Spec.sample_attribute_items (fun _ => Ok (Soup.Text ""))
           (Spec.sample_select "CS 1101 - Programming")
           (fun _ _ _ => None) (fun s => s) "<html>" "CS" "101234"
           (Soup.Text "")).
  reflexivity.
Defined.

Lemma detail_table_columns_witness :
  exists soup,
    Ok (Soup.Text "") = Ok soup
    /\ let detail_cells :=
         Spec.name_value_cells
           (Spec.sample_select "CS 1101 - Programming"
                               ".detailPanel .nameValueTable tr" soup) in
       let enrollment_cells :=
         Spec.name_value_cells
           (Spec.sample_select "CS 1101 - Programming"
              "#rightSection .detailPanel .nameValueTable tr" soup) in
       dict_get "school_code" (Spec.sample_record "CS 1101 - Programming")
       = Some (Spec.last_code Mappings.SCHOOL_MAP "School" detail_cells)
       /\ dict_get "career_code" (Spec.sample_record "CS 1101 - Programming")
          = Some (Spec.last_code Mappings.CAREER_MAP "Career" detail_cells)
       /\ dict_get "units_earned" (Spec.sample_record "CS 1101 - Programming")
          = Some (VStr (Str.strip
                          match Spec.last_value "Units" detail_cells with
                          | Some v => v
                          | None => "0"
                          end))
       /\ dict_get "term_offered" (Spec.sample_record "CS 1101 - Programming")
          = Some (VStr (Catalog.term_offered
                          match Spec.last_value "Typically Offered"
                                                enrollment_cells with
                          | Some v => v
                          | None => ""
                          end)).
Proof.
  apply (detail_table_columns
           Spec.sample_attribute_items (fun _ => Ok (Soup.Text ""))
           (Spec.sample_select "CS 1101 - Programming")
           (fun _ _ _ => None) (fun s => s) "<html>" "CS" "101234").
  reflexivity.
Defined.

(* ================================================================= *)
(** ** Course catalog: the scan *)

Section CatalogScan.

Import Spec.

Variable SUBJECT_ITEMS ATTRIBUTE_ITEMS : list (string * string).
Variable requests_get : string -> result string.
Variable BeautifulSoup : string -> result Soup.node.
Variable select : string -> Soup.node -> list Soup.node.
Variable find_next_sibling :
  Soup.node -> string -> string -> option Soup.node.
Variable unescape : string -> string.

Let extract_course_details :=
  Catalog.extract_course_details ATTRIBUTE_ITEMS BeautifulSoup select
                                 find_next_sibling unescape.
Let process_entry :=
  Catalog.process_entry ATTRIBUTE_ITEMS requests_get BeautifulSoup select
                        find_next_sibling unescape.
Let process_entries :=
  Catalog.process_entries ATTRIBUTE_ITEMS requests_get BeautifulSoup select
                          find_next_sibling unescape.
Let process_subject :=
  Catalog.process_subject ATTRIBUTE_ITEMS requests_get BeautifulSoup select
                          find_next_sibling unescape.
Let main :=
  Catalog.main SUBJECT_ITEMS ATTRIBUTE_ITEMS requests_get BeautifulSoup select
               find_next_sibling unescape.

Let detail_url (e : Catalog.candidate) : string :=
  Catalog.BASE_DETAIL_URL (fst (fst (fst e))) (snd (fst (fst e))).

(** A record is never refused by the writer. *)
Lemma record_is_written (html subject_code course_id : string) (r : row)
      (w : Catalog.io) :
  extract_course_details html subject_code course_id = Ok (Some r) ->
  truthy (VDict r) = true
  /\ (exists v, getitem r "display_name" = Ok v)
  /\ Catalog.writerow r w
     = Ok {| Catalog.written := Catalog.written w ++ [r];
             Catalog.requested := Catalog.requested w |}.
Proof.
  intros H. pose proof (extract_course_details_columns _ _ _ _ _ _ _ _ _ H) as C.
  split; [|split].
  - destruct r as [|kv r]; [|reflexivity].
    destruct (proj2 (C "course_id")). cbn. auto.
  - unfold getitem. destruct (dict_get "display_name" r) as [v|] eqn:E.
    + now exists v.
    + apply dict_get_none in E. destruct E. apply C. cbn. auto 10.
  - unfold Catalog.writerow.
    replace (forallb _ (keys r)) with true; [reflexivity|].
    symmetry. apply forallb_forall. intros k Hk. apply existsb_exists.
    exists k. split; [now apply C|apply String.eqb_refl].
Qed.

Lemma process_entry_written (subject_code : string) (w : Catalog.io)
      (e : Catalog.candidate) :
  code_matches subject_code e = true ->
  Catalog.written (process_entry subject_code w e)
  = Catalog.written w
    ++ entry_rows requests_get extract_course_details subject_code e.
Proof.
  intros H. unfold process_entry, Catalog.process_entry, entry_rows.
  destruct e as [[[cid off] notif] code].
  change code with (snd (cid, off, notif, code)) at 1.
  rewrite differs_code_matches, H. cbn [negb fst snd].
  destruct (requests_get _) as [text|]; cbn [Catalog.send Catalog.written];
    [|now rewrite app_nil_r].
  fold extract_course_details.
  destruct (extract_course_details text subject_code cid) as [[r|]|] eqn:E;
    cbn [Catalog.written]; try now rewrite app_nil_r.
  destruct (record_is_written _ _ _ _
              (Catalog.send (Catalog.BASE_DETAIL_URL cid off) w) E)
    as (T & [v G] & W).
  rewrite T, G. cbn [bind]. rewrite W. reflexivity.
Qed.

Lemma process_entries_trace (subject_code : string)
      (entries : list Catalog.candidate) :
  forall w,
    Catalog.requested (process_entries subject_code entries w)
    = Catalog.requested w
      ++ map detail_url (filter (code_matches subject_code) entries)
    /\ Catalog.written (process_entries subject_code entries w)
       = Catalog.written w
         ++ flat_map (entry_rows requests_get extract_course_details
                                 subject_code)
                     (filter (code_matches subject_code) entries).
Proof.
  unfold process_entries, Catalog.process_entries. fold process_entry.
  induction entries as [|e entries IH]; intros w; cbn [fold_left filter].
  - cbn [map flat_map]. now rewrite !app_nil_r.
  - destruct (code_matches subject_code e) eqn:E.
    + destruct (IH (process_entry subject_code w e)) as [R W].
      rewrite R, W. unfold process_entry.
      rewrite process_entry_requests, process_entry_written by exact E.
      cbn [map flat_map]. now rewrite <- !app_assoc.
    + unfold process_entry. rewrite process_entry_skips by exact E.
      apply IH.
Qed.

Lemma process_subject_trace (w : Catalog.io) (subject : string * string) :
  Catalog.requested (process_subject w subject)
  = Catalog.requested w ++ subject_requests requests_get subject
  /\ Catalog.written (process_subject w subject)
     = Catalog.written w
       ++ subject_rows requests_get extract_course_details subject.
Proof.
  destruct subject as [subject_name subject_code].
  unfold process_subject, Catalog.process_subject, subject_requests,
    subject_rows.
  destruct (requests_get (Catalog.BASE_SEARCH_URL subject_name)) as [text|];
    cbn [Catalog.send Catalog.written Catalog.requested];
    [|now rewrite app_nil_r].
  destruct (Str.contains "No courses found." text);
    cbn [Catalog.send Catalog.written Catalog.requested];
    [now rewrite app_nil_r|].
  fold process_entries.
  destruct (process_entries_trace subject_code
              (Catalog.extract_course_ids text)
              (Catalog.send (Catalog.BASE_SEARCH_URL subject_name) w))
    as [R W].
  rewrite R, W. cbn [Catalog.send Catalog.written Catalog.requested].
  split; [|reflexivity]. now rewrite <- app_assoc.
Qed.

Lemma scan_trace (subjects : list (string * string)) :
  forall w,
    Catalog.requested (fold_left process_subject subjects w)
    = Catalog.requested w
      ++ flat_map (subject_requests requests_get) subjects
    /\ Catalog.written (fold_left process_subject subjects w)
       = Catalog.written w
         ++ flat_map (subject_rows requests_get extract_course_details)
                     subjects.
Proof.
  induction subjects as [|subject subjects IH]; intros w;
    cbn [fold_left flat_map].
  - now rewrite !app_nil_r.
  - destruct (IH (process_subject w subject)) as [R W].
    destruct (process_subject_trace w subject) as [R1 W1].
    rewrite R, W, R1, W1. now rewrite <- !app_assoc.
Qed.

(** X17: the scan sends, for each subject of the table in order, one
    search request and then one detail request per candidate whose
    verification code is the subject's code; after a failed search or a
    result that says "No courses found." it sends nothing more for that
    subject.  No subject is searched twice. *)
Theorem scan_requests :
  Catalog.requested main
  = flat_map (subject_requests requests_get)
             (Mappings.SUBJECT_MAP SUBJECT_ITEMS)
  /\ NoDup (keys (Mappings.SUBJECT_MAP SUBJECT_ITEMS))
  /\ (forall subject_name subject_code,
        (forall text,
            requests_get (Catalog.BASE_SEARCH_URL subject_name) = Ok text ->
            Str.contains "No courses found." text = true) ->
        subject_requests requests_get (subject_name, subject_code)
        = [Catalog.BASE_SEARCH_URL subject_name]).
Proof.
  split; [|split].
  - unfold main, Catalog.main. fold process_subject.
    now destruct (scan_trace (Mappings.SUBJECT_MAP SUBJECT_ITEMS)
                             {| Catalog.written := [];
                                Catalog.requested := [] |}) as [-> _].
  - apply nodup_dict_of.
  - intros subject_name subject_code H. unfold subject_requests.
    destruct (requests_get _) as [text|]; [|reflexivity].
    now rewrite (H text eq_refl).
Qed.

(** X18: the rows the scan writes are, subject by subject and candidate
    by candidate in order, the records of the matching candidates whose
    detail page is received and gives a record: no record is lost to the
    writer.  Every row has the sixteen columns of the table, and its
    subject column is a code of the subject table. *)
Theorem scan_rows :
  Catalog.written main
  = flat_map (subject_rows requests_get extract_course_details)
             (Mappings.SUBJECT_MAP SUBJECT_ITEMS)
  /\ forall r,
       In r (Catalog.written main) ->
       (forall column, In column (keys r) <-> In column Catalog.csv_keys)
       /\ exists subject_name subject_code,
            In (subject_name, subject_code)
               (Mappings.SUBJECT_MAP SUBJECT_ITEMS)
            /\ dict_get "subject" r = Some (VStr subject_code).
Proof.
  assert (E : Catalog.written main
              = flat_map (subject_rows requests_get extract_course_details)
                         (Mappings.SUBJECT_MAP SUBJECT_ITEMS)).
  { unfold main, Catalog.main. fold process_subject.
    now destruct (scan_trace (Mappings.SUBJECT_MAP SUBJECT_ITEMS)
                             {| Catalog.written := [];
                                Catalog.requested := [] |}) as [_ ->]. }
  split; [exact E|]. intros r H. rewrite E in H.
  apply in_flat_map in H as ([subject_name subject_code] & Hs & H).
  unfold subject_rows in H.
  destruct (requests_get (Catalog.BASE_SEARCH_URL subject_name)) as [text|];
    [|contradiction].
  destruct (Str.contains _ text); [contradiction|].
  apply in_flat_map in H as (e & _ & H). unfold entry_rows in H.
  destruct (requests_get _) as [detail_text|]; [|contradiction].
  destruct (extract_course_details detail_text subject_code _)
    as [[course_data|]|] eqn:D; try contradiction.
  destruct H as [<-|[]]. split.
  - exact (extract_course_details_columns _ _ _ _ _ _ _ _ _ D).
  - exists subject_name, subject_code. split; [exact Hs|].
    apply extract_course_details_record
      in D as (soup & title_line & x & groups & rest & i & _ & _ & _ & D).
    cbv zeta in D. apply D.
Qed.

End CatalogScan.

(** X19: candidates and notification strings are paired by position
    alone: the candidate at index i of the result is the i-th
    (course_id, offer_number) match with the i-th notification string of
    the document, whatever their places in the text, and its verification
    code is derived from that string. *)
Theorem candidates_paired_by_position (html : string) (i : nat) :
  nth_error (Catalog.extract_course_ids html) i
  = option_map
      (fun id : string * string =>
         (fst id, snd id, nth_error (Catalog.notification_matches html) i,
          Catalog.verification_code_of
            (nth_error (Catalog.notification_matches html) i)))
      (nth_error (Catalog.id_matches html) i).
Proof.
  unfold Catalog.extract_course_ids.
  assert (G : forall ids notifications i0 j,
             nth_error (Catalog.pair_candidates i0 ids notifications) j
             = option_map
                 (fun id : string * string =>
                    (fst id, snd id, nth_error notifications (i0 + j),
                     Catalog.verification_code_of
                       (nth_error notifications (i0 + j))))
                 (nth_error ids j)).
  { induction ids as [|[cid off] ids IH]; intros notifications i0 j;
      cbn [Catalog.pair_candidates].
    - now destruct j.
    - destruct j as [|j]; cbn [nth_error option_map fst snd].
      + rewrite Nat.add_0_r.
        destruct (i0 <? List.length notifications) eqn:L; [reflexivity|].
        apply Nat.ltb_ge in L. apply nth_error_None in L. now rewrite L.
      + rewrite IH. now rewrite Nat.add_succ_r. }
  apply (G _ _ 0 i).
Qed.

(* ================================================================= *)
(** ** The subject table extracted from the HTML page *)

Section SortedFacts.

Import HtmlSubjects.

Lemma insert_sorted_perm (a : string * string) (l : list (string * string)) :
  Permutation (insert_sorted a l) (a :: l).
Proof.
  induction l as [|b l IH]; cbn [insert_sorted]; [reflexivity|].
  destruct (item_le b a); [|reflexivity].
  rewrite IH. apply perm_swap.
Qed.

Lemma sorted_perm (items : list (string * string)) :
  Permutation (sorted items) items.
Proof.
  induction items as [|a items IH]; cbn [sorted fold_right]; [reflexivity|].
  fold (sorted items). rewrite insert_sorted_perm. now constructor.
Qed.

Lemma item_le_total (a b : string * string) :
  item_le a b = false -> item_le b a = true.
Proof.
  unfold item_le. rewrite (String.compare_antisym (fst b) (fst a)).
  destruct (String.compare (fst a) (fst b)); cbn [CompOpp];
    try discriminate; [|reflexivity].
  intros H. destruct (String.leb_total (snd a) (snd b)); congruence.
Qed.

Lemma insert_sorted_ordered (a : string * string)
      (l : list (string * string)) :
  Sorted (fun x y => item_le x y = true) l ->
  Sorted (fun x y => item_le x y = true) (insert_sorted a l).
Proof.
  induction 1 as [|b l S IH H]; cbn [insert_sorted].
  - repeat constructor.
  - destruct (item_le b a) eqn:E.
    + constructor; [exact IH|].
      destruct H as [|c l' H]; cbn [insert_sorted].
      * now constructor.
      * destruct (item_le c a); now constructor.
    + constructor; [now constructor|].
      constructor. now apply item_le_total.
Qed.

Lemma sorted_ordered (items : list (string * string)) :
  Sorted (fun x y => item_le x y = true) (sorted items).
Proof.
  induction items as [|a items IH]; cbn [sorted fold_right];
    [constructor|]. now apply insert_sorted_ordered.
Qed.

(** Without two items of the same title the order is strict. *)
Lemma ordered_strict (l : list (string * string)) :
  Sorted (fun x y => item_le x y = true) l ->
  NoDup (map fst l) ->
  Sorted Spec.title_lt l.
Proof.
  induction 1 as [|a l S IH H]; intros N; [constructor|].
  cbn [map] in N. inversion N as [|x xs Nin N']; subst.
  constructor; [now apply IH|].
  destruct H as [|b l' H]; constructor.
  unfold Spec.title_lt. unfold item_le in H.
  destruct (String.compare (fst a) (fst b)) eqn:C;
    [|reflexivity|discriminate].
  apply String.compare_eq_iff in C. destruct Nin. cbn [map]. now left.
Qed.

Lemma sorted_strict (items : list (string * string)) :
  NoDup (map fst items) -> Sorted Spec.title_lt (sorted items).
Proof.
  intros N. apply ordered_strict; [apply sorted_ordered|].
  apply (Permutation_NoDup (l := map fst items)); [|exact N].
  apply Permutation_map. symmetry. apply sorted_perm.
Qed.

End SortedFacts.

Section EscapeFacts.

Import HtmlSubjects.

Lemma escaped_head (title : string) (s : string) :
  replace_char "'" "\'" title <> String "'" s.
Proof.
  destruct title as [|c title]; cbn [replace_char]; [discriminate|].
  destruct (Ascii.eqb_spec c "'") as [->|N]; cbn [String.append].
  - discriminate.
  - intros [= E _]. contradiction.
Qed.

Lemma unescape_escaped (title : string) :
  Spec.unescape_quotes (replace_char "'" "\'" title) = title.
Proof.
  induction title as [|c title IH]; [reflexivity|].
  cbn [replace_char].
  destruct (Ascii.eqb_spec c "'") as [->|N].
  - cbn [String.append Spec.unescape_quotes Ascii.eqb Bool.eqb andb].
    now rewrite IH.
  - cbn [Spec.unescape_quotes].
    destruct (replace_char "'" "\'" title) as [|c' s''] eqn:E.
    + cbn [Spec.unescape_quotes] in IH. now rewrite <- IH.
    + destruct (Ascii.eqb_spec c' "'") as [->|N'].
      * now apply escaped_head in E.
      * rewrite andb_false_r. now rewrite IH.
Qed.

Lemma quotes_after_escaped (title : string) (b : bool) :
  Spec.quotes_after b (replace_char "'" "\'" title) = true.
Proof.
  revert b; induction title as [|c title IH]; intros b; [reflexivity|].
  cbn [replace_char].
  destruct (Ascii.eqb_spec c "'") as [->|N].
  - cbn [String.append Spec.quotes_after Ascii.eqb Bool.eqb andb].
    apply IH.
  - cbn [Spec.quotes_after].
    destruct (Ascii.eqb_spec c "'") as [|_]; [contradiction|].
    cbn [andb]. apply IH.
Qed.

(** X20: escaping a title puts a backslash before every quote and changes
    nothing else: a title without quote is written as it is (a backslash
    of the title is not doubled), and two different titles are never
    written alike. *)
Theorem escaped_title_facts :
  (forall title, Spec.quotes_escaped (replace_char "'" "\'" title) = true)
  /\ (forall title,
        Str.mem_char "'" title = false ->
        replace_char "'" "\'" title = title)
  /\ (forall title title',
        replace_char "'" "\'" title = replace_char "'" "\'" title' ->
        title = title').
Proof.
  split; [|split].
  - intros title. apply quotes_after_escaped.
  - induction title as [|c title IH]; [reflexivity|].
    cbn [Str.mem_char replace_char]. rewrite Ascii.eqb_sym.
    intros H. apply orb_false_iff in H as [-> H]. f_equal. now apply IH.
  - intros title title' H.
    rewrite <- (unescape_escaped title), <- (unescape_escaped title').
    now rewrite H.
Qed.

End EscapeFacts.

Section SubjectTable.

Import Spec HtmlSubjects.

Variable read_html : string -> result Soup.node.
Variable attr : Soup.node -> string -> option string.
Variable dirname : string -> string.
Variable makedirs : string -> result unit.
Variable open_write : string -> result unit.

Let extract_subject_mappings :=
  HtmlSubjects.extract_subject_mappings read_html attr.
Let save_mappings_to_file :=
  HtmlSubjects.save_mappings_to_file dirname makedirs open_write.
Let main := HtmlSubjects.main read_html attr dirname makedirs open_write.

Lemma containers_update (containers : list Soup.node) :
  forall m,
    fold_left (add_container attr) containers m
    = dict_update m (container_items attr containers).
Proof.
  induction containers as [|container containers IH]; intros m;
    cbn [fold_left]; [reflexivity|].
  rewrite IH. unfold container_items at 2. cbn [flat_map].
  fold (container_items attr containers).
  unfold dict_update at 2. rewrite fold_left_app. fold (dict_update m).
  f_equal. unfold add_container.
  destruct (Soup.find "input" (Some "multiSelectOption") container)
    as [input_tag|]; [|reflexivity].
  destruct (attr input_tag "title") as [title|]; [|reflexivity].
  destruct (attr input_tag "value") as [value|]; [|reflexivity].
  now destruct (Soup.nonempty title && Soup.nonempty value).
Qed.


Lemma extract_subject_mappings_items (html_file_path : string) :
  extract_subject_mappings html_file_path
  = match read_html html_file_path with
    | Ok soup =>
        dict_of (container_items attr
                   (Soup.find_all "div" (Some "multiSelectOptionContainer")
                                  soup))
    | Raise _ => []
    end.
Proof.
  unfold extract_subject_mappings, HtmlSubjects.extract_subject_mappings.
  destruct (read_html html_file_path) as [soup|]; [|reflexivity].
  apply containers_update.
Qed.


Lemma entry_lines_join (items : list (string * string)) :
  forall i n,
    n = i + List.length items ->
    entry_lines i n items
    = match items with
      | [] => ""
      | _ => (Str.join ("," ++ newline) (map bare_line items)
              ++ newline)%string
      end.
Proof.
  induction items as [|[title value] items IH]; intros i n E;
    [reflexivity|].
  cbn [entry_lines]. rewrite (IH (S i) n) by (cbn [List.length] in E; lia).
  unfold entry_line. cbv zeta.
  destruct items as [|item items].
  - replace (i <? n - 1) with false
      by (symmetry; apply Nat.ltb_ge; cbn [List.length] in E; lia).
    unfold Str.join, bare_line. cbn [map String.concat fst snd].
    rewrite !append_assoc. cbn [String.append]. now rewrite !append_nil_r.
  - replace (i <? n - 1) with true
      by (symmetry; apply Nat.ltb_lt; cbn [List.length] in E; lia).
    unfold Str.join, bare_line.
    cbn [map fst snd]. cbn [String.concat].
    rewrite !append_assoc. cbn [String.append]. reflexivity.
Qed.

(** X22: when the run writes the file, the file holds the fixed head and
    one entry per extracted mapping: every mapping once, in strictly
    ascending order of title, the entries separated by a comma and a line
    end with no comma after the last; the table is closed by a brace. *)
Theorem subject_file_contents (text : string) :
  main = Some text ->
  let items := sorted (extract_subject_mappings html_path) in
  items <> []
  /\ Permutation items (extract_subject_mappings html_path)
  /\ Sorted title_lt items
  /\ text = (table_head
             ++ Str.join ("," ++ newline) (map bare_line items)
             ++ newline ++ "}" ++ newline)%string.
Proof.
  intros H items. unfold main, HtmlSubjects.main in H.
  fold extract_subject_mappings in H. cbv zeta in H.
  assert (P : Permutation items (extract_subject_mappings html_path))
    by apply sorted_perm.
  assert (N : extract_subject_mappings html_path <> []).
  { intros E. rewrite E in H. discriminate. }
  assert (N' : items <> []).
  { intros E. rewrite E in P. now apply Permutation_nil in P. }
  split; [exact N'|]. split; [exact P|]. split.
  - apply sorted_strict. rewrite extract_subject_mappings_items.
    destruct (read_html html_path); [apply nodup_dict_of|constructor].
  - assert (S : snd (HtmlSubjects.save_mappings_to_file
                       dirname makedirs open_write
                       (extract_subject_mappings html_path) output_path)
                = Some text).
    { destruct (extract_subject_mappings html_path);
        [contradiction|exact H]. }
    unfold HtmlSubjects.save_mappings_to_file in S.
    destruct (makedirs _); [|discriminate].
    destruct (open_write _); [|discriminate].
    cbn [snd] in S.
    injection S as <-. unfold file_text. cbv zeta. fold items.
    rewrite (entry_lines_join items 0 (List.length items)) by reflexivity.
    destruct items as [|item items']; [contradiction|].
    unfold table_head. rewrite !append_assoc. reflexivity.
Qed.

End SubjectTable.

Lemma subject_file_contents_witness :
  let items :=
    HtmlSubjects.sorted
      (HtmlSubjects.extract_subject_mappings
         (fun _ => Ok Spec.sample_subjects_page) Spec.sample_attr
         HtmlSubjects.html_path) in
  items <> []
  /\ Permutation items
       (HtmlSubjects.extract_subject_mappings
          (fun _ => Ok Spec.sample_subjects_page) Spec.sample_attr
          HtmlSubjects.html_path)
  /\ Sorted Spec.title_lt items
  /\ HtmlSubjects.file_text
       [("Physics", "PHY"); ("Women's and Gender Studies", "WGS");
        ("Computer Science", "CS")]
     = (Spec.table_head
        ++ Str.join ("," ++ HtmlSubjects.newline) (map Spec.bare_line items)
        ++ HtmlSubjects.newline ++ "}" ++ HtmlSubjects.newline)%string.
Proof.
  apply (subject_file_contents
           (fun _ => Ok Spec.sample_subjects_page) Spec.sample_attr
           (fun s => s) (fun _ => Ok tt) (fun _ => Ok tt)).
  reflexivity.
Defined.

(* ================================================================= *)
(** ** Worked examples *)

Example header_pattern_prefix_match :
  Re.re_match ClassSections.header_pattern "MATH-2300W-01A"
  = Some ["MATH"; "2300W"; "01"].
Proof. reflexivity. Qed.

Example header_pattern_long_subject :
  Re.re_match ClassSections.header_pattern "ABCDEFG-1101-01" = None.
Proof. reflexivity. Qed.

Example colon_split_first_colon_only :
  Re.split_once ClassSections.colon_pattern "CS-1101-01 : Intro: part two"
  = ["CS-1101-01"; "Intro: part two"].
Proof. reflexivity. Qed.

Example code_of_last_hyphen :
  Catalog.verification_code_of (Some "CS-3250-01") = Some "CS-3250".
Proof. reflexivity. Qed.

Example code_without_number :
  Catalog.verification_code_of (Some "CS-3250-") = None.
Proof. reflexivity. Qed.

Example split_keeps_empty_pieces :
  Str.split "ab" None "xabyabab" = ["x"; "y"; ""; ""].
Proof. reflexivity. Qed.

Example strip_set_then_strip :
  Str.strip (Str.strip_set ":; " " MATH 1300; ") = "MATH 1300".
Proof. reflexivity. Qed.

Example anti_requisite_segment :
  Catalog.extract_requirement_text
    "Not open to students who have earned credit for CS 1100. Prerequisite: MATH 1300"
    "Not open to students who have earned credit for"
  = Ok (Some "CS 1100.").
Proof. reflexivity. Qed.

Example scan_skips_failed_ids :
  ClassSections.main_scan
    (fun u => if Str.contains "classNumber=1001" u
              then Raise RequestException else Ok Spec.page_text)
    (fun _ => Ok Spec.page_with_panel) (fun _ => Raise ValueError)
    1000 1003
  = Ok [ [ ("class_number", VStr "1000");
           ("display_name", VStr "CS-1101");
           ("long_title", VStr "Intro to Computing");
           ("subject", VStr "CS");
           ("catalog_number", VStr "1101");
           ("section_number", VStr "01");
           ("school_code", VStr "ENGIN");
           ("career_code", VNone);
           ("component_code", VStr "LEC");
           ("units_earned", VNone) ];
         [ ("class_number", VStr "1002");
           ("display_name", VStr "CS-1101");
           ("long_title", VStr "Intro to Computing");
           ("subject", VStr "CS");
           ("catalog_number", VStr "1101");
           ("section_number", VStr "01");
           ("school_code", VStr "ENGIN");
           ("career_code", VNone);
           ("component_code", VStr "LEC");
           ("units_earned", VNone) ] ].
Proof. reflexivity. Qed.
